(** * SpeechTide: hotkey, capture and transcription pipeline

    A shallow embedding of the voice-capture-to-text pipeline of
    SpeechTide ([src/hotkey_manager.py], [src/audio_recorder.py],
    [src/openai_client.py], [src/menu_bar.py]) together with the
    properties its specification states about it.

    Conventions of the embedding:
    - every Python object is a record, every method a function from the
      record (and the method's arguments) to the updated record;
    - what a method does to the outside world (a callback thread it
      starts, a message it sends, a notification it shows, a line it
      logs) is appended to a list kept in the record;
    - a Python exception is a value of a sum or option type;
    - [bytes] is [list byte], a Python [int] is [Z], and a [str] is the
      [string] of its UTF-8 encoding, cut into characters by [Py.chars];
    - Python floats are exact numbers: rationals ([Q]) for the hotkey
      timing, reals ([R]) for the volume meter, whose square root leaves
      the rationals.  Rounding of binary64 is not modelled. *)

From Stdlib Require Import ZArith QArith Reals Lra Lia List Ascii String Bool.
From Stdlib Require Import Strings.Byte.
From stdpp Require Import gmap strings list.

Set Default Proof Using "Type".

(** ** Python values shared by the modules below *)

Definition bytes : Type := list byte.

#[export] Instance byte_eq_decision : EqDecision byte := Byte.byte_eq_dec.

(** The exceptions the pipeline meets. *)
Inductive Exception : Type :=
| ValueError (msg : string)
| wave_Error (msg : string)
| struct_error (msg : string)
| OSError (msg : string)
| APIError (msg : string)
| AttributeError (msg : string).

(** [str(e)]. *)
Definition str_of (e : Exception) : string :=
  match e with
  | ValueError msg | wave_Error msg | struct_error msg | OSError msg
  | APIError msg | AttributeError msg => msg
  end.

(** A call that returns or raises. *)
Definition result (A : Type) : Type := A + Exception.

Definition ret {A : Type} (a : A) : result A := inl a.
Definition raise {A : Type} (e : Exception) : result A := inr e.
Definition bind {A B : Type} (m : result A) (k : A -> result B) : result B :=
  match m with
  | inl a => k a
  | inr e => inr e
  end.

#[export] Instance result_ret : MRet result := @ret.
#[export] Instance result_bind : MBind result :=
  fun A B (k : A -> result B) (m : result A) => bind m k.

Definition Z_of_byte (b : byte) : Z := Z.of_N (Byte.to_N b).

Definition byte_of_Z (z : Z) : byte :=
  match Byte.of_N (Z.to_N (z mod 256)) with
  | Some b => b
  | None => x00
  end.

(** ** Python string and encoding helpers *)

Module Py.

Local Open Scope string_scope.
Local Open Scope list_scope.

(** A [str] is kept as the bytes of its UTF-8 encoding.  A byte in
    0x80-0xBF continues the character the bytes before it started. *)
Definition is_continuation (c : ascii) : bool :=
  let n := N_of_ascii c in
  ((128 <=? n) && (n <? 192))%N.

(** The string goes on with a continuation byte. *)
Definition continues (s : string) : bool :=
  match s with
  | String d _ => is_continuation d
  | EmptyString => false
  end.

(** The characters of a [str], in order: every byte that is not a
    continuation byte starts a character, and the continuation bytes
    that follow it belong to it. *)
Fixpoint chars (s : string) : list string :=
  match s with
  | EmptyString => []
  | String c rest =>
      match chars rest with
      | ch :: more =>
          if continues rest then String c ch :: more
          else String c EmptyString :: ch :: more
      | [] => [String c EmptyString]
      end
  end.

(** [''.join(l)]. *)
Definition join (l : list string) : string :=
  fold_right String.append EmptyString l.

(** [len(s)]. *)
Definition len (s : string) : nat := length (chars s).

(** [s[:n]]. *)
Definition slice_to (n : nat) (s : string) : string :=
  join (firstn n (chars s)).

(** [chr(n)], for a code point below 0x110000. *)
Definition chr (n : N) : string :=
  let byte (k : N) : ascii := ascii_of_N k in
  (if n <? 128 then String (byte n) ""
   else if n <? 2048 then
     String (byte (192 + n / 64)) (String (byte (128 + n mod 64)) "")
   else if n <? 65536 then
     String (byte (224 + n / 4096))
       (String (byte (128 + n / 64 mod 64))
          (String (byte (128 + n mod 64)) ""))
   else
     String (byte (240 + n / 262144))
       (String (byte (128 + n / 4096 mod 64))
          (String (byte (128 + n / 64 mod 64))
             (String (byte (128 + n mod 64)) ""))))%N.

(** The code points of the characters [str.isspace], [str.strip] and
    [str.split] count as white space. *)
Definition whitespace : list N :=
  [9; 10; 11; 12; 13; 28; 29; 30; 31; 32; 133; 160; 5760;
   8192; 8193; 8194; 8195; 8196; 8197; 8198; 8199; 8200; 8201; 8202;
   8232; 8233; 8239; 8287; 12288]%N.

(** [ch.isspace()] for one character. *)
Definition isspace (ch : string) : bool :=
  existsb (fun n => String.eqb ch (chr n)) whitespace.

Fixpoint lstrip_chars (l : list string) : list string :=
  match l with
  | [] => []
  | ch :: rest => if isspace ch then lstrip_chars rest else l
  end.

Definition rstrip_chars (l : list string) : list string :=
  rev (lstrip_chars (rev l)).

(** [s.lstrip()], [s.rstrip()] and [s.strip()]. *)
Definition lstrip (s : string) : string := join (lstrip_chars (chars s)).

Definition rstrip (s : string) : string := join (rstrip_chars (chars s)).

Definition strip (s : string) : string :=
  join (rstrip_chars (lstrip_chars (chars s))).

(** [s.split()]: the maximal runs of characters that are not white
    space.  The first component says whether the characters start
    inside a word. *)
Fixpoint words_from (l : list string) : bool * list string :=
  match l with
  | [] => (false, [])
  | ch :: rest =>
      let '(inside, words) := words_from rest in
      if isspace ch then (false, words)
      else if inside then
        match words with
        | word :: others => (true, (ch +:+ word) :: others)
        | [] => (true, [ch])
        end
      else (true, ch :: words)
  end.

Definition split (s : string) : list string := snd (words_from (chars s)).

(** Truth value of a string: it is not empty. *)
Definition truthy (s : string) : bool :=
  match s with
  | EmptyString => false
  | _ => true
  end.

(** The base64 alphabet. *)
Definition b64_char (n : Z) : ascii :=
  ascii_of_N (Z.to_N
    (if n <? 26 then n + 65
     else if n <? 52 then n - 26 + 97
     else if n <? 62 then n - 52 + 48
     else if n =? 62 then 43
     else 47))%Z.

(** [base64.b64encode(_).decode('utf-8')]. *)
Fixpoint b64encode (b : bytes) : string :=
  match b with
  | [] => EmptyString
  | [b0] =>
      let n := (Z_of_byte b0 * 65536)%Z in
      String (b64_char (n / 262144 mod 64))
        (String (b64_char (n / 4096 mod 64)) "==")
  | [b0; b1] =>
      let n := (Z_of_byte b0 * 65536 + Z_of_byte b1 * 256)%Z in
      String (b64_char (n / 262144 mod 64))
        (String (b64_char (n / 4096 mod 64))
           (String (b64_char (n / 64 mod 64)) "="))
  | b0 :: b1 :: b2 :: rest =>
      let n := (Z_of_byte b0 * 65536 + Z_of_byte b1 * 256 + Z_of_byte b2)%Z in
      String (b64_char (n / 262144 mod 64))
        (String (b64_char (n / 4096 mod 64))
           (String (b64_char (n / 64 mod 64))
              (String (b64_char (n mod 64)) (b64encode rest))))
  end.

End Py.

(** ** Global hotkey management ([src/hotkey_manager.py]) *)

Module HotkeyManager.

Local Open Scope string_scope.

(** The [pynput] keys the manager can be configured with: the members
    of [Key] named in [KEY_MAPPING], and [KeyCode.from_char]. *)
Inductive Key : Type :=
| cmd_r | cmd_l | alt_r | alt_l | ctrl_r | ctrl_l
| shift_r | shift_l | space | esc | tab | enter
| KeyCode (char : string).

#[export] Instance Key_eq_dec : EqDecision Key.
Proof. solve_decision. Defined.

Definition Key_to_sum (k : Key) : N + string :=
  match k with
  | cmd_r => inl 0 | cmd_l => inl 1 | alt_r => inl 2 | alt_l => inl 3
  | ctrl_r => inl 4 | ctrl_l => inl 5 | shift_r => inl 6 | shift_l => inl 7
  | space => inl 8 | esc => inl 9 | tab => inl 10 | enter => inl 11
  | KeyCode char => inr char
  end%N.

Definition Key_of_sum (x : N + string) : Key :=
  match x with
  | inl 0 => cmd_r | inl 1 => cmd_l | inl 2 => alt_r | inl 3 => alt_l
  | inl 4 => ctrl_r | inl 5 => ctrl_l | inl 6 => shift_r | inl 7 => shift_l
  | inl 8 => space | inl 9 => esc | inl 10 => tab | inl _ => enter
  | inr char => KeyCode char
  end%N.

Lemma Key_of_to_sum (k : Key) : Key_of_sum (Key_to_sum k) = k.
Proof. destruct k; reflexivity. Qed.

#[export] Instance Key_countable : Countable Key :=
  inj_countable' Key_to_sum Key_of_sum Key_of_to_sum.

(** [KEY_MAPPING]: string representations to pynput keys. *)
Definition KEY_MAPPING (key_name : string) : option Key :=
  if String.eqb key_name "right_cmd" then Some cmd_r
  else if String.eqb key_name "left_cmd" then Some cmd_l
  else if String.eqb key_name "right_option" then Some alt_r
  else if String.eqb key_name "left_option" then Some alt_l
  else if String.eqb key_name "right_alt" then Some alt_r
  else if String.eqb key_name "left_alt" then Some alt_l
  else if String.eqb key_name "right_ctrl" then Some ctrl_r
  else if String.eqb key_name "left_ctrl" then Some ctrl_l
  else if String.eqb key_name "right_shift" then Some shift_r
  else if String.eqb key_name "left_shift" then Some shift_l
  else if String.eqb key_name "space" then Some space
  else if String.eqb key_name "esc" then Some esc
  else if String.eqb key_name "tab" then Some tab
  else if String.eqb key_name "enter" then Some enter
  else None.

(** [_get_key_object]: a mapped name, a single character, or
    [ValueError]. *)
Definition _get_key_object (key_name : string) : result Key :=
  match KEY_MAPPING key_name with
  | Some k => ret k
  | None =>
      if (Py.len key_name =? 1)%nat then ret (KeyCode key_name)
      else raise (ValueError ("Unknown key name: " ++ key_name))
  end.

(** What [self.logger] receives from the two handlers. *)
Inductive LogRecord : Type :=
| Hotkey_pressed (key_name : string)
| Hotkey_released (key_name : string) (hold_duration : Q)
| Hotkey_triggered (key_name : string).

(** The fields of [HotkeyManager].  [on_hotkey] says whether a
    callback is registered; [callback_threads] lists, oldest first, the
    arguments of the daemon threads [_trigger_hotkey] has started, one
    [on_hotkey(key_name)] call each: these are the signals the manager
    emits. *)
Record t : Type := mk {
  primary_key : Key;
  primary_key_name : string;
  on_hotkey : bool;
  is_running : bool;
  pressed_keys : gset Key;
  interaction_mode : string;
  key_pressed_time : gmap string Q;
  hold_threshold : Q;
  callback_threads : list string;
  logger : list LogRecord
}.

(** [__init__]: click mode, a threshold of 0.1 seconds.  The key is
    looked up before [self.logger] is assigned, and [_get_key_object]
    logs an unknown name through [self.logger] before it raises its
    [ValueError]: for an unknown name [__init__] raises the
    [AttributeError] of that access. *)
Definition __init__ (primary_key_arg : string) (on_hotkey_arg : bool)
  : result t :=
  match _get_key_object primary_key_arg with
  | inr _ =>
      raise (AttributeError
               "'HotkeyManager' object has no attribute 'logger'")
  | inl k =>
      ret {| primary_key := k;
             primary_key_name := primary_key_arg;
             on_hotkey := on_hotkey_arg;
             is_running := false;
             pressed_keys := ∅;
             interaction_mode := "click";
             key_pressed_time := ∅;
             hold_threshold := 1 # 10;
             callback_threads := [];
             logger := [] |}
  end.

(** Field updates. *)
Definition set_mode (self : t) (mode : string) : t :=
  mk (primary_key self) (primary_key_name self) (on_hotkey self)
     (is_running self) (pressed_keys self) mode (key_pressed_time self)
     (hold_threshold self) (callback_threads self) (logger self).

Definition set_pressed_keys (self : t) (s : gset Key) : t :=
  mk (primary_key self) (primary_key_name self) (on_hotkey self)
     (is_running self) s (interaction_mode self) (key_pressed_time self)
     (hold_threshold self) (callback_threads self) (logger self).

Definition set_key_pressed_time (self : t) (m : gmap string Q) : t :=
  mk (primary_key self) (primary_key_name self) (on_hotkey self)
     (is_running self) (pressed_keys self) (interaction_mode self) m
     (hold_threshold self) (callback_threads self) (logger self).

Definition set_callback_threads (self : t) (l : list string) : t :=
  mk (primary_key self) (primary_key_name self) (on_hotkey self)
     (is_running self) (pressed_keys self) (interaction_mode self)
     (key_pressed_time self) (hold_threshold self) l (logger self).

Definition log (self : t) (r : LogRecord) : t :=
  mk (primary_key self) (primary_key_name self) (on_hotkey self)
     (is_running self) (pressed_keys self) (interaction_mode self)
     (key_pressed_time self) (hold_threshold self) (callback_threads self)
     (logger self ++ [r]).

(** [set_interaction_mode]: only "click" and "hold" are accepted. *)
Definition set_interaction_mode (self : t) (mode : string) : t :=
  if String.eqb mode "click" || String.eqb mode "hold"
  then set_mode self mode
  else self.

(** [_trigger_hotkey]: logs, and starts one callback thread when a
    callback is registered. *)
Definition _trigger_hotkey (self : t) (key_name : string) : t :=
  let self := log self (Hotkey_triggered key_name) in
  if on_hotkey self
  then set_callback_threads self (callback_threads self ++ [key_name])
  else self.

(** [_handle_hotkey_press]: remembers the press time; click mode
    triggers at once. *)
Definition _handle_hotkey_press (self : t) (key_name : string)
    (press_time : Q) : t :=
  let self :=
    set_key_pressed_time self
      (<[key_name := press_time]> (key_pressed_time self)) in
  let self := log self (Hotkey_pressed key_name) in
  if String.eqb (interaction_mode self) "click"
  then _trigger_hotkey self key_name
  else self.

(** [_handle_hotkey_release]: nothing without a remembered press;
    otherwise the hold duration is computed and logged, hold mode
    triggers when the duration reaches the threshold, and the press is
    forgotten. *)
Definition _handle_hotkey_release (self : t) (key_name : string)
    (release_time : Q) : t :=
  match key_pressed_time self !! key_name with
  | None => self
  | Some press_time =>
      let hold_duration := (release_time - press_time)%Q in
      let self := log self (Hotkey_released key_name hold_duration) in
      let self :=
        if String.eqb (interaction_mode self) "hold"
           && Qle_bool (hold_threshold self) hold_duration
        then _trigger_hotkey self key_name
        else self in
      set_key_pressed_time self (delete key_name (key_pressed_time self))
  end.

(** What a listener callback can observe when a key event arrives:
    the wall clock at that moment, and the identifier of the thread
    the callback runs on ([None] for a thread that was never
    started). *)
Record Moment : Type := at_ {
  wall_clock : Q;
  thread_ident : option Z
}.

(** [threading.current_thread().ident or 0]. *)
Definition ident_or_0 (m : Moment) : Z :=
  match thread_ident m with
  | Some i => i
  | None => 0
  end.

(** [_on_key_press]: [current_time] is read from the current thread's
    identifier. *)
Definition _on_key_press (self : t) (key : Key) (now : Moment) : t :=
  let current_time := inject_Z (ident_or_0 now) in
  let self1 :=
    if decide (key = primary_key self)
    then _handle_hotkey_press self (primary_key_name self) current_time
    else self in
  set_pressed_keys self1 ({[ key ]} ∪ pressed_keys self1).

(** [_on_key_release]. *)
Definition _on_key_release (self : t) (key : Key) (now : Moment) : t :=
  let current_time := inject_Z (ident_or_0 now) in
  let self1 :=
    if decide (key = primary_key self)
    then _handle_hotkey_release self (primary_key_name self) current_time
    else self in
  set_pressed_keys self1 (pressed_keys self1 ∖ {[ key ]}).

(** The hold durations the release handler has computed, oldest
    first. *)
Definition hold_durations (self : t) : list Q :=
  omap (fun r => match r with
                 | Hotkey_released _ d => Some d
                 | _ => None
                 end) (logger self).

End HotkeyManager.

(** ** [struct.pack], little-endian unsigned fields *)

Module Struct.

Local Open Scope Z_scope.

(** The [n] low-order bytes of [v], least significant first. *)
Fixpoint le_bytes (n : nat) (v : Z) : bytes :=
  match n with
  | O => []
  | S n' => byte_of_Z v :: le_bytes n' (v / 256)
  end.

(** The number a little-endian byte string denotes. *)
Fixpoint le_value (bs : bytes) : Z :=
  match bs with
  | [] => 0
  | b :: rest => Z_of_byte b + 256 * le_value rest
  end.

(** Format ['<L']: four bytes, or [struct.error] out of range. *)
Definition pack_L (v : Z) : result bytes :=
  if (0 <=? v) && (v <? 2 ^ 32) then ret (le_bytes 4 v)
  else raise (struct_error "argument out of range").

(** Format ['<H']: two bytes, or [struct.error] out of range. *)
Definition pack_H (v : Z) : result bytes :=
  if (0 <=? v) && (v <? 2 ^ 16) then ret (le_bytes 2 v)
  else raise (struct_error "ushort format requires 0 <= number <= 65535").

End Struct.

(** ** [io.BytesIO]: a byte buffer with a position *)

Module BytesIO.

Record t : Type := mk {
  buffer : bytes;
  position : nat
}.

Definition empty : t := mk [] 0.

Definition tell (f : t) : nat := position f.

Definition seek (f : t) (p : nat) : t := mk (buffer f) p.

(** [write]: overwrites from the position on, extending the buffer
    (with zero bytes up to the position, when it lies past the end). *)
Definition write (f : t) (data : bytes) : t :=
  let p := position f in
  mk (take p (buffer f) ++ replicate (p - length (buffer f)) x00
        ++ data ++ drop (p + length data) (buffer f))
     (p + length data).

(** [read] to the end. *)
Definition read (f : t) : bytes * t :=
  (drop (position f) (buffer f),
   mk (buffer f) (Nat.max (position f) (length (buffer f)))).

End BytesIO.

(** ** The standard library's [wave.Wave_write]

    [_create_wav_data] delegates the container layout to Python's
    [wave] module; its writer is transcribed here (little-endian host,
    no sample conversion). *)

Module Wave.

Import Struct.
Local Open Scope Z_scope.

Definition WAVE_FORMAT_PCM : Z := 1.

Definition tag_RIFF : bytes := [x52; x49; x46; x46].
Definition tag_WAVE : bytes := [x57; x41; x56; x45].
Definition tag_fmt : bytes := [x66; x6d; x74; x20].
Definition tag_data : bytes := [x64; x61; x74; x61].

Record Wave_write : Type := mk {
  _file : BytesIO.t;
  _nchannels : Z;
  _sampwidth : Z;
  _framerate : Z;
  _nframes : Z;
  _nframeswritten : Z;
  _datawritten : Z;
  _datalength : Z;
  _headerwritten : bool;
  _form_length_pos : nat;
  _data_length_pos : nat
}.

(** [wave.open(f, 'wb')]. *)
Definition open (f : BytesIO.t) : Wave_write :=
  mk f 0 0 0 0 0 0 0 false 0 0.

Definition set_file (w : Wave_write) (f : BytesIO.t) : Wave_write :=
  mk f (_nchannels w) (_sampwidth w) (_framerate w) (_nframes w)
     (_nframeswritten w) (_datawritten w) (_datalength w)
     (_headerwritten w) (_form_length_pos w) (_data_length_pos w).

Definition setnchannels (w : Wave_write) (nchannels : Z) : result Wave_write :=
  if negb (_datawritten w =? 0)
  then raise (wave_Error "cannot change parameters after starting to write")
  else if nchannels <? 1 then raise (wave_Error "bad # of channels")
  else ret (mk (_file w) nchannels (_sampwidth w) (_framerate w) (_nframes w)
               (_nframeswritten w) (_datawritten w) (_datalength w)
               (_headerwritten w) (_form_length_pos w) (_data_length_pos w)).

Definition setsampwidth (w : Wave_write) (sampwidth : Z) : result Wave_write :=
  if negb (_datawritten w =? 0)
  then raise (wave_Error "cannot change parameters after starting to write")
  else if (sampwidth <? 1) || (4 <? sampwidth)
  then raise (wave_Error "bad sample width")
  else ret (mk (_file w) (_nchannels w) sampwidth (_framerate w) (_nframes w)
               (_nframeswritten w) (_datawritten w) (_datalength w)
               (_headerwritten w) (_form_length_pos w) (_data_length_pos w)).

(** [setframerate]; the rate is an integer here, so [int(round(_))]
    leaves it as it is. *)
Definition setframerate (w : Wave_write) (framerate : Z) : result Wave_write :=
  if negb (_datawritten w =? 0)
  then raise (wave_Error "cannot change parameters after starting to write")
  else if framerate <=? 0 then raise (wave_Error "bad frame rate")
  else ret (mk (_file w) (_nchannels w) (_sampwidth w) framerate (_nframes w)
               (_nframeswritten w) (_datawritten w) (_datalength w)
               (_headerwritten w) (_form_length_pos w) (_data_length_pos w)).

(** [struct.pack('<L4s4sLHHLLHH4s', ...)]. *)
Definition pack_header (form_length : Z) (format_tag nchannels framerate
    byte_rate block_align bits : Z) : result bytes :=
  b1 ← pack_L form_length;
  b2 ← pack_L 16;
  b3 ← pack_H format_tag;
  b4 ← pack_H nchannels;
  b5 ← pack_L framerate;
  b6 ← pack_L byte_rate;
  b7 ← pack_H block_align;
  b8 ← pack_H bits;
  ret (b1 ++ tag_WAVE ++ tag_fmt ++ b2 ++ b3 ++ b4 ++ b5 ++ b6 ++ b7 ++ b8
          ++ tag_data).

Definition _write_header (w : Wave_write) (initlength : Z) : result Wave_write :=
  let f := BytesIO.write (_file w) tag_RIFF in
  let nframes :=
    if _nframes w =? 0 then initlength / (_nchannels w * _sampwidth w)
    else _nframes w in
  let datalength := nframes * _nchannels w * _sampwidth w in
  let form_length_pos := BytesIO.tell f in
  hdr ← pack_header (36 + datalength) WAVE_FORMAT_PCM (_nchannels w)
           (_framerate w) (_nchannels w * _framerate w * _sampwidth w)
           (_nchannels w * _sampwidth w) (_sampwidth w * 8);
  let f := BytesIO.write f hdr in
  let data_length_pos := BytesIO.tell f in
  len ← pack_L datalength;
  let f := BytesIO.write f len in
  ret (mk f (_nchannels w) (_sampwidth w) (_framerate w) nframes
          (_nframeswritten w) (_datawritten w) datalength true
          form_length_pos data_length_pos).

Definition _ensure_header_written (w : Wave_write) (datasize : Z)
  : result Wave_write :=
  if _headerwritten w then ret w
  else if _nchannels w =? 0 then raise (wave_Error "# channels not specified")
  else if _sampwidth w =? 0 then raise (wave_Error "sample width not specified")
  else if _framerate w =? 0 then raise (wave_Error "sampling rate not specified")
  else _write_header w datasize.

Definition writeframesraw (w : Wave_write) (data : bytes) : result Wave_write :=
  w ← _ensure_header_written w (Z.of_nat (length data));
  let nframes := Z.of_nat (length data) / (_sampwidth w * _nchannels w) in
  let f := BytesIO.write (_file w) data in
  ret (mk f (_nchannels w) (_sampwidth w) (_framerate w) (_nframes w)
          (_nframeswritten w + nframes)
          (_datawritten w + Z.of_nat (length data)) (_datalength w)
          (_headerwritten w) (_form_length_pos w) (_data_length_pos w)).

Definition _patchheader (w : Wave_write) : result Wave_write :=
  if _datawritten w =? _datalength w then ret w
  else
    let curpos := BytesIO.tell (_file w) in
    let f := BytesIO.seek (_file w) (_form_length_pos w) in
    b ← pack_L (36 + _datawritten w);
    let f := BytesIO.write f b in
    let f := BytesIO.seek f (_data_length_pos w) in
    b ← pack_L (_datawritten w);
    let f := BytesIO.write f b in
    let f := BytesIO.seek f curpos in
    ret (mk f (_nchannels w) (_sampwidth w) (_framerate w) (_nframes w)
            (_nframeswritten w) (_datawritten w) (_datawritten w)
            (_headerwritten w) (_form_length_pos w) (_data_length_pos w)).

Definition writeframes (w : Wave_write) (data : bytes) : result Wave_write :=
  w ← writeframesraw w data;
  if negb (_datalength w =? _datawritten w) then _patchheader w else ret w.

(** [close], as the [with] statement calls it on leaving the block. *)
Definition close (w : Wave_write) : result Wave_write :=
  w ← _ensure_header_written w 0;
  if negb (_datalength w =? _datawritten w) then _patchheader w else ret w.

(** *** Reading a container back

    What a RIFF/WAVE reader finds in a file with the canonical 44-byte
    PCM header: the declared parameters, and the sample data the [data]
    chunk declares. *)

Record WavFile : Type := mkWav {
  nchannels : Z;
  framerate : Z;
  bits_per_sample : Z;
  frames : bytes
}.

Definition slice (b : bytes) (off len : nat) : bytes := take len (drop off b).

Definition read_wav (b : bytes) : option WavFile :=
  let datalength := le_value (slice b 40 4) in
  if bool_decide (slice b 0 4 = tag_RIFF)
     && bool_decide (slice b 8 4 = tag_WAVE)
     && bool_decide (slice b 12 4 = tag_fmt)
     && (le_value (slice b 16 4) =? 16)
     && (le_value (slice b 20 2) =? WAVE_FORMAT_PCM)
     && bool_decide (slice b 36 4 = tag_data)
     && (le_value (slice b 4 4) =? 36 + datalength)
     && (Z.of_nat (length b) =? 44 + datalength)
  then Some (mkWav (le_value (slice b 22 2)) (le_value (slice b 24 4))
                   (le_value (slice b 34 2)) (drop 44 b))
  else None.

End Wave.

(** ** Audio recording ([src/audio_recorder.py]) *)

Module AudioRecorder.

Local Open Scope Z_scope.

(** The [pyaudio] sample formats of [format_mapping]. *)
Inductive SampleFormat : Type :=
| paFloat32 | paInt32 | paInt24 | paInt16 | paUInt8.

(** [PyAudio.get_sample_size]: bytes per sample. *)
Definition get_sample_size (f : SampleFormat) : Z :=
  match f with
  | paFloat32 => 4
  | paInt32 => 4
  | paInt24 => 3
  | paInt16 => 2
  | paUInt8 => 1
  end.

Definition paContinue : Z := 0.

Definition lower_ascii (c : ascii) : ascii :=
  let n := N_of_ascii c in
  if ((65 <=? n) && (n <=? 90))%N then ascii_of_N (n + 32) else c.

Fixpoint lower (s : string) : string :=
  match s with
  | EmptyString => EmptyString
  | String c rest => String (lower_ascii c) (lower rest)
  end.

Definition format_mapping (format_str : string) : option SampleFormat :=
  if String.eqb format_str "int16" then Some paInt16
  else if String.eqb format_str "int24" then Some paInt24
  else if String.eqb format_str "int32" then Some paInt32
  else if String.eqb format_str "float32" then Some paFloat32
  else if String.eqb format_str "uint8" then Some paUInt8
  else None.

(** A binary64 value: a real number, an infinity or a NaN. *)
Inductive float64 : Type :=
| finite (x : R)
| infinity (negative : bool)
| nan.

Definition np_isfinite (x : float64) : bool :=
  match x with
  | finite _ => true
  | _ => false
  end.

(** [x >= 0]. *)
Definition ge_0 (x : float64) : bool :=
  match x with
  | finite r => if Rle_dec 0 r then true else false
  | infinity negative => negb negative
  | nan => false
  end.

Definition np_sqrt (x : float64) : float64 :=
  match x with
  | finite r => if Rle_dec 0 r then finite (sqrt r) else nan
  | infinity false => infinity false
  | _ => nan
  end.

(** Division by a positive finite constant. *)
Definition div_by (x : float64) (d : R) : float64 :=
  match x with
  | finite r => finite (r / d)
  | other => other
  end.

(** One signed 16-bit sample from its two bytes, low byte first. *)
Definition int16 (lo hi : byte) : Z :=
  let u := Z_of_byte lo + 256 * Z_of_byte hi in
  if u <? 32768 then u else u - 65536.

Fixpoint int16_samples (b : bytes) : list Z :=
  match b with
  | lo :: hi :: rest => int16 lo hi :: int16_samples rest
  | _ => []
  end.

(** [np.frombuffer(in_data, dtype=np.int16)]. *)
Definition np_frombuffer_int16 (in_data : bytes) : result (list Z) :=
  if Nat.even (length in_data) then ret (int16_samples in_data)
  else raise (ValueError "buffer size must be a multiple of element size").

(** [audio_array.astype(np.float64) ** 2]. *)
Definition squared (audio_array : list Z) : list R :=
  map (fun x => (IZR x * IZR x)%R) audio_array.

Definition sum_R (xs : list R) : R := fold_right Rplus 0%R xs.

(** [np.mean] of a list of finite values. *)
Definition np_mean (xs : list R) : float64 :=
  match xs with
  | [] => nan
  | _ => finite (sum_R xs / INR (length xs))
  end.

(** The guarded square root of [_audio_callback]:
    [np.sqrt(mean_val)] when [mean_val] is finite and not negative,
    [0.0] otherwise. *)
Definition volume_of_mean (mean_val : float64) : float64 :=
  if np_isfinite mean_val && ge_0 mean_val then np_sqrt mean_val
  else finite 0.

(** The value [_audio_callback] stores in [current_volume] for a
    sample array. *)
Definition volume_level (audio_array : list Z) : float64 :=
  if (0 <? length audio_array)%nat then
    let audio_squared := squared audio_array in
    let mean_val := np_mean audio_squared in
    let volume := volume_of_mean mean_val in
    div_by volume 32768
  else finite 0.

Inductive CallbackOutcome : Type :=
| returns
| raises (e : Exception).

Inductive LogRecord : Type :=
| info (msg : string)
| warning (msg : string)
| error (msg : string).

(** The fields of [AudioRecorder].  [audio_stream] says whether a
    hardware stream is open.  [volume_callback] is the registered
    observer: what it does when called with a level.  [observed] lists,
    oldest first, the levels the observer has been called with. *)
Record t : Type := mk {
  sample_rate : Z;
  channels : Z;
  chunk_size : Z;
  format : SampleFormat;
  is_recording : bool;
  audio_data : list bytes;
  audio_stream : bool;
  current_volume : float64;
  volume_callback : option (float64 -> CallbackOutcome);
  observed : list float64;
  logger : list LogRecord
}.

Record AudioConfig : Type := mkConfig {
  cfg_sample_rate : Z;
  cfg_channels : Z;
  cfg_chunk_size : Z;
  cfg_format : option string
}.

(** [__init__]. *)
Definition __init__ (audio_config : AudioConfig) : t :=
  let format_str :=
    lower (match cfg_format audio_config with
           | Some s => s
           | None => "int16"%string
           end) in
  let known := format_mapping format_str in
  mk (cfg_sample_rate audio_config) (cfg_channels audio_config)
     (cfg_chunk_size audio_config)
     (match known with Some f => f | None => paInt16 end)
     false [] false (finite 0) None []
     (match known with
      | Some _ => []
      | None => [warning "Unknown audio format, defaulting to paInt16"]
      end).

Definition set_is_recording (self : t) (b : bool) : t :=
  mk (sample_rate self) (channels self) (chunk_size self) (format self)
     b (audio_data self) (audio_stream self) (current_volume self)
     (volume_callback self) (observed self) (logger self).

Definition set_audio_data (self : t) (d : list bytes) : t :=
  mk (sample_rate self) (channels self) (chunk_size self) (format self)
     (is_recording self) d (audio_stream self) (current_volume self)
     (volume_callback self) (observed self) (logger self).

Definition set_audio_stream (self : t) (s : bool) : t :=
  mk (sample_rate self) (channels self) (chunk_size self) (format self)
     (is_recording self) (audio_data self) s (current_volume self)
     (volume_callback self) (observed self) (logger self).

Definition set_current_volume (self : t) (v : float64) : t :=
  mk (sample_rate self) (channels self) (chunk_size self) (format self)
     (is_recording self) (audio_data self) (audio_stream self) v
     (volume_callback self) (observed self) (logger self).

Definition set_observed (self : t) (l : list float64) : t :=
  mk (sample_rate self) (channels self) (chunk_size self) (format self)
     (is_recording self) (audio_data self) (audio_stream self)
     (current_volume self) (volume_callback self) l (logger self).

Definition log (self : t) (r : LogRecord) : t :=
  mk (sample_rate self) (channels self) (chunk_size self) (format self)
     (is_recording self) (audio_data self) (audio_stream self)
     (current_volume self) (volume_callback self) (observed self)
     (logger self ++ [r]).

(** [set_volume_callback]. *)
Definition set_volume_callback (self : t)
    (callback : option (float64 -> CallbackOutcome)) : t :=
  mk (sample_rate self) (channels self) (chunk_size self) (format self)
     (is_recording self) (audio_data self) (audio_stream self)
     (current_volume self) callback (observed self) (logger self).

(** [start_recording]; [device] is what [PyAudio.open] does: it opens
    the stream or raises. *)
Definition start_recording (self : t) (device : result unit)
  : t * result unit :=
  if is_recording self
  then (log self (warning "Recording already in progress"), ret ())
  else
    let self := set_audio_data self [] in
    let self := set_is_recording self true in
    match device with
    | inl _ =>
        let self := set_audio_stream self true in
        (log self (info "Audio recording started"), ret ())
    | inr e =>
        let self := log self (error "Failed to start recording") in
        (set_is_recording self false, raise e)
    end.

(** [_create_wav_data]: the chunks joined and written through
    [wave]; any exception on the way gives [b""]. *)
Definition _create_wav_data (self : t) : t * bytes :=
  let audio_bytes := concat (audio_data self) in
  let wav_buffer := BytesIO.empty in
  let written : result Wave.Wave_write :=
    wav_file ← Wave.setnchannels (Wave.open wav_buffer) (channels self);
    wav_file ← Wave.setsampwidth wav_file (get_sample_size (format self));
    wav_file ← Wave.setframerate wav_file (sample_rate self);
    wav_file ← Wave.writeframes wav_file audio_bytes;
    Wave.close wav_file in
  match written with
  | inl wav_file =>
      let wav_buffer := BytesIO.seek (Wave._file wav_file) 0 in
      (self, fst (BytesIO.read wav_buffer))
  | inr e => (log self (error "Failed to create WAV data"), [])
  end.

(** [stop_recording]: the recorded data as WAV bytes; [stream] is
    what stopping and closing the hardware stream does.  When that
    raises, the error is logged and [b""] returned. *)
Definition stop_recording (self : t) (stream : result unit) : t * bytes :=
  if negb (is_recording self)
  then (log self (warning "No recording in progress"), [])
  else
    let self := set_is_recording self false in
    let stopped : result t :=
      if audio_stream self then
        match stream with
        | inl _ => ret (set_audio_stream self false)
        | inr e => raise e
        end
      else ret self in
    match stopped with
    | inr e => (log self (error "Failed to stop recording"), [])
    | inl self =>
        match audio_data self with
        | _ :: _ =>
            let '(self, wav_data) := _create_wav_data self in
            (log self (info "Recording stopped"), wav_data)
        | [] => (log self (warning "No audio data recorded"), [])
        end
    end.

(** [_audio_callback], the PyAudio stream callback ([time_info] and
    [status_flags] are not used by it).  It returns
    [(in_data, paContinue)], or raises what [np.frombuffer] raises. *)
Definition _audio_callback (self : t) (in_data : bytes) (frame_count : Z)
  : t * result (bytes * Z) :=
  if is_recording self then
    let self := set_audio_data self (audio_data self ++ [in_data]) in
    match np_frombuffer_int16 in_data with
    | inr e => (self, raise e)
    | inl audio_array =>
        let self := set_current_volume self (volume_level audio_array) in
        let self :=
          match volume_callback self with
          | Some callback =>
              let self :=
                set_observed self (observed self ++ [current_volume self]) in
              match callback (current_volume self) with
              | returns => self
              | raises e => log self (error "Error in volume callback")
              end
          | None => self
          end in
        (self, ret (in_data, paContinue))
    end
  else (self, ret (in_data, paContinue)).

(** The capture thread: PyAudio calls [_audio_callback] once per
    hardware buffer, and stops calling it when the callback raises. *)
Fixpoint capture (self : t) (buffers : list bytes) : t :=
  match buffers with
  | [] => self
  | in_data :: rest =>
      match _audio_callback self in_data (chunk_size self) with
      | (self, inl _) => capture self rest
      | (self, inr _) => self
      end
  end.

End AudioRecorder.

(** ** The OpenAI client ([src/openai_client.py]) *)

Module OpenAIClient.

(** The keyword arguments of [client.audio.transcriptions.create]:
    one batch request to the remote service. *)
Record TranscriptionRequest : Type := mkRequest {
  model : string;
  file : bytes;
  file_name : string;
  response_format : string;
  language : option string
}.

(** Client-to-server messages of a real-time session. *)
Inductive ClientMessage : Type :=
| session_update
| input_audio_buffer_append (audio : string).

(** The connection of a real-time session: what was sent on it, oldest
    first. *)
Record WebSocket : Type := mkSocket {
  sent : list ClientMessage
}.

Inductive LogRecord : Type :=
| info (msg : string)
| error (msg : string).

(** The fields of [OpenAIClient].  [requests] lists, oldest first, the
    batch requests handed to the service. *)
Record t : Type := mk {
  api_key : string;
  base_url : string;
  realtime_connected : bool;
  realtime_websocket : option WebSocket;
  requests : list TranscriptionRequest;
  logger : list LogRecord
}.

Definition __init__ (api_key_arg base_url_arg : string) : t :=
  mk api_key_arg base_url_arg false None [] [info "OpenAI client initialized"].

Definition log (self : t) (r : LogRecord) : t :=
  mk (api_key self) (base_url self) (realtime_connected self)
     (realtime_websocket self) (requests self) (logger self ++ [r]).

Definition set_requests (self : t) (l : list TranscriptionRequest) : t :=
  mk (api_key self) (base_url self) (realtime_connected self)
     (realtime_websocket self) l (logger self).

Definition set_realtime (self : t) (connected : bool)
    (ws : option WebSocket) : t :=
  mk (api_key self) (base_url self) connected ws (requests self)
     (logger self).

(** The request [transcribe_audio] builds from its arguments. *)
Definition api_params (audio_data : bytes) (model_arg : string)
    (language_arg : option string) : TranscriptionRequest :=
  let audio_file := audio_data in
  let params := mkRequest "whisper-1" audio_file "audio.wav" "text" None in
  match language_arg with
  | Some l =>
      if Py.truthy l
      then mkRequest (model params) (file params) (file_name params)
             (response_format params) (Some l)
      else params
  | None => params
  end.

(** [transcribe_audio]; [service] is the remote endpoint: the text it
    answers a request with, or the exception the call raises.  The
    log line names the [model] argument. *)
Definition transcribe_audio (self : t)
    (service : TranscriptionRequest -> result string)
    (audio_data : bytes) (model_arg : string) (language_arg : option string)
  : t * result string :=
  let self := log self (info ("Starting transcription with model: " ++ model_arg)) in
  let request := api_params audio_data model_arg language_arg in
  let self := set_requests self (requests self ++ [request]) in
  match service request with
  | inl response =>
      let transcription := Py.strip response in
      (log self (info "Transcription completed"), ret transcription)
  | inr e => (log self (error "Transcription failed"), raise e)
  end.

(** The connection of [start_realtime_session] has opened: the socket
    is stored, the session is marked connected, and
    [_send_session_config] sends the configuration. *)
Definition _send_session_config (websocket : WebSocket) : WebSocket :=
  mkSocket (sent websocket ++ [session_update]).

Definition start_realtime_session_connected (self : t) : t :=
  let websocket := mkSocket [] in
  let self := set_realtime self true (Some websocket) in
  set_realtime self true (Some (_send_session_config websocket)).

(** [send_audio_data]: returns at once unless the session is connected
    and has a socket. *)
Definition send_audio_data (self : t) (audio_chunk : bytes) : t :=
  match realtime_websocket self with
  | Some websocket =>
      if realtime_connected self then
        let audio_base64 := Py.b64encode audio_chunk in
        let message := input_audio_buffer_append audio_base64 in
        set_realtime self true
          (Some (mkSocket (sent websocket ++ [message])))
      else self
  | None => self
  end.

(** [stop_realtime_session]; [running_loop] says whether the calling
    thread is running an event loop.  With a socket to close and no
    such loop, [asyncio.create_task] raises inside the [try]: the error
    is logged in place of the closing line. *)
Definition stop_realtime_session (self : t) (running_loop : bool) : t :=
  let self := set_realtime self false (realtime_websocket self) in
  match realtime_websocket self with
  | Some _ =>
      if running_loop then log self (info "Real-time session stopped")
      else log self (error "Error stopping real-time session")
  | None => log self (info "Real-time session stopped")
  end.

(** Everything the client has sent on its real-time connection. *)
Definition sent_messages (self : t) : list ClientMessage :=
  match realtime_websocket self with
  | Some websocket => sent websocket
  | None => []
  end.

End OpenAIClient.

(** ** The real-time session manager ([RealtimeSessionManager]) *)

Module RealtimeSessionManager.

(** The fields of [RealtimeSessionManager].  [loop] is the event loop
    of the session thread, once that thread has created it: the
    arguments of the [send_audio_data] coroutines submitted to it and
    not yet run, oldest first. *)
Record t : Type := mk {
  client : OpenAIClient.t;
  is_active : bool;
  loop : option (list bytes)
}.

Definition __init__ (openai_client : OpenAIClient.t) : t :=
  mk openai_client false None.

(** [start_session]: marks the session active and starts the session
    thread. *)
Definition start_session (self : t) : t :=
  if is_active self then self
  else mk (client self) true (loop self).

(** The session thread enters [_run_session_loop] and creates its
    event loop. *)
Definition _run_session_loop_begin (self : t) : t :=
  mk (client self) (is_active self) (Some []).

(** The connection opens inside [start_realtime_session]. *)
Definition connection_opened (self : t) : t :=
  mk (OpenAIClient.start_realtime_session_connected (client self))
     (is_active self) (loop self).

(** [send_audio]: submits a [send_audio_data] coroutine to the loop
    when the session is active and the loop exists; nothing
    otherwise. *)
Definition send_audio (self : t) (audio_data : bytes) : t :=
  match loop self with
  | Some pending =>
      if is_active self
      then mk (client self) (is_active self) (Some (pending ++ [audio_data]))
      else self
  | None => self
  end.

(** The event loop runs the oldest submitted coroutine. *)
Definition loop_run_next (self : t) : t :=
  match loop self with
  | Some (audio_data :: pending) =>
      mk (OpenAIClient.send_audio_data (client self) audio_data)
         (is_active self) (Some pending)
  | _ => self
  end.

(** The event loop runs every submitted coroutine, oldest first. *)
Definition loop_run_all (self : t) : t :=
  match loop self with
  | Some pending =>
      mk (fold_left OpenAIClient.send_audio_data pending (client self))
         (is_active self) (Some [])
  | None => self
  end.

(** [stop_session]; [running_loop] says whether the calling thread is
    running an event loop. *)
Definition stop_session (self : t) (running_loop : bool) : t :=
  if negb (is_active self) then self
  else mk (OpenAIClient.stop_realtime_session (client self) running_loop)
         false (loop self).

End RealtimeSessionManager.

(** ** The status bar application ([src/menu_bar.py]) *)

Module SpeechTideApp.

Local Open Scope string_scope.

(** The configuration values the pipeline reads. *)
Record Config : Type := mkConfig {
  openai_api_key : string;
  openai_base_url : string;
  openai_model_transcribe : string;
  language_recognition : option string;
  audio : AudioRecorder.AudioConfig
}.

(** [ConfigManager.DEFAULT_CONFIG], with an API key filled in. *)
Definition DEFAULT_CONFIG (api_key : string) : Config :=
  mkConfig api_key "https://api.openai.com/v1" "gpt-4o-mini" None
    (AudioRecorder.mkConfig 16000 1 1024 (Some "int16")).

(** [ConfigManager.validate_api_key]. *)
Definition validate_api_key (config : Config) : bool :=
  let api_key := openai_api_key config in
  Py.truthy api_key && Py.truthy (Py.strip api_key).

(** The status bar titles of [_update_menu_state]. *)
Inductive Icon : Type :=
| icon_no_api_key
| icon_transcribing
| icon_recording
| icon_idle.

(** One [ConversationLogger.log_interaction] call. *)
Record Interaction : Type := mkInteraction {
  logged_audio : bytes;
  logged_transcription : string;
  logged_mode : string
}.

(** What the application shows the user. *)
Inductive UserMessage : Type :=
| alert (title message : string)
| notification (title subtitle message : string).

Inductive LogRecord : Type :=
| info (msg : string)
| warning (msg : string)
| error (msg : string).

(** The fields of [SpeechTideApp].  [processing_threads] holds the
    argument of every [_process_audio] thread that was started and has
    not returned yet, oldest first: the transcription exchanges in
    flight.  [clipboard] lists the texts [TextInjector.insert_text] has
    delivered, [conversation_logger] the interactions logged, [shown]
    the alerts and notifications, all oldest first. *)
Record t : Type := mk {
  config : Config;
  is_recording : bool;
  is_transcribing : bool;
  _pending_start_recording : bool;
  _pending_stop_recording : bool;
  _pending_set_transcribing : bool;
  _pending_clear_transcribing : bool;
  audio_recorder : AudioRecorder.t;
  openai_client : OpenAIClient.t;
  clipboard : list string;
  conversation_logger : list Interaction;
  processing_threads : list bytes;
  title : Icon;
  shown : list UserMessage;
  logger : list LogRecord
}.

Definition set_is_recording (a : t) (b : bool) : t :=
  mk (config a) b (is_transcribing a) (_pending_start_recording a)
     (_pending_stop_recording a) (_pending_set_transcribing a)
     (_pending_clear_transcribing a) (audio_recorder a) (openai_client a)
     (clipboard a) (conversation_logger a) (processing_threads a) (title a)
     (shown a) (logger a).

Definition set_is_transcribing (a : t) (b : bool) : t :=
  mk (config a) (is_recording a) b (_pending_start_recording a)
     (_pending_stop_recording a) (_pending_set_transcribing a)
     (_pending_clear_transcribing a) (audio_recorder a) (openai_client a)
     (clipboard a) (conversation_logger a) (processing_threads a) (title a)
     (shown a) (logger a).

Definition set_pending_start_recording (a : t) (b : bool) : t :=
  mk (config a) (is_recording a) (is_transcribing a) b
     (_pending_stop_recording a) (_pending_set_transcribing a)
     (_pending_clear_transcribing a) (audio_recorder a) (openai_client a)
     (clipboard a) (conversation_logger a) (processing_threads a) (title a)
     (shown a) (logger a).

Definition set_pending_stop_recording (a : t) (b : bool) : t :=
  mk (config a) (is_recording a) (is_transcribing a)
     (_pending_start_recording a) b (_pending_set_transcribing a)
     (_pending_clear_transcribing a) (audio_recorder a) (openai_client a)
     (clipboard a) (conversation_logger a) (processing_threads a) (title a)
     (shown a) (logger a).

Definition set_pending_set_transcribing (a : t) (b : bool) : t :=
  mk (config a) (is_recording a) (is_transcribing a)
     (_pending_start_recording a) (_pending_stop_recording a) b
     (_pending_clear_transcribing a) (audio_recorder a) (openai_client a)
     (clipboard a) (conversation_logger a) (processing_threads a) (title a)
     (shown a) (logger a).

Definition set_pending_clear_transcribing (a : t) (b : bool) : t :=
  mk (config a) (is_recording a) (is_transcribing a)
     (_pending_start_recording a) (_pending_stop_recording a)
     (_pending_set_transcribing a) b (audio_recorder a) (openai_client a)
     (clipboard a) (conversation_logger a) (processing_threads a) (title a)
     (shown a) (logger a).

Definition set_audio_recorder (a : t) (r : AudioRecorder.t) : t :=
  mk (config a) (is_recording a) (is_transcribing a)
     (_pending_start_recording a) (_pending_stop_recording a)
     (_pending_set_transcribing a) (_pending_clear_transcribing a) r
     (openai_client a) (clipboard a) (conversation_logger a)
     (processing_threads a) (title a) (shown a) (logger a).

Definition set_openai_client (a : t) (c : OpenAIClient.t) : t :=
  mk (config a) (is_recording a) (is_transcribing a)
     (_pending_start_recording a) (_pending_stop_recording a)
     (_pending_set_transcribing a) (_pending_clear_transcribing a)
     (audio_recorder a) c (clipboard a) (conversation_logger a)
     (processing_threads a) (title a) (shown a) (logger a).

Definition set_clipboard (a : t) (l : list string) : t :=
  mk (config a) (is_recording a) (is_transcribing a)
     (_pending_start_recording a) (_pending_stop_recording a)
     (_pending_set_transcribing a) (_pending_clear_transcribing a)
     (audio_recorder a) (openai_client a) l (conversation_logger a)
     (processing_threads a) (title a) (shown a) (logger a).

Definition set_conversation_logger (a : t) (l : list Interaction) : t :=
  mk (config a) (is_recording a) (is_transcribing a)
     (_pending_start_recording a) (_pending_stop_recording a)
     (_pending_set_transcribing a) (_pending_clear_transcribing a)
     (audio_recorder a) (openai_client a) (clipboard a) l
     (processing_threads a) (title a) (shown a) (logger a).

Definition set_processing_threads (a : t) (l : list bytes) : t :=
  mk (config a) (is_recording a) (is_transcribing a)
     (_pending_start_recording a) (_pending_stop_recording a)
     (_pending_set_transcribing a) (_pending_clear_transcribing a)
     (audio_recorder a) (openai_client a) (clipboard a)
     (conversation_logger a) l (title a) (shown a) (logger a).

Definition set_title (a : t) (i : Icon) : t :=
  mk (config a) (is_recording a) (is_transcribing a)
     (_pending_start_recording a) (_pending_stop_recording a)
     (_pending_set_transcribing a) (_pending_clear_transcribing a)
     (audio_recorder a) (openai_client a) (clipboard a)
     (conversation_logger a) (processing_threads a) i (shown a) (logger a).

Definition show (a : t) (m : UserMessage) : t :=
  mk (config a) (is_recording a) (is_transcribing a)
     (_pending_start_recording a) (_pending_stop_recording a)
     (_pending_set_transcribing a) (_pending_clear_transcribing a)
     (audio_recorder a) (openai_client a) (clipboard a)
     (conversation_logger a) (processing_threads a) (title a)
     (shown a ++ [m]) (logger a).

Definition log (a : t) (r : LogRecord) : t :=
  mk (config a) (is_recording a) (is_transcribing a)
     (_pending_start_recording a) (_pending_stop_recording a)
     (_pending_set_transcribing a) (_pending_clear_transcribing a)
     (audio_recorder a) (openai_client a) (clipboard a)
     (conversation_logger a) (processing_threads a) (title a) (shown a)
     (logger a ++ [r]).

(** [_update_menu_state]: the status bar icon follows the state. *)
Definition _update_menu_state (self : t) : t :=
  let new_icon :=
    if negb (validate_api_key (config self)) then icon_no_api_key
    else if is_transcribing self then icon_transcribing
    else if is_recording self then icon_recording
    else icon_idle in
  set_title self new_icon.

(** [__init__]: nothing is recording, transcribing or pending. *)
Definition __init__ (config_arg : Config) : t :=
  _update_menu_state
    (mk config_arg false false false false false false
       (AudioRecorder.__init__ (audio config_arg))
       (OpenAIClient.__init__ (openai_api_key config_arg)
          (openai_base_url config_arg))
       [] [] [] icon_idle [] []).

(** [_handle_hotkey]: only sets the request flags for the main
    thread. *)
Definition _handle_hotkey (self : t) (key : string) : t :=
  let self := log self (info "Hotkey activated") in
  if is_recording self then
    let self := log self (info "Hotkey triggered: requesting stop recording") in
    let self := set_pending_stop_recording self true in
    set_pending_start_recording self false
  else
    let self := log self (info "Hotkey triggered: requesting start recording") in
    let self := set_pending_start_recording self true in
    set_pending_stop_recording self false.

(** What the audio hardware does when asked: opening the input
    stream, and stopping and closing it. *)
Record Hardware : Type := mkHardware {
  open_stream : result unit;
  stop_stream : result unit
}.

Definition working : Hardware := mkHardware (inl ()) (inl ()).

(** [_start_recording_main_thread]; [device] is what opening the
    input device does. *)
Definition _start_recording_main_thread (self : t) (device : result unit) : t :=
  if is_recording self
  then log self (warning "Already recording, ignoring start request")
  else if negb (validate_api_key (config self))
  then show self (alert "API Key Required"
                    "Please configure your OpenAI API key in Settings.")
  else
    let self := set_is_recording self true in
    let self := log self (info "Starting recording in transcribe mode (main thread)") in
    match AudioRecorder.start_recording (audio_recorder self) device with
    | (recorder, inl _) =>
        _update_menu_state (set_audio_recorder self recorder)
    | (recorder, inr e) =>
        let self := set_audio_recorder self recorder in
        let self := log self (error "Error starting recording in main thread") in
        let self := set_is_recording self false in
        show self (alert "Recording Error"
                     ("Failed to start recording: " ++ str_of e))
    end.

(** [_stop_recording_main_thread]: stops the recorder and starts a
    [_process_audio] thread on what it returned; [stream] is what
    stopping the hardware stream does. *)
Definition _stop_recording_main_thread (self : t) (stream : result unit) : t :=
  if negb (is_recording self)
  then log self (warning "Not recording, ignoring stop request")
  else
    let self := log self (info "Stopping recording (main thread)") in
    let self := set_is_recording self false in
    let '(recorder, audio_data) :=
      AudioRecorder.stop_recording (audio_recorder self) stream in
    let self := set_audio_recorder self recorder in
    let self :=
      set_processing_threads self (processing_threads self ++ [audio_data]) in
    _update_menu_state self.

(** [_process_pending_ui_operations], the 100 ms timer of the main
    thread. *)
Definition _process_pending_ui_operations (self : t) (hardware : Hardware) : t :=
  let self :=
    if _pending_start_recording self && negb (is_recording self) then
      let self := set_pending_start_recording self false in
      _start_recording_main_thread self (open_stream hardware)
    else if _pending_stop_recording self && is_recording self then
      let self := set_pending_stop_recording self false in
      _stop_recording_main_thread self (stop_stream hardware)
    else self in
  let self :=
    if _pending_set_transcribing self then
      let self := set_pending_set_transcribing self false in
      let self := set_is_transcribing self true in
      let self := _update_menu_state self in
      log self (info "Started transcribing...")
    else self in
  if _pending_clear_transcribing self then
    let self := set_pending_clear_transcribing self false in
    let self := set_is_transcribing self false in
    let self := _update_menu_state self in
    log self (info "Transcription completed")
  else self.

(** What the collaborators of one [_process_audio] run do: the remote
    service, the conversation logger's file writes, and the
    clipboard. *)
Record Collaborators : Type := mkCollaborators {
  service : OpenAIClient.TranscriptionRequest -> result string;
  log_interaction : result unit;
  set_clipboard_content : bool
}.

(** [TextInjector._show_paste_notification]: the notification names
    the text between single quotes. *)
Definition _show_paste_notification (self : t) (text : string) : t :=
  show self (notification "✅ SpeechTide - Text Ready" ("'" ++ text ++ "'")
               "Text copied to clipboard! Press Cmd+V to paste anywhere.").

(** [TextInjector.insert_text]: refuses blank text; otherwise copies
    it and notifies; never raises. *)
Definition insert_text (self : t) (clipboard_works : bool) (text : string) : t :=
  if negb (Py.truthy text) || negb (Py.truthy (Py.strip text)) then self
  else if clipboard_works then
    let self := set_clipboard self (clipboard self ++ [text]) in
    _show_paste_notification self text
  else self.

(** [_process_audio] up to the blocking call: the thread asks the main
    thread to show the transcribing state. *)
Definition _process_audio_begin (self : t) : t :=
  let self := log self (info "Processing audio for transcription") in
  set_pending_set_transcribing self true.

(** [_process_audio] from the transcription call to its [finally]
    clause. *)
Definition _process_audio_end (self : t) (audio_data : bytes)
    (world : Collaborators) : t :=
  let selected_language :=
    match language_recognition (config self) with
    | Some l => l
    | None => "auto"
    end in
  let language_param :=
    if String.eqb selected_language "auto" then None
    else Some selected_language in
  let '(client, transcription) :=
    OpenAIClient.transcribe_audio (openai_client self) (service world)
      audio_data (openai_model_transcribe (config self)) language_param in
  let self := set_openai_client self client in
  let outcome : t * result unit :=
    match transcription with
    | inr e => (self, raise e)
    | inl transcription =>
        if Py.truthy transcription && Py.truthy (Py.strip transcription) then
          let self := log self (info "Transcription") in
          match log_interaction world with
          | inr e => (self, raise e)
          | inl _ =>
              let self :=
                set_conversation_logger self
                  (conversation_logger self
                     ++ [mkInteraction audio_data transcription "transcribe"]) in
              (insert_text self (set_clipboard_content world) transcription,
               ret ())
          end
        else (log self (warning "No transcription result"), ret ())
    end in
  let self :=
    match outcome with
    | (self, inl _) => self
    | (self, inr e) =>
        let self := log self (error "Error processing audio") in
        show self (notification "SpeechTide" "Transcription Error"
                     ("Failed to process audio: " ++ str_of e))
    end in
  set_pending_clear_transcribing self true.

(** [_process_audio], the body of a processing thread. *)
Definition _process_audio (self : t) (audio_data : bytes)
    (world : Collaborators) : t :=
  _process_audio_end (_process_audio_begin self) audio_data world.

(** The oldest processing thread runs up to its blocking call. *)
Definition thread_begins (self : t) : t := _process_audio_begin self.

(** The oldest processing thread gets its answer and returns. *)
Definition thread_returns (self : t) (world : Collaborators) : t :=
  match processing_threads self with
  | [] => self
  | audio_data :: rest =>
      _process_audio_end (set_processing_threads self rest) audio_data world
  end.

(** The capture thread hands one hardware buffer to the recorder's
    callback. *)
Definition audio_arrives (self : t) (in_data : bytes) : t :=
  set_audio_recorder self
    (fst (AudioRecorder._audio_callback (audio_recorder self) in_data
            (AudioRecorder.chunk_size (audio_recorder self)))).

(** The controller's session state as the specification names it. *)
Inductive SessionState : Type := Idle | Recording | Transcribing.

Definition session_state (self : t) : SessionState :=
  if is_recording self then Recording
  else if is_transcribing self then Transcribing
  else Idle.

End SpeechTideApp.

(** * Properties *)

(** ** The hotkey state machine *)

Module HotkeyProperties.

Import HotkeyManager.
Local Open Scope string_scope.
Local Open Scope list_scope.

(** [emits before after signals]: between the two states the manager
    started exactly the callback threads [signals], in that order. *)
Definition emits (before after : t) (signals : list string) : Prop :=
  callback_threads after = callback_threads before ++ signals.

(** The manager [HotkeyManager("right_cmd", callback)] builds. *)
Definition right_cmd_manager : t :=
  mk cmd_r "right_cmd" true false ∅ "click" ∅ (1 # 10) [] [].

Lemma init_right_cmd : __init__ "right_cmd" true = inl right_cmd_manager.
Proof. reflexivity. Qed.

(** The same manager switched to hold mode. *)
Definition hold_manager : t := set_interaction_mode right_cmd_manager "hold".

(** The listener thread every key event of a run is delivered on. *)
Definition listener_thread : option Z := Some 6123450368%Z.

Lemma trigger_logger (self : t) (key_name : string) :
  logger (_trigger_hotkey self key_name)
  = logger self ++ [Hotkey_triggered key_name].
Proof. unfold _trigger_hotkey. simpl. destruct (on_hotkey self); reflexivity. Qed.

Lemma trigger_key_pressed_time (self : t) (key_name : string) :
  key_pressed_time (_trigger_hotkey self key_name) = key_pressed_time self.
Proof. unfold _trigger_hotkey. simpl. destruct (on_hotkey self); reflexivity. Qed.

Lemma press_key_pressed_time (self : t) (key_name : string) (press_time : Q) :
  key_pressed_time (_handle_hotkey_press self key_name press_time)
  = <[key_name := press_time]> (key_pressed_time self).
Proof.
  unfold _handle_hotkey_press. simpl.
  destruct (String.eqb (interaction_mode self) "click"); [|reflexivity].
  now rewrite trigger_key_pressed_time.
Qed.

Lemma press_hold_durations (self : t) (key_name : string) (press_time : Q) :
  hold_durations (_handle_hotkey_press self key_name press_time)
  = hold_durations self.
Proof.
  unfold hold_durations, _handle_hotkey_press. simpl.
  destruct (String.eqb (interaction_mode self) "click").
  - rewrite trigger_logger. simpl. rewrite !omap_app. simpl.
    now rewrite !app_nil_r.
  - simpl. rewrite omap_app. simpl. now rewrite app_nil_r.
Qed.

Lemma release_hold_durations (self : t) (key_name : string)
    (press_time release_time : Q) :
  key_pressed_time self !! key_name = Some press_time ->
  hold_durations (_handle_hotkey_release self key_name release_time)
  = hold_durations self ++ [(release_time - press_time)%Q].
Proof.
  intros Hp. unfold hold_durations, _handle_hotkey_release. rewrite Hp. simpl.
  destruct (String.eqb (interaction_mode self) "hold"
            && Qle_bool (hold_threshold self) (release_time - press_time)).
  - rewrite trigger_logger. simpl. rewrite !omap_app. simpl.
    now rewrite app_nil_r.
  - simpl. now rewrite omap_app.
Qed.

(** The hold duration of a press followed by a release of the trigger
    key is the difference of the two thread identifiers; the wall
    clock of neither event enters it. *)
Lemma press_release_hold_duration (self : t) (press release : Moment) :
  hold_durations
    (_on_key_release (_on_key_press self (primary_key self) press)
       (primary_key self) release)
  = hold_durations self
      ++ [(inject_Z (ident_or_0 release) - inject_Z (ident_or_0 press))%Q].
Proof.
  pose (pressed := _handle_hotkey_press self (primary_key_name self)
                     (inject_Z (ident_or_0 press))).
  assert (Hk : primary_key pressed = primary_key self).
  { unfold pressed, _handle_hotkey_press, _trigger_hotkey. simpl.
    destruct (String.eqb (interaction_mode self) "click"); simpl;
      [destruct (on_hotkey self)|]; reflexivity. }
  assert (Hn : primary_key_name pressed = primary_key_name self).
  { unfold pressed, _handle_hotkey_press, _trigger_hotkey. simpl.
    destruct (String.eqb (interaction_mode self) "click"); simpl;
      [destruct (on_hotkey self)|]; reflexivity. }
  assert (Hpress : _on_key_press self (primary_key self) press
                   = set_pressed_keys pressed
                       ({[ primary_key self ]} ∪ pressed_keys pressed)).
  { unfold _on_key_press. destruct (decide _) as [_|n]; [reflexivity|].
    now contradict n. }
  rewrite Hpress. unfold _on_key_release.
  change (primary_key (set_pressed_keys pressed _)) with (primary_key pressed).
  change (primary_key_name (set_pressed_keys pressed _))
    with (primary_key_name pressed).
  rewrite Hk, Hn. destruct (decide _) as [_|n]; [|now contradict n].
  unfold hold_durations at 1.
  change (logger (set_pressed_keys ?x _)) with (logger x).
  change (omap _ (logger ?x)) with (hold_durations x).
  rewrite release_hold_durations
    with (press_time := inject_Z (ident_or_0 press)).
  - unfold hold_durations at 1.
    change (logger (set_pressed_keys ?x _)) with (logger x).
    change (omap _ (logger ?x)) with (hold_durations x).
    unfold pressed. now rewrite press_hold_durations.
  - change (key_pressed_time (set_pressed_keys ?x _))
      with (key_pressed_time x).
    unfold pressed. rewrite press_key_pressed_time. apply lookup_insert_eq.
Qed.

(** C2 (the code at the failing input): the trigger key is pressed at
    wall-clock time 10 s and released at 12.5 s, both events arriving on
    the listener thread.  The hold duration the release handler computes
    is 0, not the 2.5 s between the two events: [_on_key_press] and
    [_on_key_release] take [current_time] from the thread identifier. *)
Theorem hold_duration_ignores_wall_clock :
  let press := at_ 10 listener_thread in
  let release := at_ (25 # 2) listener_thread in
  let pressed := _on_key_press hold_manager cmd_r press in
  let released := _on_key_release pressed cmd_r release in
  hold_durations released = [0 # 1]
  /\ ~ (0 # 1 == wall_clock release - wall_clock press)%Q
  /\ callback_threads released = [].
Proof.
  cbv zeta. split; [|split].
  - vm_compute. reflexivity.
  - vm_compute. discriminate.
  - vm_compute. reflexivity.
Qed.

(** A release in hold mode that comes sooner than the threshold after
    its press starts no callback thread (helper for C3). *)
Lemma release_below_threshold_callback_threads (self : t) (key_name : string)
    (press_time release_time : Q) :
  interaction_mode self = "hold" ->
  key_pressed_time self !! key_name = Some press_time ->
  (release_time - press_time < hold_threshold self)%Q ->
  callback_threads (_handle_hotkey_release self key_name release_time)
  = callback_threads self.
Proof.
  intros Hm Hp Hlt. unfold _handle_hotkey_release. rewrite Hp. simpl.
  assert (Hb : Qle_bool (hold_threshold self) (release_time - press_time) = false).
  { destruct (Qle_bool _ _) eqn:E; [|reflexivity].
    apply Qle_bool_iff in E. exfalso. exact (Qlt_not_le _ _ Hlt E). }
  rewrite Hb, andb_false_r. reflexivity.
Qed.

(** C3, as amended: in hold mode, a release of the trigger key whose
    hold duration is strictly less than the hold threshold emits no
    signal at all, neither an activation nor a deactivation; the press
    is forgotten. *)
Theorem short_hold_release_emits_nothing (self : t) (key_name : string)
    (press_time release_time : Q) :
  interaction_mode self = "hold" ->
  key_pressed_time self !! key_name = Some press_time ->
  (release_time - press_time < hold_threshold self)%Q ->
  emits self (_handle_hotkey_release self key_name release_time) []
  /\ key_pressed_time (_handle_hotkey_release self key_name release_time)
       !! key_name = None.
Proof.
  intros Hm Hp Hlt. split.
  - unfold emits. rewrite app_nil_r.
    now apply release_below_threshold_callback_threads with press_time.
  - unfold _handle_hotkey_release. rewrite Hp. simpl.
    destruct (_ && _); simpl; [rewrite trigger_key_pressed_time; simpl|];
      apply lookup_delete_eq.
Qed.

(** The trigger key pressed at time 10 and not released yet, in hold
    mode. *)
Definition held_manager : t :=
  _handle_hotkey_press hold_manager "right_cmd" 10.

Lemma short_hold_release_emits_nothing_witness :
  emits held_manager
    (_handle_hotkey_release held_manager "right_cmd" (1005 # 100)) []
  /\ key_pressed_time
       (_handle_hotkey_release held_manager "right_cmd" (1005 # 100))
       !! "right_cmd" = None.
Proof.
  apply (short_hold_release_emits_nothing held_manager "right_cmd" 10
           (1005 # 100)).
  - reflexivity.
  - vm_compute. reflexivity.
  - vm_compute. reflexivity.
Defined.

(** C3, as stated, fails: in hold mode the trigger key is pressed and,
    50 ms later, released, both events arriving on the listener thread.
    The hold duration is below the 100 ms threshold, by the wall clock
    and as the handler computes it, and neither the press nor the
    release emits an activation. *)
Lemma short_hold_release_no_activate :
  let press := at_ 10 listener_thread in
  let release := at_ (1005 # 100) listener_thread in
  let pressed := _on_key_press hold_manager cmd_r press in
  let released := _on_key_release pressed cmd_r release in
  interaction_mode pressed = "hold"
  /\ (wall_clock release - wall_clock press < hold_threshold pressed)%Q
  /\ Forall (fun d => (d < hold_threshold pressed)%Q) (hold_durations released)
  /\ ~ emits pressed released ["right_cmd"]
  /\ emits hold_manager released [].
Proof.
  cbv zeta. split; [reflexivity|]. split; [vm_compute; reflexivity|].
  split; [|split].
  - replace (hold_durations _) with [0 # 1] by (vm_compute; reflexivity).
    repeat constructor.
  - unfold emits. vm_compute. discriminate.
  - unfold emits. vm_compute. reflexivity.
Qed.

End HotkeyProperties.

(** ** Bytes and little-endian fields *)

Module BytesProperties.

Import Struct.
Local Open Scope Z_scope.

Lemma Z_of_byte_range (b : byte) : 0 <= Z_of_byte b < 256.
Proof.
  unfold Z_of_byte. pose proof (Byte.to_N_bounded b). lia.
Qed.

Lemma Z_of_byte_of_Z (z : Z) : Z_of_byte (byte_of_Z z) = z mod 256.
Proof.
  unfold Z_of_byte, byte_of_Z.
  assert (Hr : 0 <= z mod 256 < 256) by (apply Z.mod_pos_bound; lia).
  destruct (Byte.of_N (Z.to_N (z mod 256))) as [b|] eqn:E.
  - apply Byte.to_of_N in E. rewrite E. lia.
  - apply Byte.of_N_None_iff in E. lia.
Qed.

Lemma length_le_bytes (n : nat) (v : Z) : length (le_bytes n v) = n.
Proof. revert v. induction n as [|n IH]; intros v; simpl; [|rewrite IH]; reflexivity. Qed.

Lemma le_value_le_bytes (n : nat) (v : Z) :
  le_value (le_bytes n v) = v mod 256 ^ Z.of_nat n.
Proof.
  revert v. induction n as [|n IH]; intros v.
  - simpl. now rewrite Z.mod_1_r.
  - cbn [le_bytes le_value]. rewrite IH, Z_of_byte_of_Z.
    rewrite Nat2Z.inj_succ, Z.pow_succ_r by lia.
    rewrite Z.rem_mul_r by lia. lia.
Qed.

Lemma le_value_le_bytes_id (n : nat) (v : Z) :
  0 <= v < 256 ^ Z.of_nat n -> le_value (le_bytes n v) = v.
Proof. intros H. rewrite le_value_le_bytes. now apply Z.mod_small. Qed.

Lemma pack_L_inrange (v : Z) :
  0 <= v < 2 ^ 32 -> pack_L v = inl (le_bytes 4 v).
Proof.
  intros [H1 H2]. unfold pack_L.
  apply Z.leb_le in H1. apply Z.ltb_lt in H2. now rewrite H1, H2.
Qed.

Lemma pack_H_inrange (v : Z) :
  0 <= v < 2 ^ 16 -> pack_H v = inl (le_bytes 2 v).
Proof.
  intros [H1 H2]. unfold pack_H.
  apply Z.leb_le in H1. apply Z.ltb_lt in H2. now rewrite H1, H2.
Qed.

(** Writing at the end of a buffer appends. *)
Lemma write_at_end (buf data : bytes) :
  BytesIO.write (BytesIO.mk buf (length buf)) data
  = BytesIO.mk (buf ++ data) (length buf + length data).
Proof.
  unfold BytesIO.write. simpl. f_equal.
  rewrite take_ge by lia. rewrite Nat.sub_diag. simpl.
  rewrite drop_ge by lia. now rewrite app_nil_r.
Qed.

(** Writing inside a buffer replaces as many bytes as are written. *)
Lemma write_inside (pre old post data : bytes) :
  length old = length data ->
  BytesIO.write (BytesIO.mk (pre ++ old ++ post) (length pre)) data
  = BytesIO.mk (pre ++ data ++ post) (length pre + length data).
Proof.
  intros Hlen. unfold BytesIO.write. simpl. f_equal.
  rewrite take_app_length.
  replace (length pre - length (pre ++ old ++ post))%nat with 0%nat
    by (rewrite !length_app; lia).
  simpl. do 2 f_equal.
  rewrite drop_app_ge by lia.
  replace (length pre + length data - length pre)%nat with (length old) by lia.
  now rewrite drop_app_length.
Qed.

End BytesProperties.

(** ** The WAV container *)

Module WaveProperties.

Import Struct Wave BytesProperties.
Local Open Scope Z_scope.

(** The 32 bytes between the form length and the data length. *)
Definition header_fields (nch rate width : Z) : bytes :=
  tag_WAVE ++ tag_fmt ++ le_bytes 4 16 ++ le_bytes 2 WAVE_FORMAT_PCM
    ++ le_bytes 2 nch ++ le_bytes 4 rate ++ le_bytes 4 (nch * rate * width)
    ++ le_bytes 2 (nch * width) ++ le_bytes 2 (width * 8) ++ tag_data.

(** The canonical PCM container around [data]. *)
Definition container (nch rate width : Z) (data : bytes) : bytes :=
  tag_RIFF ++ le_bytes 4 (36 + Z.of_nat (length data))
    ++ header_fields nch rate width
    ++ le_bytes 4 (Z.of_nat (length data)) ++ data.

(** The parameters and the data fit the fields of the header. *)
Record fits (nch rate width : Z) (data : bytes) : Prop := mkFits {
  fits_nch : 1 <= nch < 2 ^ 16;
  fits_width : 1 <= width <= 4;
  fits_rate : 1 <= rate < 2 ^ 32;
  fits_byte_rate : nch * rate * width < 2 ^ 32;
  fits_block_align : nch * width < 2 ^ 16;
  fits_data : 36 + Z.of_nat (length data) < 2 ^ 32
}.

Lemma bind_inl {A B : Type} (a : A) (k : A -> result B) :
  mbind k (inl a : result A) = k a.
Proof. reflexivity. Qed.

Lemma length_header_fields (nch rate width : Z) :
  length (header_fields nch rate width) = 32%nat.
Proof. reflexivity. Qed.

Lemma pack_header_inrange (form_length nch rate width : Z) :
  0 <= form_length < 2 ^ 32 ->
  1 <= nch < 2 ^ 16 -> 1 <= width <= 4 -> 1 <= rate < 2 ^ 32 ->
  nch * rate * width < 2 ^ 32 -> nch * width < 2 ^ 16 ->
  pack_header form_length WAVE_FORMAT_PCM nch rate (nch * rate * width)
    (nch * width) (width * 8)
  = inl (le_bytes 4 form_length ++ header_fields nch rate width).
Proof.
  intros Hf Hn Hw Hr Hbr Hba. unfold pack_header.
  rewrite (pack_L_inrange form_length) by lia. rewrite bind_inl.
  rewrite (pack_L_inrange 16) by lia. rewrite bind_inl.
  rewrite (pack_H_inrange WAVE_FORMAT_PCM) by (unfold WAVE_FORMAT_PCM; lia).
  rewrite bind_inl.
  rewrite (pack_H_inrange nch) by lia. rewrite bind_inl.
  rewrite (pack_L_inrange rate) by lia. rewrite bind_inl.
  rewrite (pack_L_inrange (nch * rate * width)) by nia. rewrite bind_inl.
  rewrite (pack_H_inrange (nch * width)) by nia. rewrite bind_inl.
  rewrite (pack_H_inrange (width * 8)) by lia. rewrite bind_inl.
  reflexivity.
Qed.

(** The writer once the three parameters are set. *)
Definition configured (nch rate width : Z) : Wave_write :=
  mk BytesIO.empty nch width rate 0 0 0 0 false 0 0.

Lemma set_parameters (nch rate width : Z) :
  1 <= nch -> 1 <= width <= 4 -> 1 <= rate ->
  (w ← setnchannels (Wave.open BytesIO.empty) nch;
   w ← setsampwidth w width;
   setframerate w rate)
  = inl (configured nch rate width).
Proof.
  intros Hn Hw Hr. unfold setnchannels. cbn [Wave.open _datawritten].
  change (negb (0 =? 0)) with false.
  replace (nch <? 1) with false by (symmetry; apply Z.ltb_ge; lia).
  cbv iota. unfold ret. rewrite bind_inl.
  unfold setsampwidth. cbn [_datawritten].
  change (negb (0 =? 0)) with false.
  replace (width <? 1) with false by (symmetry; apply Z.ltb_ge; lia).
  replace (4 <? width) with false by (symmetry; apply Z.ltb_ge; lia).
  cbn [orb]. cbv iota. unfold ret. rewrite bind_inl.
  unfold setframerate. cbn [_datawritten].
  change (negb (0 =? 0)) with false.
  replace (rate <=? 0) with false by (symmetry; apply Z.leb_gt; lia).
  reflexivity.
Qed.

(** The header as first written: its lengths count whole frames. *)
Lemma write_header_configured (nch rate width initlength : Z) :
  1 <= nch < 2 ^ 16 -> 1 <= width <= 4 -> 1 <= rate < 2 ^ 32 ->
  nch * rate * width < 2 ^ 32 -> nch * width < 2 ^ 16 ->
  0 <= initlength -> 36 + initlength < 2 ^ 32 ->
  let nframes := initlength / (nch * width) in
  let datalength := nframes * nch * width in
  _write_header (configured nch rate width) initlength
  = inl (mk (BytesIO.mk
               (tag_RIFF ++ le_bytes 4 (36 + datalength)
                  ++ header_fields nch rate width ++ le_bytes 4 datalength)
               44)
            nch width rate nframes 0 0 datalength true 4 40).
Proof.
  intros Hn Hw Hr Hbr Hba Hi Hfit nframes datalength.
  assert (Hk : 0 < nch * width) by nia.
  assert (Hdl : 0 <= datalength <= initlength).
  { unfold datalength, nframes.
    pose proof (Z.mul_div_le initlength (nch * width) Hk).
    pose proof (Z.div_pos initlength (nch * width) Hi Hk). nia. }
  unfold _write_header, configured.
  cbn [_file _nframes _nchannels _sampwidth _framerate _nframeswritten
       _datawritten].
  change (0 =? 0) with true. cbv iota.
  fold nframes. fold datalength.
  rewrite pack_header_inrange by lia. rewrite bind_inl.
  rewrite (pack_L_inrange datalength) by lia. rewrite bind_inl.
  change (BytesIO.write BytesIO.empty tag_RIFF)
    with (BytesIO.mk tag_RIFF (length tag_RIFF)).
  rewrite write_at_end.
  cbn [BytesIO.tell BytesIO.position].
  set (hdr := le_bytes 4 (36 + datalength) ++ header_fields nch rate width).
  assert (Hlen : (length tag_RIFF + length hdr)%nat = length (tag_RIFF ++ hdr))
    by now rewrite length_app.
  rewrite Hlen, write_at_end.
  assert (H44 : length (tag_RIFF ++ hdr) = 40%nat).
  { unfold hdr.
    rewrite !length_app, !length_le_bytes, length_header_fields. reflexivity. }
  rewrite H44, length_le_bytes. unfold hdr. rewrite <- !app_assoc.
  reflexivity.
Qed.

(** Overwriting the two length fields of a written header. *)
Lemma patch_lengths (fl0 dl0 fl dl : Z) (fields data : bytes) (p : nat) :
  length fields = 32%nat ->
  BytesIO.write
    (BytesIO.seek
       (BytesIO.write
          (BytesIO.seek
             (BytesIO.mk
                (tag_RIFF ++ le_bytes 4 fl0 ++ fields ++ le_bytes 4 dl0 ++ data)
                p) 4)
          (le_bytes 4 fl)) 40)
    (le_bytes 4 dl)
  = BytesIO.mk (tag_RIFF ++ le_bytes 4 fl ++ fields ++ le_bytes 4 dl ++ data) 44.
Proof.
  intros Hf. unfold BytesIO.seek. cbn [BytesIO.buffer].
  change 4%nat with (length tag_RIFF) at 1.
  rewrite write_inside by now rewrite !length_le_bytes.
  cbn [BytesIO.buffer].
  set (pre := tag_RIFF ++ le_bytes 4 fl ++ fields).
  assert (Hpre : length pre = 40%nat).
  { unfold pre. rewrite !length_app, length_le_bytes, Hf. reflexivity. }
  replace (tag_RIFF ++ le_bytes 4 fl ++ fields ++ le_bytes 4 dl0 ++ data)
    with (pre ++ le_bytes 4 dl0 ++ data)
    by (unfold pre; now rewrite <- !app_assoc).
  rewrite <- Hpre. rewrite write_inside by now rewrite !length_le_bytes.
  rewrite Hpre, length_le_bytes. unfold pre. now rewrite <- !app_assoc.
Qed.

(** What the writer leaves in the buffer: the canonical container,
    whether or not the data is a whole number of frames. *)
Lemma written_container (nch rate width : Z) (data : bytes) :
  fits nch rate width data ->
  exists w : Wave_write,
    (w ← writeframes (configured nch rate width) data; close w) = inl w
    /\ BytesIO.buffer (_file w) = container nch rate width data.
Proof.
  intros [Hn Hw Hr Hbr Hba Hd].
  set (len := Z.of_nat (length data)) in *.
  assert (Hlen : 0 <= len) by (unfold len; lia).
  unfold writeframes, writeframesraw, _ensure_header_written.
  cbn [configured _headerwritten _nchannels _sampwidth _framerate].
  replace (nch =? 0) with false by (symmetry; apply Z.eqb_neq; lia).
  replace (width =? 0) with false by (symmetry; apply Z.eqb_neq; lia).
  replace (rate =? 0) with false by (symmetry; apply Z.eqb_neq; lia).
  cbv iota. fold (configured nch rate width). fold len.
  rewrite write_header_configured by lia.
  rewrite bind_inl.
  cbn [_file _nchannels _sampwidth _framerate _nframes _nframeswritten
       _datawritten _datalength _headerwritten _form_length_pos
       _data_length_pos].
  set (dl0 := len / (nch * width) * nch * width).
  set (buf0 := tag_RIFF ++ le_bytes 4 (36 + dl0)
                 ++ header_fields nch rate width ++ le_bytes 4 dl0).
  assert (Hbuf0 : length buf0 = 44%nat).
  { unfold buf0.
    rewrite !length_app, !length_le_bytes, length_header_fields. reflexivity. }
  replace (BytesIO.mk buf0 44) with (BytesIO.mk buf0 (length buf0))
    by now rewrite Hbuf0.
  rewrite write_at_end.
  unfold ret. rewrite bind_inl.
  cbn [_file _nchannels _sampwidth _framerate _nframes _nframeswritten
       _datawritten _datalength _headerwritten _form_length_pos
       _data_length_pos].
  rewrite Z.add_0_l.
  destruct (Z.eqb_spec dl0 len) as [Heq|Hne]; cbn [negb]; cbv iota.
  - rewrite bind_inl. unfold close, _ensure_header_written.
    cbn [_headerwritten]. cbv iota. unfold ret. rewrite bind_inl.
    cbn [_datalength _datawritten].
    replace (dl0 =? len) with true by (symmetry; now apply Z.eqb_eq).
    cbn [negb]. cbv iota.
    eexists. split; [reflexivity|].
    cbn [_file BytesIO.buffer]. unfold buf0, container. fold len.
    rewrite Heq. now rewrite <- !app_assoc.
  - unfold _patchheader at 1.
    cbn [_file _nchannels _sampwidth _framerate _nframes _nframeswritten
         _datawritten _datalength _headerwritten _form_length_pos
         _data_length_pos].
    replace (len =? dl0) with false by (symmetry; apply Z.eqb_neq; lia).
    cbv iota.
    rewrite (pack_L_inrange (36 + len)) by lia. rewrite bind_inl.
    rewrite (pack_L_inrange len) by lia. rewrite bind_inl.
    cbn [BytesIO.tell BytesIO.position].
    replace (buf0 ++ data)
      with (tag_RIFF ++ le_bytes 4 (36 + dl0) ++ header_fields nch rate width
              ++ le_bytes 4 dl0 ++ data)
      by (unfold buf0; now rewrite <- !app_assoc).
    rewrite patch_lengths by apply length_header_fields.
    unfold ret. rewrite bind_inl. unfold close, _ensure_header_written.
    cbn [_headerwritten]. cbv iota. unfold ret. rewrite bind_inl.
    cbn [_datalength _datawritten]. rewrite Z.eqb_refl. cbn [negb]. cbv iota.
    eexists. split; [reflexivity|].
    cbn [_file BytesIO.buffer BytesIO.seek]. unfold container. now fold len.
Qed.

Lemma two_bytes (l : bytes) :
  length l = 2%nat -> exists a b, l = [a; b].
Proof.
  destruct l as [|a [|b [|c l]]]; try discriminate. intros _. now exists a, b.
Qed.

Lemma four_bytes (l : bytes) :
  length l = 4%nat -> exists a b c d, l = [a; b; c; d].
Proof.
  destruct l as [|a [|b [|c [|d [|e l]]]]]; try discriminate.
  intros _. now exists a, b, c, d.
Qed.

(** Reading the canonical container gives back the parameters and the
    data. *)
Lemma read_wav_container (nch rate width : Z) (data : bytes) :
  fits nch rate width data ->
  read_wav (container nch rate width data)
  = Some (mkWav nch rate (width * 8) data).
Proof.
  intros [Hn Hw Hr Hbr Hba Hd].
  set (len := Z.of_nat (length data)) in *.
  assert (Hlen : 0 <= len) by (unfold len; lia).
  unfold container, header_fields. fold len.
  destruct (four_bytes (le_bytes 4 (36 + len)) (length_le_bytes _ _))
    as (f0 & f1 & f2 & f3 & Ef).
  destruct (four_bytes (le_bytes 4 16) (length_le_bytes _ _))
    as (s0 & s1 & s2 & s3 & Es).
  destruct (two_bytes (le_bytes 2 WAVE_FORMAT_PCM) (length_le_bytes _ _))
    as (t0 & t1 & Et).
  destruct (two_bytes (le_bytes 2 nch) (length_le_bytes _ _))
    as (n0 & n1 & En).
  destruct (four_bytes (le_bytes 4 rate) (length_le_bytes _ _))
    as (r0 & r1 & r2 & r3 & Er).
  destruct (four_bytes (le_bytes 4 (nch * rate * width)) (length_le_bytes _ _))
    as (y0 & y1 & y2 & y3 & Ey).
  destruct (two_bytes (le_bytes 2 (nch * width)) (length_le_bytes _ _))
    as (a0 & a1 & Ea).
  destruct (two_bytes (le_bytes 2 (width * 8)) (length_le_bytes _ _))
    as (b0 & b1 & Eb).
  destruct (four_bytes (le_bytes 4 len) (length_le_bytes _ _))
    as (d0 & d1 & d2 & d3 & Ed).
  rewrite Ef, Es, Et, En, Er, Ey, Ea, Eb, Ed.
  unfold read_wav, slice, tag_RIFF, tag_WAVE, tag_fmt, tag_data.
  cbn [take drop firstn skipn app length].
  rewrite take_0, drop_0.
  rewrite <- Ef, <- Es, <- Et, <- En, <- Er, <- Eb, <- Ed.
  rewrite !bool_decide_eq_true_2 by reflexivity.
  rewrite !le_value_le_bytes_id
    by (change (256 ^ Z.of_nat 4) with (2 ^ 32);
        change (256 ^ Z.of_nat 2) with (2 ^ 16);
        unfold WAVE_FORMAT_PCM; lia).
  rewrite !Z.eqb_refl. cbn [andb].
  replace (Z.of_nat _ =? 44 + len) with true; [reflexivity|].
  symmetry. apply Z.eqb_eq. unfold len. lia.
Qed.

End WaveProperties.

(** ** The audio recorder *)

Module RecorderProperties.

Import AudioRecorder.
Local Open Scope Z_scope.

(** The recorder's parameters and recorded data fit the fields of a
    WAV header: at most 65535 channels, a sample rate, byte rate and
    total size below 2^32, a frame size below 2^16. *)
Definition header_fits (self : t) : Prop :=
  WaveProperties.fits (channels self) (sample_rate self)
    (get_sample_size (format self)) (concat (audio_data self)).

Lemma create_wav_data_container (self : t) :
  header_fits self ->
  _create_wav_data self
  = (self, WaveProperties.container (channels self) (sample_rate self)
             (get_sample_size (format self)) (concat (audio_data self))).
Proof.
  intros Hfit. pose proof Hfit as [Hn Hw Hr Hbr Hba Hd].
  unfold _create_wav_data.
  pose proof (WaveProperties.set_parameters (channels self) (sample_rate self)
                (get_sample_size (format self))) as Hset.
  destruct (WaveProperties.written_container _ _ _ _ Hfit) as (w & Hw1 & Hw2).
  assert (Hall :
    (wav_file ← Wave.setnchannels (Wave.open BytesIO.empty) (channels self);
     wav_file ← Wave.setsampwidth wav_file (get_sample_size (format self));
     wav_file ← Wave.setframerate wav_file (sample_rate self);
     wav_file ← Wave.writeframes wav_file (concat (audio_data self));
     Wave.close wav_file) = inl w).
  { specialize (Hset ltac:(lia) ltac:(lia) ltac:(lia)).
    rewrite <- Hw1.
    destruct (Wave.setnchannels _ _) as [w1|e1];
      cbn [mbind result_bind bind] in Hset |- *; [|discriminate].
    destruct (Wave.setsampwidth _ _) as [w2|e2];
      cbn [mbind result_bind bind] in Hset |- *; [|discriminate].
    now rewrite Hset. }
  rewrite Hall. unfold BytesIO.read, BytesIO.seek. cbn [fst BytesIO.position].
  now rewrite drop_0, Hw2.
Qed.

(** The end of [stop_recording], once the stream is stopped. *)
Lemma stopped_recording_container (self : t) :
  audio_data self <> [] ->
  header_fits self ->
  let returned :=
    match audio_data self with
    | _ :: _ =>
        let '(self, wav_data) := _create_wav_data self in
        (log self (info "Recording stopped"), wav_data)
    | [] => (log self (warning "No audio data recorded"), [])
    end in
  Wave.read_wav (snd returned)
  = Some (Wave.mkWav (channels self) (sample_rate self)
            (get_sample_size (format self) * 8)
            (concat (audio_data self)))
  /\ is_recording (fst returned) = is_recording self.
Proof.
  intros Hdata Hfit. cbv zeta.
  rewrite (create_wav_data_container self Hfit).
  destruct (audio_data self) as [|c cs] eqn:E; [contradiction|].
  cbn [fst snd]. split; [|reflexivity].
  rewrite <- E. now apply WaveProperties.read_wav_container.
Qed.

(** C6: a recording that has captured at least one chunk, with
    parameters that fit a WAV header, is stopped, and the hardware
    stream stops.  The bytes returned are a container that declares the
    configured channel count and sample rate and eight bits per byte of
    the format's sample size, and its sample data is the concatenation
    of the captured chunks in capture order. *)
Theorem stop_recording_round_trip (self : t) :
  is_recording self = true ->
  audio_data self <> [] ->
  header_fits self ->
  Wave.read_wav (snd (stop_recording self (inl ())))
  = Some (Wave.mkWav (channels self) (sample_rate self)
            (get_sample_size (format self) * 8)
            (concat (audio_data self)))
  /\ is_recording (fst (stop_recording self (inl ()))) = false.
Proof.
  intros Hrec Hdata Hfit. unfold stop_recording. rewrite Hrec. cbn [negb].
  unfold ret, raise.
  destruct (audio_stream (set_is_recording self false)).
  - apply (stopped_recording_container
             (set_audio_stream (set_is_recording self false) false));
      assumption.
  - apply (stopped_recording_container (set_is_recording self false));
      assumption.
Qed.

(** The default configuration: 16 kHz, mono, 16-bit samples. *)
Definition default_recorder : t :=
  __init__ (mkConfig 16000 1 1024 (Some "int16"%string)).

(** Two chunks of two samples each, captured after a start. *)
Definition two_chunks : list bytes :=
  [[x01; x00; xff; x7f]; [x00; x80; x10; x00]].

Definition recorded : t :=
  capture (fst (start_recording default_recorder (inl ()))) two_chunks.

Lemma stop_recording_round_trip_witness :
  Wave.read_wav (snd (stop_recording recorded (inl ())))
  = Some (Wave.mkWav 1 16000 16 (concat two_chunks))
  /\ is_recording (fst (stop_recording recorded (inl ()))) = false.
Proof.
  apply (stop_recording_round_trip recorded).
  - reflexivity.
  - discriminate.
  - change (WaveProperties.fits 1 16000 2 (concat two_chunks)).
    constructor; cbn; lia.
Defined.

(** *** The volume meter *)

Lemma int16_range (lo hi : byte) : -32768 <= int16 lo hi <= 32767.
Proof.
  unfold int16.
  pose proof (BytesProperties.Z_of_byte_range lo).
  pose proof (BytesProperties.Z_of_byte_range hi).
  destruct (Z.ltb_spec (Z_of_byte lo + 256 * Z_of_byte hi) 32768); lia.
Qed.

Lemma int16_samples_range_upto (n : nat) (b : bytes) :
  (length b <= n)%nat ->
  Forall (fun x => -32768 <= x <= 32767) (int16_samples b).
Proof.
  revert b. induction n as [|n IH]; intros b Hlen.
  - destruct b; [constructor|simpl in Hlen; lia].
  - destruct b as [|lo [|hi rest]]; try constructor.
    + apply int16_range.
    + apply IH. simpl in Hlen. lia.
Qed.

Lemma int16_samples_range (b : bytes) :
  Forall (fun x => -32768 <= x <= 32767) (int16_samples b).
Proof. now apply int16_samples_range_upto with (length b). Qed.

Lemma squared_sample_bounds (x : Z) :
  -32768 <= x <= 32767 ->
  (0 <= IZR x * IZR x <= 32768 * 32768)%R.
Proof.
  intros [Hlo Hhi].
  assert (H1 : (-32768 <= IZR x)%R) by (apply IZR_le in Hlo; exact Hlo).
  assert (H2 : (IZR x <= 32767)%R) by (apply IZR_le in Hhi; exact Hhi).
  split; nra.
Qed.

Lemma sum_squared_bounds (xs : list Z) :
  Forall (fun x => -32768 <= x <= 32767) xs ->
  (0 <= sum_R (squared xs) <= INR (length xs) * (32768 * 32768))%R.
Proof.
  induction 1 as [|x xs Hx Hxs IH].
  - simpl. lra.
  - change (squared (x :: xs)) with ((IZR x * IZR x)%R :: squared xs).
    change (sum_R (_ :: squared xs))
      with (IZR x * IZR x + sum_R (squared xs))%R.
    change (length (x :: xs)) with (S (length xs)). rewrite S_INR.
    pose proof (squared_sample_bounds x Hx). lra.
Qed.

(** The root mean square of a sample array (0 for the empty array). *)
Definition rms (samples : list Z) : R :=
  sqrt (sum_R (squared samples) / INR (length samples)).

(** The level stored for a sample array is its root mean square over
    the 16-bit full scale, and lies between 0 and 1. *)
Lemma volume_level_rms (samples : list Z) :
  Forall (fun x => -32768 <= x <= 32767) samples ->
  volume_level samples = finite (rms samples / 32768)
  /\ (0 <= rms samples / 32768 <= 1)%R.
Proof.
  intros Hrange. unfold volume_level, rms.
  destruct samples as [|x xs].
  - simpl. split.
    + f_equal. unfold Rdiv. rewrite Rmult_0_l, sqrt_0. lra.
    + unfold Rdiv. rewrite Rmult_0_l, sqrt_0. lra.
  - set (samples := x :: xs) in *.
    assert (Hn : (0 < INR (length samples))%R) by (apply lt_0_INR; simpl; lia).
    pose proof (sum_squared_bounds samples Hrange) as [Hlo Hhi].
    set (total := sum_R (squared samples)) in *.
    assert (Hmean : (0 <= total / INR (length samples) <= 32768 * 32768)%R).
    { split.
      - apply Rmult_le_pos; [exact Hlo|].
        left. now apply Rinv_0_lt_compat.
      - apply Rmult_le_reg_r with (INR (length samples)); [exact Hn|].
        unfold Rdiv. rewrite Rmult_assoc, Rinv_l by lra. lra. }
    destruct Hmean as [Hm0 Hm1].
    assert (Hsqrt : (0 <= sqrt (total / INR (length samples)) <= 32768)%R).
    { split; [apply sqrt_pos|].
      rewrite <- (sqrt_square 32768) by lra. now apply sqrt_le_1_alt. }
    split; [|lra].
    change ((0 <? length samples)%nat) with true. cbv iota zeta.
    unfold np_mean. change (squared samples) with
      ((IZR x * IZR x)%R :: squared xs) at 1.
    cbv iota. fold samples.
    change (sum_R (squared samples)) with total.
    replace (length (squared samples)) with (length samples)
      by (unfold squared; now rewrite length_map).
    unfold volume_of_mean, np_isfinite, ge_0, np_sqrt, div_by.
    destruct (Rle_dec 0 (total / INR (length samples))) as [_|Hneg];
      [reflexivity|contradiction].
Qed.

(** The guard of the square root: a mean that is not finite or is
    negative gives the level 0.0. *)
Lemma volume_of_bad_mean (mean_val : float64) :
  np_isfinite mean_val = false \/ ge_0 mean_val = false ->
  div_by (volume_of_mean mean_val) 32768 = finite 0.
Proof.
  intros H. unfold volume_of_mean.
  assert (Hb : np_isfinite mean_val && ge_0 mean_val = false).
  { destruct H as [H|H]; rewrite H; [reflexivity|apply andb_false_r]. }
  rewrite Hb. simpl. f_equal. lra.
Qed.

Lemma sum_squared_nonneg (xs : list Z) : (0 <= sum_R (squared xs))%R.
Proof.
  induction xs as [|x xs IH]; [simpl; lra|].
  change (0 <= IZR x * IZR x + sum_R (squared xs))%R.
  pose proof (Rle_0_sqr (IZR x)) as Hx. unfold Rsqr in Hx. lra.
Qed.

(** The mean square of a sample array that is not empty is finite and
    not negative: the guard of the square root lets it through. *)
Lemma mean_square_passes_guard (samples : list Z) :
  samples <> [] ->
  np_isfinite (np_mean (squared samples))
  && ge_0 (np_mean (squared samples)) = true.
Proof.
  destruct samples as [|x xs]; [congruence|]. intros _.
  set (samples := x :: xs).
  assert (Hn : (0 < INR (length (squared samples)))%R)
    by (apply lt_0_INR; simpl; lia).
  pose proof (sum_squared_nonneg samples) as Hsum.
  assert (Hmean : (0 <= sum_R (squared samples)
                        / INR (length (squared samples)))%R).
  { apply Rmult_le_pos; [exact Hsum|]. left. now apply Rinv_0_lt_compat. }
  assert (E : np_mean (squared samples)
              = finite (sum_R (squared samples)
                        / INR (length (squared samples))))
    by reflexivity.
  rewrite E. cbn [np_isfinite ge_0 andb].
  destruct (Rle_dec 0 _) as [_|Hneg]; [reflexivity|contradiction].
Qed.

(** C5, as amended: the recorder is recording and an observer is
    registered.  One run of the capture callback on a chunk that holds
    whole 16-bit samples calls the observer exactly once, and stores
    what it hands over as the current volume; on a chunk with an odd
    number of bytes the observer is not called.  The value handed over
    is the root mean square of the chunk read as signed 16-bit samples
    divided by the 16-bit full scale 32768, whatever sample format is
    configured; it lies in [0, 1] and is 0 for the empty chunk.  The
    mean square of a chunk that is not empty is finite and not
    negative, so the guard of the square root never replaces its level
    by 0.0. *)
Theorem volume_delivered_once_per_chunk (self : t) (in_data : bytes)
    (frame_count : Z) (callback : float64 -> CallbackOutcome) :
  is_recording self = true ->
  volume_callback self = Some callback ->
  let after := fst (_audio_callback self in_data frame_count) in
  let samples := int16_samples in_data in
  let level := (rms samples / 32768)%R in
  (if Nat.even (length in_data)
   then observed after = observed self ++ [finite level]
        /\ current_volume after = finite level
   else observed after = observed self)
  /\ (0 <= level <= 1)%R
  /\ (in_data = [] -> level = 0%R)
  /\ (samples <> [] ->
      np_isfinite (np_mean (squared samples))
      && ge_0 (np_mean (squared samples)) = true).
Proof.
  intros Hrec Hcb after samples level.
  destruct (volume_level_rms samples (int16_samples_range in_data))
    as [Hv Hb].
  split; [|split; [exact Hb|split; [|apply mean_square_passes_guard]]].
  - unfold after, _audio_callback, np_frombuffer_int16. rewrite Hrec.
    destruct (Nat.even (length in_data)); [|reflexivity].
    cbn [ret raise volume_callback set_current_volume set_audio_data
         current_volume observed fst].
    rewrite Hcb. fold samples. rewrite Hv.
    destruct (callback _); split; reflexivity.
  - intros ->. unfold level, samples, rms. cbn [int16_samples squared map
      sum_R fold_right]. unfold Rdiv. now rewrite !Rmult_0_l, sqrt_0, Rmult_0_l.
Qed.

(** The default recorder, recording, with an observer that returns. *)
Definition listening_recorder : t :=
  set_volume_callback (fst (start_recording default_recorder (inl ())))
    (Some (fun _ => returns)).

Lemma volume_delivered_once_per_chunk_witness :
  let chunk := [x00; x40; x00; xc0] in
  let after := fst (_audio_callback listening_recorder chunk 2) in
  let samples := int16_samples chunk in
  let level := (rms samples / 32768)%R in
  (observed after = observed listening_recorder ++ [finite level]
   /\ current_volume after = finite level)
  /\ (0 <= level <= 1)%R
  /\ (chunk = [] -> level = 0%R)
  /\ (samples <> [] ->
      np_isfinite (np_mean (squared samples))
      && ge_0 (np_mean (squared samples)) = true).
Proof.
  exact (volume_delivered_once_per_chunk listening_recorder
           [x00; x40; x00; xc0] 2 (fun _ => returns) eq_refl eq_refl).
Defined.

(** *** The level the claim describes

    The claim's words, not the source's: the chunk is read in the
    configured sample format, and its root mean square is divided by
    that format's full scale.  Stated for the signed integer formats,
    whose samples are little-endian two's complement numbers of
    [get_sample_size] bytes with full scale [2 ^ (bits - 1)]. *)

Definition signed_le (bs : bytes) : Z :=
  let u := Struct.le_value bs in
  let n := 256 ^ Z.of_nat (length bs) in
  if u <? n / 2 then u else u - n.

Fixpoint groups_of (fuel width : nat) (b : bytes) : list bytes :=
  match fuel with
  | O => []
  | S fuel' =>
      match b with
      | [] => []
      | _ => take width b :: groups_of fuel' width (drop width b)
      end
  end.

Definition samples_in_format (f : SampleFormat) (b : bytes) : list Z :=
  map signed_le (groups_of (length b) (Z.to_nat (get_sample_size f)) b).

Definition level_in_format (f : SampleFormat) (b : bytes) : option R :=
  match f with
  | paInt16 | paInt24 | paInt32 =>
      Some (rms (samples_in_format f b)
            / IZR (2 ^ (8 * get_sample_size f - 1)))%R
  | paUInt8 | paFloat32 => None
  end.

Lemma signed_le_int16 (lo hi : byte) : signed_le [lo; hi] = int16 lo hi.
Proof.
  unfold signed_le, int16. cbn [Struct.le_value length].
  change (256 ^ Z.of_nat 2) with 65536. change (65536 / 2) with 32768.
  replace (Z_of_byte lo + 256 * (Z_of_byte hi + 256 * 0))
    with (Z_of_byte lo + 256 * Z_of_byte hi) by lia.
  reflexivity.
Qed.

Lemma groups_of_int16 (fuel : nat) (b : bytes) :
  (length b <= fuel)%nat ->
  Nat.even (length b) = true ->
  map signed_le (groups_of fuel 2 b) = int16_samples b.
Proof.
  revert b. induction fuel as [|fuel IH]; intros b Hlen Heven.
  - destruct b; [reflexivity|simpl in Hlen; lia].
  - destruct b as [|lo [|hi rest]]; [reflexivity|discriminate|].
    cbn [groups_of take drop map int16_samples].
    rewrite signed_le_int16. f_equal.
    apply IH; [simpl in Hlen; lia|exact Heven].
Qed.

(** With 16-bit samples configured, the level the claim describes is
    the level the callback computes. *)
Lemma level_in_format_int16 (in_data : bytes) :
  Nat.even (length in_data) = true ->
  level_in_format paInt16 in_data
  = Some (rms (int16_samples in_data) / 32768)%R.
Proof.
  intros Heven. unfold level_in_format, samples_in_format.
  change (Z.to_nat (get_sample_size paInt16)) with 2%nat.
  rewrite groups_of_int16 by (lia || exact Heven).
  reflexivity.
Qed.

(** A recorder configured for 32-bit samples, recording, with an
    observer that returns. *)
Definition int32_recorder : t :=
  set_volume_callback
    (fst (start_recording
            (__init__ (mkConfig 48000 1 1024 (Some "int32"%string)))
            (inl ())))
    (Some (fun _ => returns)).

(** C5, as stated, fails: the recorder is configured for 32-bit
    samples and captures one quiet sample, 32767 of a full scale of
    2^31.  The level the claim describes is below 0.001; the observer
    is handed a level above 0.5, the chunk having been read as the two
    16-bit samples 32767 and 0. *)
Lemma quiet_int32_chunk_reads_loud :
  let chunk := [xff; x7f; x00; x00] in
  format int32_recorder = paInt32
  /\ exists x y : R,
       observed (fst (_audio_callback int32_recorder chunk 1)) = [finite x]
       /\ level_in_format (format int32_recorder) chunk = Some y
       /\ (y < 1 / 1000)%R
       /\ (1 / 2 < x)%R.
Proof.
  cbv zeta. split; [reflexivity|].
  exists (rms [32767; 0]%Z / 32768)%R, (rms [32767]%Z / IZR (2 ^ 31))%R.
  split; [|split; [|split]].
  - change (observed (fst (_audio_callback int32_recorder
                             [xff; x7f; x00; x00] 1)))
      with [volume_level [32767; 0]].
    f_equal.
    apply (volume_level_rms [32767; 0]).
    repeat constructor; lia.
  - reflexivity.
  - unfold rms, squared, sum_R. cbn [map fold_right length INR].
    replace ((32767 * 32767 + 0) / 1)%R with (32767 * 32767)%R by lra.
    rewrite sqrt_square by lra.
    change (2 ^ 31) with 2147483648. lra.
  - unfold rms, squared, sum_R. cbn [map fold_right length INR].
    assert (H : (20000 <= sqrt ((32767 * 32767 + (0 * 0 + 0)) / (1 + 1)))%R).
    { rewrite <- (sqrt_square 20000) at 1 by lra.
      apply sqrt_le_1_alt. lra. }
    lra.
Qed.

(** C10: the observer raises while the recorder is recording.  The
    chunk is in the recording buffer, the callback returns
    [(in_data, paContinue)], the recorder is still recording with the
    same stream, and only an error line is logged. *)
Theorem observer_exception_contained (self : t) (in_data : bytes)
    (frame_count : Z) (callback : float64 -> CallbackOutcome)
    (e : Exception) :
  is_recording self = true ->
  volume_callback self = Some callback ->
  np_frombuffer_int16 in_data = inl (int16_samples in_data) ->
  callback (volume_level (int16_samples in_data)) = raises e ->
  let after := fst (_audio_callback self in_data frame_count) in
  snd (_audio_callback self in_data frame_count) = inl (in_data, paContinue)
  /\ audio_data after = audio_data self ++ [in_data]
  /\ is_recording after = true
  /\ audio_stream after = audio_stream self
  /\ logger after = logger self ++ [error "Error in volume callback"]
  /\ forall rest : list bytes,
       capture self (in_data :: rest) = capture after rest.
Proof.
  intros Hrec Hcb Hbuf Hraise after.
  assert (Hrun : _audio_callback self in_data frame_count
                 = (log (set_observed
                           (set_current_volume
                              (set_audio_data self (audio_data self ++ [in_data]))
                              (volume_level (int16_samples in_data)))
                           (observed self
                              ++ [volume_level (int16_samples in_data)]))
                        (error "Error in volume callback"),
                    inl (in_data, paContinue))).
  { unfold _audio_callback. rewrite Hrec, Hbuf.
    cbn [volume_callback set_current_volume set_audio_data current_volume
         observed set_observed].
    rewrite Hcb, Hraise. reflexivity. }
  assert (Hchunk : forall fc, _audio_callback self in_data fc
                              = _audio_callback self in_data frame_count)
    by reflexivity.
  unfold after. rewrite Hrun. cbn [fst snd].
  repeat split; try reflexivity.
  - cbn. exact Hrec.
  - intros rest. cbn [capture]. rewrite (Hchunk (chunk_size self)), Hrun.
    reflexivity.
Qed.

(** The default recorder, recording, with an observer that always
    raises. *)
Definition failing_observer (v : float64) : CallbackOutcome :=
  raises (ValueError "observer failed").

Definition observed_recorder : t :=
  set_volume_callback (fst (start_recording default_recorder (inl ())))
    (Some failing_observer).

Lemma observer_exception_contained_witness :
  let chunk := [x01; x00; xff; x7f] in
  let after := fst (_audio_callback observed_recorder chunk 2) in
  snd (_audio_callback observed_recorder chunk 2) = inl (chunk, paContinue)
  /\ audio_data after = audio_data observed_recorder ++ [chunk]
  /\ is_recording after = true
  /\ audio_stream after = audio_stream observed_recorder
  /\ logger after
     = logger observed_recorder ++ [error "Error in volume callback"]
  /\ forall rest : list bytes,
       capture observed_recorder (chunk :: rest) = capture after rest.
Proof.
  apply (observer_exception_contained observed_recorder [x01; x00; xff; x7f]
           2 failing_observer (ValueError "observer failed"));
    reflexivity.
Defined.

End RecorderProperties.

(** ** [str.strip] *)

Module PyProperties.

Import Py.
Local Open Scope string_scope.
Local Open Scope list_scope.

(** *** Characters *)

Fixpoint all_continuation (s : string) : bool :=
  match s with
  | EmptyString => true
  | String c rest => is_continuation c && all_continuation rest
  end.

(** One byte followed by continuation bytes only. *)
Definition is_char (ch : string) : bool :=
  match ch with
  | EmptyString => false
  | String _ conts => all_continuation conts
  end.

(** What [chars] returns: characters, none but the first starting with
    a continuation byte. *)
Definition well_cut (l : list string) : Prop :=
  Forall (fun ch => is_char ch = true) l
  /\ Forall (fun ch => continues ch = false) (tail l).

Lemma chars_head (d : ascii) (s ch : string) (more : list string) :
  chars (String d s) = ch :: more -> exists conts, ch = String d conts.
Proof.
  cbn [chars]. destruct (chars s) as [|ch' more'].
  - intros [= <- _]. now exists "".
  - destruct (continues s); intros [= <- _]; eauto.
Qed.

Lemma chars_well_cut (s : string) : well_cut (chars s).
Proof.
  induction s as [|c s [Hchars Htail]]; [split; constructor|].
  cbn [chars]. destruct (chars s) as [|ch more] eqn:E.
  - split; repeat constructor.
  - inversion Hchars as [|? ? Hch Hmore]; subst.
    destruct s as [|d s]; [discriminate|].
    destruct (chars_head _ _ _ _ E) as [conts ->].
    cbn [continues]. destruct (is_continuation d) eqn:Ed.
    + split; [|exact Htail]. constructor; [|exact Hmore].
      cbn in Hch |- *. now rewrite Ed.
    + split; [repeat constructor; assumption|].
      cbn [tail] in *. constructor; [exact Ed|exact Htail].
Qed.

Lemma join_chars (s : string) : join (chars s) = s.
Proof.
  induction s as [|c s IH]; [reflexivity|].
  cbn [chars]. destruct (chars s) as [|ch more] eqn:E.
  - cbn in IH |- *. now subst s.
  - destruct (continues s);
      change (String c (join (ch :: more)) = String c s); now rewrite IH.
Qed.

Lemma append_assoc (a b c : string) : (a +:+ b) +:+ c = a +:+ b +:+ c.
Proof.
  induction a as [|x a IH]; [reflexivity|].
  change (String x ((a +:+ b) +:+ c) = String x (a +:+ b +:+ c)).
  now rewrite IH.
Qed.

Lemma join_app (l m : list string) : join (l ++ m) = join l +:+ join m.
Proof.
  induction l as [|x l IH]; [reflexivity|].
  change (x +:+ join (l ++ m) = (x +:+ join l) +:+ join m).
  now rewrite IH, append_assoc.
Qed.

Lemma chars_app (a b : string) :
  continues b = false -> chars (a +:+ b) = chars a ++ chars b.
Proof.
  intros Hb. induction a as [|c a IH]; [reflexivity|].
  change (String c a +:+ b) with (String c (a +:+ b)).
  cbn [chars]. rewrite IH.
  destruct a as [|d a].
  - change ("" +:+ b) with b. cbn [chars app]. rewrite Hb.
    now destruct (chars b).
  - change (String d a +:+ b) with (String d (a +:+ b)).
    destruct (chars (String d a)) as [|ch more] eqn:E.
    + exfalso. cbn [chars] in E. destruct (chars a); [discriminate|].
      now destruct (continues a).
    + cbn [app continues]. now destruct (is_continuation d).
Qed.

Lemma chars_char (ch : string) : is_char ch = true -> chars ch = [ch].
Proof.
  destruct ch as [|c conts]; [discriminate|]. cbn [is_char].
  revert c. induction conts as [|k conts IH]; intros c H; [reflexivity|].
  cbn [all_continuation] in H. apply andb_true_iff in H as [Hk H].
  cbn [chars] in IH |- *. specialize (IH k H).
  cbn [chars]. rewrite IH. cbn [continues]. now rewrite Hk.
Qed.

Lemma chars_join (l : list string) : well_cut l -> chars (join l) = l.
Proof.
  induction l as [|ch more IH]; [reflexivity|]. intros [Hchars Htail].
  inversion Hchars as [|? ? Hch Hmore]; subst. cbn [tail] in Htail.
  change (join (ch :: more)) with (ch +:+ join more).
  rewrite chars_app.
  - rewrite (chars_char _ Hch), IH; [reflexivity|].
    split; [exact Hmore|]. destruct more; [constructor|].
    cbn [tail]. now inversion Htail.
  - destruct more as [|ch' more]; [reflexivity|].
    inversion Htail as [|? ? Hc _]; subst.
    inversion Hmore as [|? ? Hch' _]; subst.
    destruct ch' as [|d conts]; [discriminate|exact Hc].
Qed.

Lemma well_cut_suffix (a b : list string) : well_cut (a ++ b) -> well_cut b.
Proof.
  induction a as [|x a IH]; [trivial|]. intros [Hchars Htail].
  apply IH. cbn [app tail] in *. inversion Hchars; subst.
  split; [assumption|]. destruct (a ++ b); [constructor|].
  cbn [tail]. now inversion Htail.
Qed.

Lemma well_cut_prefix (a b : list string) : well_cut (a ++ b) -> well_cut a.
Proof.
  intros [Hchars Htail]. apply Forall_app in Hchars as [Ha _].
  split; [exact Ha|]. destruct a as [|x a]; [constructor|].
  cbn [app tail] in *. now apply Forall_app in Htail as [? _].
Qed.

(** *** Stripping *)

(** The first character, if any, is not white space. *)
Definition starts_clean (l : list string) : Prop :=
  match l with
  | [] => True
  | ch :: _ => isspace ch = false
  end.

Lemma lstrip_chars_spec (l : list string) :
  exists pre, l = pre ++ lstrip_chars l
              /\ forallb isspace pre = true
              /\ starts_clean (lstrip_chars l).
Proof.
  induction l as [|ch l (pre & Hl & Hpre & Hclean)]; [now exists []|].
  cbn [lstrip_chars]. destruct (isspace ch) eqn:E.
  - exists (ch :: pre). cbn [app forallb]. rewrite E, Hpre, <- Hl. auto.
  - exists []. cbn. auto.
Qed.

Lemma lstrip_chars_clean (l : list string) :
  starts_clean l -> lstrip_chars l = l.
Proof. destruct l as [|ch l]; [reflexivity|]. cbn. now intros ->. Qed.

Lemma forallb_isspace_rev (l : list string) :
  forallb isspace (rev l) = forallb isspace l.
Proof.
  induction l as [|x l IH]; [reflexivity|].
  cbn [rev forallb]. rewrite forallb_app, IH. cbn.
  now rewrite andb_true_r, andb_comm.
Qed.

Lemma rstrip_chars_spec (l : list string) :
  exists post, l = rstrip_chars l ++ post
               /\ forallb isspace post = true.
Proof.
  unfold rstrip_chars.
  destruct (lstrip_chars_spec (rev l)) as (pre & Hl & Hpre & _).
  exists (rev pre). split; [|now rewrite forallb_isspace_rev].
  rewrite <- rev_app_distr, <- Hl. now rewrite rev_involutive.
Qed.

Lemma rstrip_chars_starts_clean (l : list string) :
  starts_clean l -> starts_clean (rstrip_chars l).
Proof.
  destruct (rstrip_chars_spec l) as (post & Hl & _).
  destruct (rstrip_chars l) as [|x r]; [now cbn|].
  intros H. rewrite Hl in H. exact H.
Qed.

Lemma rstrip_chars_idempotent (l : list string) :
  rstrip_chars (rstrip_chars l) = rstrip_chars l.
Proof.
  unfold rstrip_chars. rewrite rev_involutive. f_equal.
  destruct (lstrip_chars_spec (rev l)) as (_ & _ & _ & Hclean).
  now apply lstrip_chars_clean.
Qed.

(** The characters [strip] keeps. *)
Definition strip_chars (l : list string) : list string :=
  rstrip_chars (lstrip_chars l).

Lemma strip_chars_idempotent (l : list string) :
  strip_chars (strip_chars l) = strip_chars l.
Proof.
  unfold strip_chars.
  destruct (lstrip_chars_spec l) as (_ & _ & _ & Hclean).
  rewrite (lstrip_chars_clean (rstrip_chars _)).
  - apply rstrip_chars_idempotent.
  - now apply rstrip_chars_starts_clean.
Qed.

(** [strip] removes a run of white space characters at each end and
    nothing else. *)
Lemma strip_chars_spec (l : list string) :
  exists pre post,
    l = pre ++ strip_chars l ++ post
    /\ forallb isspace pre = true /\ forallb isspace post = true
    /\ starts_clean (strip_chars l)
    /\ starts_clean (rev (strip_chars l)).
Proof.
  destruct (lstrip_chars_spec l) as (pre & Hl & Hpre & Hclean).
  destruct (rstrip_chars_spec (lstrip_chars l)) as (post & Hr & Hpost).
  exists pre, post. unfold strip_chars. rewrite <- Hr.
  repeat split; try assumption.
  - now apply rstrip_chars_starts_clean.
  - unfold rstrip_chars. rewrite rev_involutive.
    now destruct (lstrip_chars_spec (rev (lstrip_chars l))) as (_ & _ & _ & ?).
Qed.

Lemma strip_chars_well_cut (s : string) : well_cut (strip_chars (chars s)).
Proof.
  destruct (strip_chars_spec (chars s)) as (pre & post & Hl & _).
  pose proof (chars_well_cut s) as H. rewrite Hl in H.
  now apply well_cut_suffix, well_cut_prefix in H.
Qed.

Lemma chars_strip (s : string) : chars (strip s) = strip_chars (chars s).
Proof. apply chars_join, strip_chars_well_cut. Qed.

(** Stripping a stripped text changes nothing. *)
Lemma strip_idempotent (s : string) : strip (strip s) = strip s.
Proof.
  unfold strip at 1. fold (strip_chars (chars (strip s))).
  now rewrite chars_strip, strip_chars_idempotent.
Qed.

Lemma strip_spec (s : string) :
  exists pre post,
    s = join pre +:+ strip s +:+ join post
    /\ forallb isspace pre = true /\ forallb isspace post = true
    /\ starts_clean (chars (strip s))
    /\ starts_clean (rev (chars (strip s))).
Proof.
  destruct (strip_chars_spec (chars s)) as (pre & post & Hl & H).
  exists pre, post. rewrite chars_strip. split; [|exact H].
  rewrite <- (join_chars s) at 1. rewrite Hl. now rewrite !join_app.
Qed.

(** The stripped text is empty exactly when the text is empty or all
    white space. *)
Lemma strip_empty_iff (s : string) :
  strip s = "" <-> forallb isspace (chars s) = true.
Proof.
  destruct (strip_chars_spec (chars s))
    as (pre & post & Hl & Hpre & Hpost & Hstart & _).
  assert (Hnil : strip s = "" <-> strip_chars (chars s) = []).
  { rewrite <- chars_strip. split; [now intros ->|].
    intros E. rewrite <- (join_chars (strip s)). now rewrite E. }
  rewrite Hnil. split.
  - intros E. rewrite Hl, E, !forallb_app, Hpre, Hpost. reflexivity.
  - intros Hall. rewrite Hl, !forallb_app in Hall.
    destruct (strip_chars (chars s)) as [|ch r]; [reflexivity|].
    cbn in Hstart, Hall. rewrite Hstart in Hall.
    now rewrite andb_false_r in Hall.
Qed.

(** *** Lengths *)

Lemma len_app (a b : string) :
  continues b = false -> len (a +:+ b) = (len a + len b)%nat.
Proof. intros H. unfold len. now rewrite chars_app, length_app. Qed.

Lemma len_slice_to (n : nat) (s : string) : (len (slice_to n s) <= n)%nat.
Proof.
  unfold len, slice_to. rewrite chars_join.
  - rewrite length_firstn. lia.
  - pose proof (chars_well_cut s) as H.
    rewrite <- (firstn_skipn n (chars s)) in H.
    now apply well_cut_prefix in H.
Qed.

End PyProperties.

(** ** The transcription client *)

Module ClientProperties.

Import OpenAIClient.
Local Open Scope string_scope.
Local Open Scope list_scope.

(** The encoder on the test vectors of RFC 4648. *)
Lemma b64encode_vectors :
  Py.b64encode [] = ""
  /\ Py.b64encode [x66] = "Zg=="
  /\ Py.b64encode [x66; x6f] = "Zm8="
  /\ Py.b64encode [x66; x6f; x6f] = "Zm9v"
  /\ Py.b64encode [x66; x6f; x6f; x62; x61; x72] = "Zm9vYmFy"
  /\ Py.b64encode [xfb; xff] = "+/8=".
Proof. repeat split; vm_compute; reflexivity. Qed.

Lemma strip_examples :
  Py.strip "  hello world " = "hello world"
  /\ Py.strip (String "010" (String "009" "")) = ""
  /\ Py.strip "a b" = "a b"
  /\ Py.strip "" = ""
  /\ Py.strip (Py.chr 12288) = ""
  /\ Py.strip (Py.chr 12288 +:+ "hi" +:+ Py.chr 160 +:+ Py.chr 133) = "hi"
  /\ Py.strip (Py.chr 8203 +:+ "hi") = Py.chr 8203 +:+ "hi"
  /\ Py.strip " 你好 " = "你好"
  /\ Py.len "你好" = 2%nat
  /\ Py.split (" a" +:+ Py.chr 12288 +:+ "b  c ") = ["a"; "b"; "c"]
  /\ Py.slice_to 2 "你好吗" = "你好".
Proof. repeat split; vm_compute; reflexivity. Qed.

(** [send_audio_data] before the connection is established changes
    nothing: the chunk is neither sent nor kept. *)
Lemma send_audio_data_not_connected (self : t) (audio_chunk : bytes) :
  realtime_connected self = false ->
  send_audio_data self audio_chunk = self.
Proof.
  intros H. unfold send_audio_data. rewrite H.
  now destruct (realtime_websocket self).
Qed.

Lemma send_all_not_connected (self : t) (chunks : list bytes) :
  realtime_connected self = false ->
  fold_left send_audio_data chunks self = self.
Proof.
  intros H. induction chunks as [|c cs IH]; [reflexivity|].
  simpl. now rewrite send_audio_data_not_connected.
Qed.

(** The request of a batch transcription: whatever model is asked for,
    the request names the model "whisper-1"; it carries the audio as
    the file "audio.wav", the response format "text", and the language
    when one is given. *)
Lemma api_params_fields (audio_data : bytes) (model_arg : string)
    (language_arg : option string) :
  let request := api_params audio_data model_arg language_arg in
  model request = "whisper-1"
  /\ file request = audio_data
  /\ file_name request = "audio.wav"
  /\ response_format request = "text"
  /\ language request
     = match language_arg with
       | Some l => if Py.truthy l then Some l else None
       | None => None
       end.
Proof.
  unfold api_params. destruct language_arg as [l|]; [|now cbn].
  destruct (Py.truthy l); now cbn.
Qed.

Lemma transcribe_audio_requests (self : t)
    (service : TranscriptionRequest -> result string) (audio_data : bytes)
    (model_arg : string) (language_arg : option string) :
  requests (fst (transcribe_audio self service audio_data model_arg language_arg))
  = requests self ++ [api_params audio_data model_arg language_arg].
Proof.
  unfold transcribe_audio.
  destruct (service _); reflexivity.
Qed.

(** On success [transcribe_audio] returns the stripped response; on
    failure it raises what the service raised. *)
Lemma transcribe_audio_returns (self : t)
    (service : TranscriptionRequest -> result string) (audio_data : bytes)
    (model_arg : string) (language_arg : option string) :
  snd (transcribe_audio self service audio_data model_arg language_arg)
  = match service (api_params audio_data model_arg language_arg) with
    | inl response => inl (Py.strip response)
    | inr e => inr e
    end.
Proof.
  unfold transcribe_audio.
  destruct (service _); reflexivity.
Qed.

End ClientProperties.

(** ** The real-time session *)

Module SessionProperties.

Import RealtimeSessionManager.
Local Open Scope list_scope.

Lemma send_audio_client (self : t) (chunks : list bytes) :
  client (fold_left send_audio chunks self) = client self.
Proof.
  revert self. induction chunks as [|c cs IH]; intros self; [reflexivity|].
  simpl. rewrite IH. unfold send_audio.
  destruct (loop self); [destruct (is_active self)|]; reflexivity.
Qed.

(** C4, as amended: audio fed before the real-time connection is open
    is not buffered.  Whatever chunks are passed to [send_audio] while
    the client is not connected, once their coroutines have run the
    client is what it was: nothing was sent and nothing was kept.  When
    the connection then opens and the configuration completes, the
    session configuration is the only message sent, and no coroutine is
    left to run. *)
Theorem audio_before_connection_is_dropped (self : t) (chunks : list bytes) :
  OpenAIClient.realtime_connected (client self) = false ->
  let fed := fold_left send_audio chunks self in
  let drained := loop_run_all fed in
  client drained = client self
  /\ (loop drained = None \/ loop drained = Some [])
  /\ OpenAIClient.sent_messages (client (connection_opened drained))
     = [OpenAIClient.session_update]
  /\ loop_run_all (connection_opened drained) = connection_opened drained.
Proof.
  intros Hc fed drained.
  assert (Hfed : client fed = client self) by apply send_audio_client.
  assert (Hd : client drained = client self).
  { unfold drained, loop_run_all. destruct (loop fed) as [pending|].
    - cbn [client]. rewrite Hfed.
      now apply ClientProperties.send_all_not_connected.
    - exact Hfed. }
  assert (Hl : loop drained = None \/ loop drained = Some []).
  { unfold drained, loop_run_all.
    destruct (loop fed) as [pending|] eqn:E; [now right|now left]. }
  repeat split; try assumption.
  destruct Hl as [Hl|Hl]; unfold loop_run_all, connection_opened;
    cbn [loop]; rewrite Hl; reflexivity.
Qed.

(** A session that was started and whose thread has created its event
    loop, not connected yet. *)
Definition connecting_session : t :=
  _run_session_loop_begin
    (start_session
       (__init__ (OpenAIClient.__init__ "sk-test" "https://api.openai.com/v1"))).

Lemma audio_before_connection_is_dropped_witness :
  let chunks := [[x01; x00]; [xff; x7f]] in
  let drained := loop_run_all (fold_left send_audio chunks connecting_session) in
  client drained = client connecting_session
  /\ (loop drained = None \/ loop drained = Some [])
  /\ OpenAIClient.sent_messages (client (connection_opened drained))
     = [OpenAIClient.session_update]
  /\ loop_run_all (connection_opened drained) = connection_opened drained.
Proof.
  apply (audio_before_connection_is_dropped connecting_session
           [[x01; x00]; [xff; x7f]]).
  reflexivity.
Defined.

(** C4, as stated, fails: a chunk is fed to a session that was started
    but whose thread has not created its event loop yet; then the loop
    is created, the connection opens, the configuration is sent and the
    loop runs everything it has.  The chunk was never sent. *)
Lemma early_chunk_never_sent :
  let chunk := [x01; x00; xff; x7f] in
  let started :=
    start_session
      (__init__ (OpenAIClient.__init__ "sk-test" "https://api.openai.com/v1")) in
  let fed := send_audio started chunk in
  let configured :=
    loop_run_all (connection_opened (_run_session_loop_begin fed)) in
  fed = started
  /\ OpenAIClient.sent_messages (client configured)
     = [OpenAIClient.session_update]
  /\ ~ In (OpenAIClient.input_audio_buffer_append (Py.b64encode chunk))
         (OpenAIClient.sent_messages (client configured))
  /\ loop configured = Some [].
Proof.
  cbv zeta. split; [reflexivity|]. split; [reflexivity|].
  split; [|reflexivity].
  vm_compute. intros [H|[]]. discriminate H.
Qed.

End SessionProperties.

(** ** The recording controller *)

Module ControllerProperties.

Import SpeechTideApp.
Local Open Scope string_scope.
Local Open Scope list_scope.

Ltac app_simpl :=
  cbn -[validate_api_key Py.strip Py.truthy AudioRecorder.start_recording
        AudioRecorder.stop_recording OpenAIClient.transcribe_audio
        OpenAIClient.api_params] in *.

(** What the first branch of the timer (a start or a stop of the
    recording) leaves alone. *)
Record same_transcription_state (a b : t) : Prop := mkSame {
  same_is_transcribing : is_transcribing b = is_transcribing a;
  same_pending_set : _pending_set_transcribing b = _pending_set_transcribing a;
  same_pending_clear :
    _pending_clear_transcribing b = _pending_clear_transcribing a;
  same_clipboard : clipboard b = clipboard a;
  same_conversation_logger : conversation_logger b = conversation_logger a;
  same_config : config b = config a
}.

Lemma start_recording_main_thread_same (a : t) (device : result unit) :
  same_transcription_state a (_start_recording_main_thread a device).
Proof.
  unfold _start_recording_main_thread.
  destruct (is_recording a); [now constructor|].
  destruct (validate_api_key (config a)); app_simpl; [|now constructor].
  destruct (AudioRecorder.start_recording _ _) as [recorder [u|e]];
    now constructor.
Qed.

Lemma stop_recording_main_thread_same (a : t) (stream : result unit) :
  same_transcription_state a (_stop_recording_main_thread a stream).
Proof.
  unfold _stop_recording_main_thread.
  destruct (is_recording a); app_simpl; [|now constructor].
  destruct (AudioRecorder.stop_recording _ _) as [recorder audio_data].
  now constructor.
Qed.

(** The start-or-stop branch of the timer. *)
Definition recording_branch (a : t) (hardware : Hardware) : t :=
  if _pending_start_recording a && negb (is_recording a) then
    _start_recording_main_thread (set_pending_start_recording a false)
      (open_stream hardware)
  else if _pending_stop_recording a && is_recording a then
    _stop_recording_main_thread (set_pending_stop_recording a false)
      (stop_stream hardware)
  else a.

Lemma recording_branch_same (a : t) (hardware : Hardware) :
  same_transcription_state a (recording_branch a hardware).
Proof.
  unfold recording_branch.
  destruct (_pending_start_recording a && negb (is_recording a)).
  - destruct (start_recording_main_thread_same
                (set_pending_start_recording a false) (open_stream hardware)).
    now constructor.
  - destruct (_pending_stop_recording a && is_recording a);
      [|now constructor].
    destruct (stop_recording_main_thread_same
                (set_pending_stop_recording a false) (stop_stream hardware)).
    now constructor.
Qed.

(** The timer: the recording branch, then the two transcribing
    flags. *)
Lemma process_pending_ui_operations_unfold (a : t) (hardware : Hardware) :
  _process_pending_ui_operations a hardware
  = let a1 := recording_branch a hardware in
    let a2 :=
      if _pending_set_transcribing a1 then
        log (_update_menu_state
               (set_is_transcribing (set_pending_set_transcribing a1 false) true))
          (info "Started transcribing...")
      else a1 in
    if _pending_clear_transcribing a2 then
      log (_update_menu_state
             (set_is_transcribing (set_pending_clear_transcribing a2 false) false))
        (info "Transcription completed")
    else a2.
Proof. reflexivity. Qed.

(** A pending request to clear the transcribing state is honoured by
    the next run of the timer, whatever else is pending. *)
Lemma timer_clears_transcribing (a : t) (hardware : Hardware) :
  _pending_clear_transcribing a = true ->
  is_transcribing (_process_pending_ui_operations a hardware) = false
  /\ _pending_clear_transcribing (_process_pending_ui_operations a hardware)
     = false
  /\ _pending_set_transcribing (_process_pending_ui_operations a hardware)
     = false.
Proof.
  intros Hclear. rewrite process_pending_ui_operations_unfold.
  destruct (recording_branch_same a hardware) as [_ Hs Hc _ _ _].
  set (a1 := recording_branch a hardware) in *. cbv zeta.
  rewrite Hclear in Hc.
  destruct (_pending_set_transcribing a1) eqn:E; app_simpl.
  - rewrite Hc. app_simpl. now repeat split.
  - rewrite Hc. app_simpl. now repeat split.
Qed.

(** [_update_menu_state] never shows the transcribing icon for a state
    that is not transcribing. *)
Lemma update_menu_state_icon (a : t) :
  is_transcribing a = false ->
  title (_update_menu_state a) <> icon_transcribing.
Proof.
  intros H. unfold _update_menu_state. rewrite H. cbn [title set_title].
  destruct (negb (validate_api_key (config a))); [discriminate|].
  destruct (is_recording a); discriminate.
Qed.

(** After such a run the status bar no longer shows the transcribing
    icon. *)
Lemma timer_clears_icon (a : t) (hardware : Hardware) :
  _pending_clear_transcribing a = true ->
  title (_process_pending_ui_operations a hardware) <> icon_transcribing.
Proof.
  intros Hclear. rewrite process_pending_ui_operations_unfold.
  destruct (recording_branch_same a hardware) as [_ Hs Hc _ _ _].
  set (a1 := recording_branch a hardware) in *. cbv zeta.
  rewrite Hclear in Hc.
  destruct (_pending_set_transcribing a1) eqn:E.
  - replace (_pending_clear_transcribing _) with true by now app_simpl.
    cbn [title log]. now apply update_menu_state_icon.
  - rewrite Hc. cbn [title log]. now apply update_menu_state_icon.
Qed.

(** With no recording and no start requested, the timer leaves the
    recording state alone. *)
Lemma timer_keeps_not_recording (a : t) (hardware : Hardware) :
  is_recording a = false ->
  _pending_start_recording a = false ->
  is_recording (_process_pending_ui_operations a hardware) = false.
Proof.
  intros Hrec Hstart. rewrite process_pending_ui_operations_unfold.
  assert (H1 : recording_branch a hardware = a).
  { unfold recording_branch. rewrite Hrec, Hstart.
    now rewrite andb_false_r. }
  rewrite H1. cbv zeta.
  destruct (_pending_set_transcribing a); app_simpl;
    destruct (_pending_clear_transcribing a); app_simpl; exact Hrec.
Qed.

(** *** Processing a recording *)

(** C7: the service answers a batch request.  [transcribe_audio]
    returns the answer stripped of the white space around it, whatever
    the answer is, and the stripped text is empty exactly when every
    character of the answer is white space.  When it is empty,
    [_process_audio] delivers no text, logs no interaction, shows no
    alert or notification and logs no error; it asks for the
    transcribing state to be cleared, and the next run of the timer
    clears it. *)
Theorem empty_transcript_is_no_speech (self : t) (audio_data : bytes)
    (world : Collaborators) (response : string) (hardware : Hardware) :
  (forall request, service world request = inl response) ->
  let after := _process_audio self audio_data world in
  (forall client model_arg language_arg,
      snd (OpenAIClient.transcribe_audio client (service world) audio_data
             model_arg language_arg)
      = inl (Py.strip response))
  /\ (Py.strip response = ""
      <-> forallb Py.isspace (Py.chars response) = true)
  /\ (Py.strip response = "" ->
      clipboard after = clipboard self
      /\ conversation_logger after = conversation_logger self
      /\ shown after = shown self
      /\ logger after
         = logger self ++ [info "Processing audio for transcription";
                           warning "No transcription result"]
      /\ _pending_clear_transcribing after = true
      /\ is_transcribing (_process_pending_ui_operations after hardware)
         = false
      /\ title (_process_pending_ui_operations after hardware)
         <> icon_transcribing).
Proof.
  intros Hservice after.
  assert (Hret : forall client model_arg language_arg,
             snd (OpenAIClient.transcribe_audio client (service world)
                    audio_data model_arg language_arg)
             = inl (Py.strip response)).
  { intros. rewrite ClientProperties.transcribe_audio_returns.
    now rewrite Hservice. }
  split; [exact Hret|].
  split; [apply PyProperties.strip_empty_iff|].
  intros Hblank.
  assert (Hafter :
    after
    = set_pending_clear_transcribing
        (log (set_openai_client (_process_audio_begin self)
                (fst (OpenAIClient.transcribe_audio
                        (openai_client self) (service world) audio_data
                        (openai_model_transcribe (config self))
                        (let selected_language :=
                           match language_recognition (config self) with
                           | Some l => l
                           | None => "auto"
                           end in
                         if String.eqb selected_language "auto" then None
                         else Some selected_language))))
           (warning "No transcription result"))
        true).
  { unfold after, _process_audio, _process_audio_end.
    cbn [config openai_client _process_audio_begin log
         set_pending_set_transcribing].
    cbv zeta.
    match goal with
    | |- context [OpenAIClient.transcribe_audio ?c ?s ?a ?m ?l] =>
        pose proof (Hret c m l) as Hsnd;
        destruct (OpenAIClient.transcribe_audio c s a m l)
          as [client transcription]
    end.
    cbn [snd fst] in Hsnd |- *. subst transcription.
    rewrite Hblank. cbn [Py.truthy andb]. reflexivity. }
  assert (Hclear : _pending_clear_transcribing after = true)
    by now rewrite Hafter.
  destruct (timer_clears_transcribing after hardware Hclear) as (Ht & _ & _).
  pose proof (timer_clears_icon after hardware Hclear) as Hicon.
  split; [now rewrite Hafter|]. split; [now rewrite Hafter|].
  split; [now rewrite Hafter|]. split; [|now repeat split].
  rewrite Hafter.
  cbn [logger set_pending_clear_transcribing log set_openai_client
       _process_audio_begin set_pending_set_transcribing].
  now rewrite <- app_assoc.
Qed.

(** C8: the batch transcription call raises.  [_process_audio] shows
    the error notification, delivers no text, logs no interaction and
    asks for the transcribing state to be cleared; the next run of the
    timer clears it, and the session is idle unless a recording is
    running or requested. *)
Theorem service_error_returns_to_idle (self : t) (audio_data : bytes)
    (world : Collaborators) (e : Exception) (hardware : Hardware) :
  (forall request, service world request = inr e) ->
  let after := _process_audio self audio_data world in
  shown after
  = shown self ++ [notification "SpeechTide" "Transcription Error"
                     ("Failed to process audio: " ++ str_of e)]
  /\ clipboard after = clipboard self
  /\ conversation_logger after = conversation_logger self
  /\ _pending_clear_transcribing after = true
  /\ is_transcribing (_process_pending_ui_operations after hardware) = false
  /\ title (_process_pending_ui_operations after hardware)
     <> icon_transcribing
  /\ (is_recording self = false ->
      _pending_start_recording self = false ->
      session_state (_process_pending_ui_operations after hardware) = Idle).
Proof.
  intros Hservice after.
  assert (Hafter :
    exists client,
      after
      = set_pending_clear_transcribing
          (show (log (set_openai_client (_process_audio_begin self) client)
                   (error "Error processing audio"))
             (notification "SpeechTide" "Transcription Error"
                ("Failed to process audio: " ++ str_of e)))
          true).
  { unfold after, _process_audio, _process_audio_end.
    cbn [config openai_client _process_audio_begin log
         set_pending_set_transcribing].
    cbv zeta.
    match goal with
    | |- context [OpenAIClient.transcribe_audio ?c ?s ?a ?m ?l] =>
        pose proof (ClientProperties.transcribe_audio_returns c s a m l)
          as Hsnd;
        destruct (OpenAIClient.transcribe_audio c s a m l)
          as [client transcription]
    end.
    rewrite Hservice in Hsnd. cbn [snd] in Hsnd. subst transcription.
    exists client. reflexivity. }
  destruct Hafter as [client Hafter].
  assert (Hclear : _pending_clear_transcribing after = true)
    by now rewrite Hafter.
  destruct (timer_clears_transcribing after hardware Hclear) as (Ht & _ & _).
  pose proof (timer_clears_icon after hardware Hclear) as Hicon.
  do 4 (split; [now rewrite Hafter|]).
  split; [exact Ht|]. split; [exact Hicon|].
  intros Hrec Hstart. unfold session_state.
  rewrite timer_keeps_not_recording, Ht; try reflexivity;
    rewrite Hafter; assumption.
Qed.

(** The application on the default configuration. *)
Definition default_app : t := __init__ (DEFAULT_CONFIG "sk-test").

(** An answer that is blank: a space, a line feed, a no-break space
    (U+00A0) and an ideographic space (U+3000). *)
Definition blank_answer : string :=
  " " ++ Py.chr 10 ++ Py.chr 160 ++ Py.chr 12288.

(** A service that answers every request with blank text. *)
Definition blank_world : Collaborators :=
  mkCollaborators (fun _ => inl blank_answer) (inl ()) true.

(** A service that fails every request. *)
Definition failing_world : Collaborators :=
  mkCollaborators (fun _ => inr (APIError "500 Internal Server Error"))
    (inl ()) true.

Lemma empty_transcript_is_no_speech_witness :
  let after := _process_audio default_app [x01; x00] blank_world in
  (forall client model_arg language_arg,
      snd (OpenAIClient.transcribe_audio client (service blank_world)
             [x01; x00] model_arg language_arg)
      = inl "")
  /\ clipboard after = clipboard default_app
  /\ conversation_logger after = conversation_logger default_app
  /\ shown after = shown default_app
  /\ logger after
     = logger default_app ++ [info "Processing audio for transcription";
                              warning "No transcription result"]
  /\ _pending_clear_transcribing after = true
  /\ is_transcribing (_process_pending_ui_operations after working) = false
  /\ title (_process_pending_ui_operations after working)
     <> icon_transcribing.
Proof.
  destruct (empty_transcript_is_no_speech default_app [x01; x00] blank_world
              blank_answer working (fun _ => eq_refl))
    as (Hret & _ & Hblank).
  split; [exact Hret|]. apply Hblank. reflexivity.
Defined.

Lemma service_error_returns_to_idle_witness :
  let after := _process_audio default_app [x01; x00] failing_world in
  shown after
  = shown default_app
      ++ [notification "SpeechTide" "Transcription Error"
            "Failed to process audio: 500 Internal Server Error"]
  /\ clipboard after = clipboard default_app
  /\ conversation_logger after = conversation_logger default_app
  /\ _pending_clear_transcribing after = true
  /\ is_transcribing (_process_pending_ui_operations after working) = false
  /\ title (_process_pending_ui_operations after working)
     <> icon_transcribing
  /\ (is_recording default_app = false ->
      _pending_start_recording default_app = false ->
      session_state (_process_pending_ui_operations after working) = Idle).
Proof.
  apply (service_error_returns_to_idle default_app [x01; x00] failing_world
           (APIError "500 Internal Server Error") working).
  intros request. reflexivity.
Defined.

Lemma insert_text_openai_client (self : t) (clipboard_works : bool)
    (text : string) :
  openai_client (insert_text self clipboard_works text) = openai_client self.
Proof.
  unfold insert_text.
  destruct (negb (Py.truthy text) || negb (Py.truthy (Py.strip text)));
    [reflexivity|].
  destruct clipboard_works; reflexivity.
Qed.

(** The request one [_process_audio] run hands to the service. *)
Lemma process_audio_requests (self : t) (audio_data : bytes)
    (world : Collaborators) :
  exists language_param,
    OpenAIClient.requests
      (openai_client (_process_audio self audio_data world))
    = OpenAIClient.requests (openai_client self)
        ++ [OpenAIClient.api_params audio_data
              (openai_model_transcribe (config self)) language_param].
Proof.
  unfold _process_audio, _process_audio_end.
  cbn [config openai_client _process_audio_begin log
       set_pending_set_transcribing].
  cbv zeta.
  match goal with
  | |- context [OpenAIClient.transcribe_audio ?c ?s ?a ?m ?l] =>
      exists l;
      pose proof (ClientProperties.transcribe_audio_requests c s a m l)
        as Hreq;
      destruct (OpenAIClient.transcribe_audio c s a m l)
        as [client transcription]
  end.
  cbn [fst] in Hreq. rewrite <- Hreq.
  destruct transcription as [text|e]; [|reflexivity].
  destruct (Py.truthy text && Py.truthy (Py.strip text)); [|reflexivity].
  destruct (log_interaction world); [|reflexivity].
  cbn -[insert_text]. now rewrite insert_text_openai_client.
Qed.

(** C9 (the code at the failing input): the application runs on the
    default configuration, whose model for batch transcription is
    "gpt-4o-mini".  Whatever the service does, the one request
    [_process_audio] sends names the model "whisper-1"; it carries the
    audio as "audio.wav", the response format "text" and no language. *)
Theorem configured_model_not_sent (audio_data : bytes) (world : Collaborators) :
  openai_model_transcribe (config default_app) = "gpt-4o-mini"
  /\ OpenAIClient.requests
       (openai_client (_process_audio default_app audio_data world))
     = [OpenAIClient.mkRequest "whisper-1" audio_data "audio.wav" "text" None].
Proof.
  split; [reflexivity|].
  unfold _process_audio, _process_audio_end.
  cbn [config openai_client _process_audio_begin log
       set_pending_set_transcribing].
  cbv zeta.
  match goal with
  | |- context [OpenAIClient.transcribe_audio ?c ?s ?a ?m ?l] =>
      pose proof (ClientProperties.transcribe_audio_requests c s a m l)
        as Hreq;
      destruct (OpenAIClient.transcribe_audio c s a m l)
        as [client transcription]
  end.
  cbn [fst] in Hreq.
  assert (Hclient : OpenAIClient.requests client
                    = [OpenAIClient.mkRequest "whisper-1" audio_data
                         "audio.wav" "text" None])
    by (rewrite Hreq; reflexivity).
  rewrite <- Hclient.
  destruct transcription as [text|e]; [|reflexivity].
  destruct (Py.truthy text && Py.truthy (Py.strip text)); [|reflexivity].
  destruct (log_interaction world); [|reflexivity].
  cbn -[insert_text]. now rewrite insert_text_openai_client.
Qed.

(** *** Activation while a transcription is in flight *)

(** The two transcribing branches of the timer leave the recording
    alone. *)
Lemma timer_after_recording_branch (a : t) (hardware : Hardware) :
  let a1 := recording_branch a hardware in
  let after := _process_pending_ui_operations a hardware in
  is_recording after = is_recording a1
  /\ audio_recorder after = audio_recorder a1
  /\ processing_threads after = processing_threads a1.
Proof.
  cbv zeta. rewrite process_pending_ui_operations_unfold. cbv zeta.
  set (a1 := recording_branch a hardware).
  destruct (_pending_set_transcribing a1); app_simpl;
    destruct (_pending_clear_transcribing a1); app_simpl;
    now repeat split.
Qed.

(** An activation while recording stops the recording and starts one
    more processing thread next to those already running. *)
Lemma activation_while_recording_stops (a : t) (key : string)
    (hardware : Hardware) :
  is_recording a = true ->
  let stopped :=
    _process_pending_ui_operations (_handle_hotkey a key) hardware in
  is_recording stopped = false
  /\ exists audio_data : bytes,
       processing_threads stopped = processing_threads a ++ [audio_data].
Proof.
  intros Hrec stopped.
  destruct (timer_after_recording_branch (_handle_hotkey a key) hardware)
    as (H1 & _ & H3).
  fold stopped in H1, H3. rewrite H1, H3.
  assert (Hreq : _handle_hotkey a key
                 = set_pending_start_recording
                     (set_pending_stop_recording
                        (log (log a (info "Hotkey activated"))
                           (info "Hotkey triggered: requesting stop recording"))
                        true)
                     false).
  { unfold _handle_hotkey. cbn [is_recording log]. now rewrite Hrec. }
  rewrite Hreq. unfold recording_branch. app_simpl. rewrite Hrec. app_simpl.
  unfold _stop_recording_main_thread. app_simpl. rewrite Hrec. app_simpl.
  destruct (AudioRecorder.stop_recording _ _) as [recorder audio_data].
  app_simpl. split; [reflexivity|]. now exists audio_data.
Qed.

(** C1, as amended: an activation delivered while the controller is
    transcribing and not recording is not ignored.  It requests a
    recording, and the next run of the timer starts one (with an API key
    configured and the input hardware opening): the controller and the
    recorder are recording into a fresh, empty buffer, the one buffer
    the recorder has, while the transcription exchanges that were in
    flight still are.  The next activation stops that recording and
    starts one more exchange next to them. *)
Theorem activation_while_transcribing_starts_recording (self : t)
    (key : string) :
  is_transcribing self = true ->
  is_recording self = false ->
  validate_api_key (config self) = true ->
  AudioRecorder.is_recording (audio_recorder self) = false ->
  let requested := _handle_hotkey self key in
  let after := _process_pending_ui_operations requested working in
  let stopped :=
    _process_pending_ui_operations (_handle_hotkey after key) working in
  _pending_start_recording requested = true
  /\ is_recording after = true
  /\ AudioRecorder.is_recording (audio_recorder after) = true
  /\ AudioRecorder.audio_data (audio_recorder after) = []
  /\ processing_threads after = processing_threads self
  /\ exists audio_data : bytes,
       processing_threads stopped = processing_threads self ++ [audio_data].
Proof.
  intros Htrans Hrec Hkey Hrecorder requested after stopped.
  assert (Hfirst :
    _pending_start_recording requested = true
    /\ is_recording after = true
    /\ AudioRecorder.is_recording (audio_recorder after) = true
    /\ AudioRecorder.audio_data (audio_recorder after) = []
    /\ processing_threads after = processing_threads self);
    [|destruct Hfirst as (F1 & F2 & F3 & F4 & F5);
      repeat split; try assumption;
      destruct (activation_while_recording_stops after key working F2)
        as (_ & audio_data & Hthreads);
      exists audio_data; fold stopped in Hthreads; now rewrite Hthreads, F5].
  assert (Hreq : requested
                 = set_pending_stop_recording
                     (set_pending_start_recording
                        (log (log self (info "Hotkey activated"))
                           (info "Hotkey triggered: requesting start recording"))
                        true)
                     false).
  { unfold requested, _handle_hotkey. cbn [is_recording log]. now rewrite Hrec. }
  split; [now rewrite Hreq|].
  destruct (timer_after_recording_branch requested working) as (H1 & H2 & H3).
  fold after in H1, H2, H3. rewrite H1, H2, H3.
  assert (Hbranch :
    recording_branch requested working
    = _start_recording_main_thread
        (set_pending_start_recording requested false) (inl ())).
  { unfold recording_branch. rewrite Hreq. app_simpl. now rewrite Hrec. }
  rewrite Hbranch. unfold _start_recording_main_thread. rewrite Hreq.
  app_simpl. rewrite Hrec, Hkey. app_simpl.
  unfold AudioRecorder.start_recording. rewrite Hrecorder.
  now app_simpl.
Qed.

(** The controller in the transcribing state: a recording was started
    by the hotkey, one buffer arrived, the hotkey stopped the
    recording, the processing thread reached its blocking call, and the
    timer has shown the transcribing state. *)
Definition transcribing_app : t :=
  let a := _handle_hotkey default_app "right_cmd" in
  let a := _process_pending_ui_operations a working in
  let a := audio_arrives a [x01; x00; xff; x7f] in
  let a := _handle_hotkey a "right_cmd" in
  let a := _process_pending_ui_operations a working in
  let a := thread_begins a in
  _process_pending_ui_operations a working.

Lemma activation_while_transcribing_starts_recording_witness :
  let requested := _handle_hotkey transcribing_app "right_cmd" in
  let after := _process_pending_ui_operations requested working in
  let stopped :=
    _process_pending_ui_operations (_handle_hotkey after "right_cmd")
      working in
  _pending_start_recording requested = true
  /\ is_recording after = true
  /\ AudioRecorder.is_recording (audio_recorder after) = true
  /\ AudioRecorder.audio_data (audio_recorder after) = []
  /\ processing_threads after = processing_threads transcribing_app
  /\ exists audio_data : bytes,
       processing_threads stopped
       = processing_threads transcribing_app ++ [audio_data].
Proof.
  apply (activation_while_transcribing_starts_recording transcribing_app
           "right_cmd"); reflexivity.
Defined.

(** C1, as stated, fails: with one transcription exchange in flight
    and the controller in the transcribing state, the hotkey starts a
    new recording; a buffer arrives and the hotkey stops that recording,
    and a second exchange is in flight next to the first. *)
Lemma activation_while_transcribing_not_ignored :
  session_state transcribing_app = Transcribing
  /\ length (processing_threads transcribing_app) = 1
  /\ let activated :=
       _process_pending_ui_operations
         (_handle_hotkey transcribing_app "right_cmd") working in
     session_state activated = Recording
     /\ AudioRecorder.is_recording (audio_recorder activated) = true
     /\ let stopped :=
          _process_pending_ui_operations
            (_handle_hotkey (audio_arrives activated [x02; x00; xfe; x7f])
               "right_cmd")
            working in
        length (processing_threads stopped) = 2.
Proof. repeat split. Qed.

End ControllerProperties.

(** * Further properties of the pipeline *)

(** ** The hotkey listener: event sequences and lifecycle *)

Module HotkeyListener.

Import HotkeyManager.
Local Open Scope string_scope.
Local Open Scope list_scope.

(** [get_available_keys]: the names of [KEY_MAPPING]. *)
Definition get_available_keys : list string :=
  ["right_cmd"; "left_cmd"; "right_option"; "left_option"; "right_alt";
   "left_alt"; "right_ctrl"; "left_ctrl"; "right_shift"; "left_shift";
   "space"; "esc"; "tab"; "enter"].

Definition set_is_running (self : t) (b : bool) : t :=
  mk (primary_key self) (primary_key_name self) (on_hotkey self) b
     (pressed_keys self) (interaction_mode self) (key_pressed_time self)
     (hold_threshold self) (callback_threads self) (logger self).

Definition set_primary (self : t) (k : Key) (name : string) : t :=
  mk k name (on_hotkey self) (is_running self) (pressed_keys self)
     (interaction_mode self) (key_pressed_time self) (hold_threshold self)
     (callback_threads self) (logger self).

(** [start]; [listener] is what creating and starting the pynput
    listener does. *)
Definition start (self : t) (listener : result unit) : t * result unit :=
  if is_running self then (self, ret ())
  else
    let self := set_is_running self true in
    match listener with
    | inl _ => (self, ret ())
    | inr e => (set_is_running self false, raise e)
    end.

(** [stop]; [listener] is what stopping the pynput listener does.  When
    that raises, the error is logged and the two tables are not
    cleared. *)
Definition stop (self : t) (listener : result unit) : t :=
  if negb (is_running self) then self
  else
    let self := set_is_running self false in
    match listener with
    | inl _ =>
        let self := set_pressed_keys self ∅ in
        set_key_pressed_time self ∅
    | inr e => self
    end.

(** [update_hotkeys]; [stopping] and [starting] are what the listener
    does when stopped and started again. *)
Definition update_hotkeys (self : t) (primary_key_arg : string)
    (stopping starting : result unit) : t * result unit :=
  let was_running := is_running self in
  let self := if was_running then stop self stopping else self in
  match _get_key_object primary_key_arg with
  | inr e => (self, raise e)
  | inl k =>
      let self := set_primary self k primary_key_arg in
      if was_running then start self starting else (self, ret ())
  end.

(** One event the listener thread delivers. *)
Inductive KeyEvent : Type :=
| pressed (key : Key) (now : Moment)
| released (key : Key) (now : Moment).

Definition deliver (self : t) (ev : KeyEvent) : t :=
  match ev with
  | pressed key now => _on_key_press self key now
  | released key now => _on_key_release self key now
  end.

(** The listener thread delivers a sequence of events in order. *)
Definition listen (self : t) (events : list KeyEvent) : t :=
  fold_left deliver events self.

(** The presses of a given key among the events. *)
Fixpoint presses_of (key : Key) (events : list KeyEvent) : nat :=
  match events with
  | [] => 0
  | pressed k _ :: rest =>
      (if decide (k = key) then 1 else 0) + presses_of key rest
  | released _ _ :: rest => presses_of key rest
  end.

Definition event_moment (ev : KeyEvent) : Moment :=
  match ev with
  | pressed _ now | released _ now => now
  end.

End HotkeyListener.

Module HotkeyListenerProperties.

Import HotkeyManager HotkeyListener.
Local Open Scope string_scope.
Local Open Scope list_scope.

(** What no key event changes. *)
Record same_settings (a b : t) : Prop := mkSameSettings {
  same_primary_key : primary_key b = primary_key a;
  same_primary_key_name : primary_key_name b = primary_key_name a;
  same_on_hotkey : on_hotkey b = on_hotkey a;
  same_is_running : is_running b = is_running a;
  same_interaction_mode : interaction_mode b = interaction_mode a;
  same_hold_threshold : hold_threshold b = hold_threshold a
}.

Lemma trigger_settings (self : t) (key_name : string) :
  same_settings self (_trigger_hotkey self key_name).
Proof.
  unfold _trigger_hotkey. cbn [on_hotkey log].
  destruct (on_hotkey self); now constructor.
Qed.

Lemma trigger_callback_threads (self : t) (key_name : string) :
  callback_threads (_trigger_hotkey self key_name)
  = if on_hotkey self then callback_threads self ++ [key_name]
    else callback_threads self.
Proof.
  unfold _trigger_hotkey. cbn [on_hotkey log].
  destruct (on_hotkey self); reflexivity.
Qed.

Lemma handle_press_settings (self : t) (key_name : string) (press_time : Q) :
  same_settings self (_handle_hotkey_press self key_name press_time).
Proof.
  unfold _handle_hotkey_press.
  cbn [interaction_mode log set_key_pressed_time].
  destruct (String.eqb (interaction_mode self) "click"); [|now constructor].
  destruct (trigger_settings
              (log (set_key_pressed_time self
                      (<[key_name:=press_time]> (key_pressed_time self)))
                 (Hotkey_pressed key_name)) key_name).
  now constructor.
Qed.

Lemma handle_release_settings (self : t) (key_name : string)
    (release_time : Q) :
  same_settings self (_handle_hotkey_release self key_name release_time).
Proof.
  unfold _handle_hotkey_release.
  destruct (key_pressed_time self !! key_name) as [press_time|];
    [|now constructor].
  cbn [interaction_mode hold_threshold log].
  destruct (String.eqb (interaction_mode self) "hold" && Qle_bool _ _);
    [|now constructor].
  destruct (trigger_settings
              (log self (Hotkey_released key_name (release_time - press_time)))
              key_name).
  now constructor.
Qed.

Lemma deliver_settings (self : t) (ev : KeyEvent) :
  same_settings self (deliver self ev).
Proof.
  destruct ev as [key now|key now]; cbn [deliver];
    unfold _on_key_press, _on_key_release;
    destruct (decide (key = primary_key self)); try now constructor.
  - destruct (handle_press_settings self (primary_key_name self)
                (inject_Z (ident_or_0 now))). now constructor.
  - destruct (handle_release_settings self (primary_key_name self)
                (inject_Z (ident_or_0 now))). now constructor.
Qed.

(** What one event adds to the started callback threads. *)
Lemma deliver_callback_threads_click (self : t) (ev : KeyEvent) :
  interaction_mode self = "click" ->
  on_hotkey self = true ->
  callback_threads (deliver self ev)
  = callback_threads self
      ++ replicate (presses_of (primary_key self) [ev]) (primary_key_name self).
Proof.
  intros Hmode Hcb. destruct ev as [key now|key now]; cbn [deliver presses_of].
  - unfold _on_key_press. destruct (decide (key = primary_key self)).
    + cbn [callback_threads set_pressed_keys]. unfold _handle_hotkey_press.
      cbn [interaction_mode log set_key_pressed_time]. rewrite Hmode.
      cbn [String.eqb Ascii.eqb Bool.eqb]. rewrite trigger_callback_threads.
      cbn [on_hotkey log set_key_pressed_time callback_threads]. now rewrite Hcb.
    + cbn. now rewrite app_nil_r.
  - unfold _on_key_release. destruct (decide (key = primary_key self)).
    + cbn [callback_threads set_pressed_keys]. unfold _handle_hotkey_release.
      destruct (key_pressed_time self !! primary_key_name self);
        [|cbn; now rewrite app_nil_r].
      cbn [interaction_mode log]. rewrite Hmode.
      cbn. now rewrite app_nil_r.
    + cbn. now rewrite app_nil_r.
Qed.

Lemma presses_of_cons (key : Key) (ev : KeyEvent) (events : list KeyEvent) :
  presses_of key (ev :: events)
  = (presses_of key [ev] + presses_of key events)%nat.
Proof. destruct ev; cbn [presses_of]; lia. Qed.

(** X1: in click mode with a callback registered, a sequence of key
    events starts exactly one callback thread per press of the trigger
    key, in order, and none for anything else: releases of any key,
    presses of other keys, however long a key is held. *)
Theorem click_mode_one_signal_per_press (self : t) (events : list KeyEvent) :
  interaction_mode self = "click" ->
  on_hotkey self = true ->
  callback_threads (listen self events)
  = callback_threads self
      ++ replicate (presses_of (primary_key self) events)
           (primary_key_name self).
Proof.
  revert self. induction events as [|ev events IH]; intros self Hmode Hcb.
  - cbn. now rewrite app_nil_r.
  - unfold listen. cbn [fold_left]. fold (listen (deliver self ev) events).
    destruct (deliver_settings self ev) as [Hk Hn Ho _ Hm _].
    rewrite IH by congruence.
    rewrite deliver_callback_threads_click by assumption.
    rewrite Hk, Hn, (presses_of_cons _ ev events).
    now rewrite <- app_assoc, <- replicate_add.
Qed.

Lemma click_mode_one_signal_per_press_witness :
  let events :=
    [pressed cmd_r (at_ 1 (Some 7%Z)); pressed space (at_ 2 (Some 7%Z));
     released cmd_r (at_ 9 (Some 7%Z)); pressed cmd_r (at_ 10 (Some 7%Z))] in
  callback_threads (listen HotkeyProperties.right_cmd_manager events)
  = callback_threads HotkeyProperties.right_cmd_manager
      ++ replicate (presses_of cmd_r events) "right_cmd".
Proof.
  apply (click_mode_one_signal_per_press HotkeyProperties.right_cmd_manager);
    reflexivity.
Defined.

(** Every remembered press time is the identifier [i]. *)
Definition pressed_on_thread (i : Z) (self : t) : Prop :=
  forall key_name press_time,
    key_pressed_time self !! key_name = Some press_time ->
    press_time = inject_Z i.

Lemma trigger_key_pressed_time' (self : t) (key_name : string) :
  key_pressed_time (_trigger_hotkey self key_name) = key_pressed_time self.
Proof.
  unfold _trigger_hotkey. cbn [on_hotkey log].
  destruct (on_hotkey self); reflexivity.
Qed.

Lemma deliver_hold_one_thread (self : t) (ev : KeyEvent) (i : Z) :
  interaction_mode self = "hold" ->
  (0 < hold_threshold self)%Q ->
  pressed_on_thread i self ->
  ident_or_0 (event_moment ev) = i ->
  callback_threads (deliver self ev) = callback_threads self
  /\ pressed_on_thread i (deliver self ev).
Proof.
  intros Hmode Hthr Hinv Hi.
  destruct ev as [key now|key now]; cbn [deliver event_moment] in *.
  - unfold _on_key_press. destruct (decide (key = primary_key self));
      [|split; [reflexivity|exact Hinv]].
    cbn [callback_threads set_pressed_keys]. unfold pressed_on_thread.
    cbn [key_pressed_time set_pressed_keys]. unfold _handle_hotkey_press.
    cbn [interaction_mode log set_key_pressed_time]. rewrite Hmode.
    cbn [String.eqb Ascii.eqb Bool.eqb]. cbn [callback_threads key_pressed_time].
    split; [reflexivity|]. intros k t. rewrite Hi.
    cbn [key_pressed_time log set_key_pressed_time].
    destruct (decide (primary_key_name self = k)) as [<-|Hne].
    + rewrite lookup_insert_eq. now intros [= <-].
    + rewrite lookup_insert_ne by exact Hne. apply Hinv.
  - unfold _on_key_release. destruct (decide (key = primary_key self));
      [|split; [reflexivity|exact Hinv]].
    cbn [callback_threads set_pressed_keys]. unfold pressed_on_thread.
    cbn [key_pressed_time set_pressed_keys]. unfold _handle_hotkey_release.
    destruct (key_pressed_time self !! primary_key_name self)
      as [press_time|] eqn:E; [|split; [reflexivity|exact Hinv]].
    apply Hinv in E. subst press_time. rewrite Hi.
    cbn [interaction_mode hold_threshold log].
    assert (Hb : Qle_bool (hold_threshold self) (inject_Z i - inject_Z i)
                 = false).
    { destruct (Qle_bool _ _) eqn:Eb; [|reflexivity].
      apply Qle_bool_iff in Eb. exfalso.
      assert (Hz : (inject_Z i - inject_Z i == 0)%Q) by ring.
      rewrite Hz in Eb. exact (Qlt_not_le _ _ Hthr Eb). }
    rewrite Hb, andb_false_r.
    cbn [callback_threads set_key_pressed_time key_pressed_time log].
    split; [reflexivity|]. intros k t Hk.
    apply lookup_delete_Some in Hk as [_ Hk]. now apply Hinv in Hk.
Qed.

(** X2: in hold mode with a positive threshold, a manager that starts
    with no remembered press and receives all its key events on one
    thread never starts a callback thread, whatever the keys, their
    order and the time between press and release: the hold duration it
    computes is the difference of two equal thread identifiers. *)
Theorem hold_mode_one_thread_never_triggers (self : t)
    (events : list KeyEvent) (i : Z) :
  interaction_mode self = "hold" ->
  (0 < hold_threshold self)%Q ->
  key_pressed_time self = ∅ ->
  Forall (fun ev => ident_or_0 (event_moment ev) = i) events ->
  callback_threads (listen self events) = callback_threads self.
Proof.
  intros Hmode Hthr Hempty Hevents.
  assert (Hinv : pressed_on_thread i self).
  { intros k t. rewrite Hempty. now rewrite lookup_empty. }
  clear Hempty. revert self Hmode Hthr Hinv.
  induction Hevents as [|ev events Hev _ IH]; intros self Hmode Hthr Hinv;
    [reflexivity|].
  unfold listen. cbn [fold_left]. fold (listen (deliver self ev) events).
  destruct (deliver_settings self ev) as [_ _ _ _ Hm Ht].
  destruct (deliver_hold_one_thread self ev i Hmode Hthr Hinv Hev) as [Hc Hi].
  rewrite IH; [exact Hc| congruence | now rewrite Ht | exact Hi].
Qed.

Lemma hold_mode_one_thread_never_triggers_witness :
  let events :=
    [pressed cmd_r (at_ 1 (Some 7%Z)); released cmd_r (at_ 60 (Some 7%Z));
     pressed cmd_r (at_ 61 (Some 7%Z)); released cmd_r (at_ 3600 (Some 7%Z))] in
  callback_threads (listen HotkeyProperties.hold_manager events)
  = callback_threads HotkeyProperties.hold_manager.
Proof.
  apply (hold_mode_one_thread_never_triggers HotkeyProperties.hold_manager _ 7).
  - reflexivity.
  - reflexivity.
  - reflexivity.
  - repeat constructor.
Defined.

(** X3: in hold mode with a callback registered, [_handle_hotkey_release]
    called with a release time that lies at least the threshold after
    the remembered press time starts exactly one callback thread, for
    the released key, and forgets the press. *)
Theorem long_hold_release_emits_once (self : t) (key_name : string)
    (press_time release_time : Q) :
  interaction_mode self = "hold" ->
  on_hotkey self = true ->
  key_pressed_time self !! key_name = Some press_time ->
  (hold_threshold self <= release_time - press_time)%Q ->
  HotkeyProperties.emits self
    (_handle_hotkey_release self key_name release_time) [key_name]
  /\ key_pressed_time (_handle_hotkey_release self key_name release_time)
       !! key_name = None.
Proof.
  intros Hmode Hcb Hp Hle. unfold HotkeyProperties.emits, _handle_hotkey_release.
  rewrite Hp. cbn [interaction_mode hold_threshold log]. rewrite Hmode.
  apply Qle_bool_iff in Hle. rewrite Hle.
  cbn [String.eqb Ascii.eqb Bool.eqb andb].
  cbn [callback_threads key_pressed_time set_key_pressed_time].
  rewrite trigger_callback_threads, trigger_key_pressed_time'.
  cbn [on_hotkey log callback_threads key_pressed_time]. rewrite Hcb.
  split; [reflexivity|apply lookup_delete_eq].
Qed.

Lemma long_hold_release_emits_once_witness :
  HotkeyProperties.emits HotkeyProperties.held_manager
    (_handle_hotkey_release HotkeyProperties.held_manager "right_cmd" (21 # 2))
    ["right_cmd"]
  /\ key_pressed_time
       (_handle_hotkey_release HotkeyProperties.held_manager "right_cmd"
          (21 # 2))
       !! "right_cmd" = None.
Proof.
  apply (long_hold_release_emits_once HotkeyProperties.held_manager "right_cmd"
           10 (21 # 2)).
  - reflexivity.
  - reflexivity.
  - vm_compute. reflexivity.
  - vm_compute. discriminate.
Defined.

(** The fields a key event can change besides [pressed_keys]. *)
Definition signals_and_timing (self : t)
  : list string * gmap string Q * list LogRecord :=
  (callback_threads self, key_pressed_time self, logger self).

(** X4: events of keys other than the trigger key start no callback
    thread, remember no press time and log nothing, in either mode. *)
Theorem other_keys_are_only_tracked (self : t) (events : list KeyEvent) :
  Forall (fun ev => match ev with
                    | pressed key _ | released key _ => key <> primary_key self
                    end) events ->
  signals_and_timing (listen self events) = signals_and_timing self.
Proof.
  intros Hevents. revert self Hevents.
  induction events as [|ev events IH]; intros self Hevents; [reflexivity|].
  inversion Hevents as [|? ? Hev Hrest]; subst.
  unfold listen. cbn [fold_left]. fold (listen (deliver self ev) events).
  destruct (deliver_settings self ev) as [Hk _ _ _ _ _].
  rewrite IH by now rewrite Hk.
  destruct ev as [key now|key now]; cbn [deliver];
    unfold _on_key_press, _on_key_release;
    destruct (decide (key = primary_key self)); try contradiction;
    reflexivity.
Qed.

Lemma other_keys_are_only_tracked_witness :
  let events :=
    [pressed space (at_ 1 (Some 7%Z)); pressed (KeyCode "a") (at_ 2 None);
     released space (at_ 3 (Some 7%Z))] in
  signals_and_timing (listen HotkeyProperties.hold_manager events)
  = signals_and_timing HotkeyProperties.hold_manager.
Proof.
  apply (other_keys_are_only_tracked HotkeyProperties.hold_manager).
  repeat constructor; discriminate.
Defined.

Lemma handle_release_forgets (self : t) (key_name : string)
    (release_time : Q) :
  key_pressed_time (_handle_hotkey_release self key_name release_time)
    !! key_name = None.
Proof.
  unfold _handle_hotkey_release.
  destruct (key_pressed_time self !! key_name) as [press_time|] eqn:E;
    [|exact E].
  cbn [key_pressed_time set_key_pressed_time]. apply lookup_delete_eq.
Qed.

(** A release of the trigger key that follows another release of
    it, with no press in between, is ignored in either mode: it starts
    no callback thread, logs nothing and computes no hold duration. *)
Theorem repeated_release_is_ignored (self : t) (first second : Moment) :
  let once := _on_key_release self (primary_key self) first in
  signals_and_timing (_on_key_release once (primary_key self) second)
  = signals_and_timing once.
Proof.
  cbv zeta. unfold _on_key_release at 1.
  set (once := _on_key_release self (primary_key self) first).
  assert (Honce : once
                  = set_pressed_keys
                      (_handle_hotkey_release self (primary_key_name self)
                         (inject_Z (ident_or_0 first)))
                      (pressed_keys
                         (_handle_hotkey_release self (primary_key_name self)
                            (inject_Z (ident_or_0 first)))
                       ∖ {[ primary_key self ]})).
  { unfold once, _on_key_release.
    destruct (decide (primary_key self = primary_key self)); [reflexivity|].
    contradiction. }
  destruct (handle_release_settings self (primary_key_name self)
              (inject_Z (ident_or_0 first))) as [Hk Hn _ _ _ _].
  assert (Hk1 : primary_key once = primary_key self) by now rewrite Honce.
  assert (Hn1 : primary_key_name once = primary_key_name self)
    by now rewrite Honce.
  rewrite Hk1, Hn1.
  destruct (decide (primary_key self = primary_key self)); [|contradiction].
  unfold _handle_hotkey_release at 1.
  assert (Hnone : key_pressed_time once !! primary_key_name self = None).
  { rewrite Honce. cbn [key_pressed_time set_pressed_keys].
    apply handle_release_forgets. }
  rewrite Hnone. reflexivity.
Qed.

(** *** Starting, stopping and re-assigning *)

(** X5: the trigger key is pressed while the listener runs; the
    listener is stopped and started again before the key is released.
    The stop has forgotten the press and every tracked key, so the
    release is ignored: no callback thread, no log line, in either mode
    and however long the key was held. *)
Theorem stop_forgets_pending_press (self : t) (press release : Moment) :
  is_running self = true ->
  let held := _on_key_press self (primary_key self) press in
  let restarted := fst (start (stop held (inl ())) (inl ())) in
  is_running restarted = true
  /\ pressed_keys restarted = ∅
  /\ key_pressed_time restarted = ∅
  /\ signals_and_timing (_on_key_release restarted (primary_key self) release)
     = signals_and_timing restarted.
Proof.
  intros Hrun held restarted.
  destruct (deliver_settings self (pressed (primary_key self) press))
    as [Hk Hn _ Hr _ _].
  cbn [deliver] in Hk, Hn, Hr. fold held in Hk, Hn, Hr.
  assert (Hrestarted :
    restarted
    = set_is_running
        (set_key_pressed_time
           (set_pressed_keys (set_is_running held false) ∅) ∅) true).
  { unfold restarted, stop, start. rewrite Hr, Hrun. reflexivity. }
  rewrite Hrestarted.
  repeat split; try reflexivity.
  unfold _on_key_release.
  cbn [primary_key primary_key_name set_is_running set_key_pressed_time
       set_pressed_keys].
  rewrite Hk, Hn.
  destruct (decide (primary_key self = primary_key self)); [|contradiction].
  unfold _handle_hotkey_release.
  cbn [key_pressed_time set_is_running set_key_pressed_time set_pressed_keys].
  now rewrite lookup_empty.
Qed.

Lemma stop_forgets_pending_press_witness :
  let running := fst (start HotkeyProperties.hold_manager (inl ())) in
  let held := _on_key_press running cmd_r (at_ 1 (Some 7%Z)) in
  let restarted := fst (start (stop held (inl ())) (inl ())) in
  is_running restarted = true
  /\ pressed_keys restarted = ∅
  /\ key_pressed_time restarted = ∅
  /\ signals_and_timing
       (_on_key_release restarted cmd_r (at_ 100 (Some 9%Z)))
     = signals_and_timing restarted.
Proof.
  apply (stop_forgets_pending_press
           (fst (start HotkeyProperties.hold_manager (inl ())))
           (at_ 1 (Some 7%Z)) (at_ 100 (Some 9%Z))).
  reflexivity.
Defined.

Lemma KEY_MAPPING_available (key_name : string) :
  In key_name get_available_keys <-> KEY_MAPPING key_name <> None.
Proof.
  unfold KEY_MAPPING, get_available_keys. split.
  - intros Hin. cbn [In] in Hin.
    repeat (destruct Hin as [<-|Hin]; [discriminate|]). contradiction.
  - repeat match goal with
           | |- context [String.eqb key_name ?s] =>
               destruct (String.eqb_spec key_name s) as [->|_];
                 [intros _; cbn [In]; tauto|]
           end.
    intros Hsome. now contradict Hsome.
Qed.

(** [_get_key_object] raises, always [ValueError], exactly for the
    names that are neither one of [get_available_keys] nor a single
    character. *)
Theorem get_key_object_raises_iff (key_name : string) :
  (exists e, _get_key_object key_name = inr e)
  <-> ~ In key_name get_available_keys /\ Py.len key_name <> 1%nat.
Proof.
  rewrite KEY_MAPPING_available. unfold _get_key_object. split.
  - intros [e He]. destruct (KEY_MAPPING key_name); [discriminate|].
    split; [tauto|].
    destruct (Nat.eqb_spec (Py.len key_name) 1); [discriminate|assumption].
  - intros [Hnone Hlen]. destruct (KEY_MAPPING key_name); [now contradict Hnone|].
    destruct (Nat.eqb_spec (Py.len key_name) 1); [contradiction|].
    eexists; reflexivity.
Qed.

(** X6: [update_hotkeys] with a name [_get_key_object] rejects raises
    that error and keeps the old trigger key, and the listener is left
    stopped whether or not it was running before. *)
Theorem update_hotkeys_unknown_key_stops_listener (self : t)
    (primary_key_arg : string) (e : Exception) (stopping starting : result unit) :
  _get_key_object primary_key_arg = inr e ->
  let after := update_hotkeys self primary_key_arg stopping starting in
  snd after = inr e
  /\ is_running (fst after) = false
  /\ primary_key (fst after) = primary_key self
  /\ primary_key_name (fst after) = primary_key_name self.
Proof.
  intros He. cbv zeta. unfold update_hotkeys. rewrite He. cbn [fst snd].
  split; [reflexivity|].
  destruct (is_running self) eqn:Hrun; [|now repeat split].
  unfold stop. rewrite Hrun. cbn [negb].
  destruct stopping; now repeat split.
Qed.

Lemma update_hotkeys_unknown_key_stops_listener_witness :
  let running := fst (start HotkeyProperties.hold_manager (inl ())) in
  let after := update_hotkeys running "right_command" (inl ()) (inl ()) in
  snd after = inr (ValueError "Unknown key name: right_command")
  /\ is_running (fst after) = false
  /\ primary_key (fst after) = primary_key running
  /\ primary_key_name (fst after) = primary_key_name running.
Proof.
  apply (update_hotkeys_unknown_key_stops_listener
           (fst (start HotkeyProperties.hold_manager (inl ())))
           "right_command" (ValueError "Unknown key name: right_command")
           (inl ()) (inl ())).
  reflexivity.
Defined.

End HotkeyListenerProperties.

(** ** The recorder: capture sequences, stopping, and devices *)

Module RecorderSequences.

Import AudioRecorder.
Local Open Scope Z_scope.
Local Open Scope list_scope.

(** Every buffer holds a whole number of 16-bit samples. *)
Definition whole_samples (buffers : list bytes) : Prop :=
  Forall (fun b => Nat.even (length b) = true) buffers.

(** The state after one callback run that reaches the observer. *)
Lemma audio_callback_even (self : t) (in_data : bytes) (frame_count : Z) :
  is_recording self = true ->
  Nat.even (length in_data) = true ->
  exists after : t,
    _audio_callback self in_data frame_count = (after, inl (in_data, paContinue))
    /\ audio_data after = audio_data self ++ [in_data]
    /\ is_recording after = true
    /\ current_volume after = volume_level (int16_samples in_data)
    /\ volume_callback after = volume_callback self
    /\ chunk_size after = chunk_size self
    /\ observed after
       = observed self
           ++ match volume_callback self with
              | Some _ => [volume_level (int16_samples in_data)]
              | None => []
              end.
Proof.
  intros Hrec Heven. unfold _audio_callback, np_frombuffer_int16.
  rewrite Hrec, Heven. unfold ret.
  cbn [volume_callback set_current_volume set_audio_data current_volume
       observed].
  destruct (volume_callback self) as [callback|] eqn:Hcb.
  - destruct (callback _); eexists; (split; [reflexivity|]);
      cbn; rewrite ?Hcb; now repeat split.
  - eexists. split; [reflexivity|]. cbn. rewrite ?Hcb, ?app_nil_r.
    now repeat split.
Qed.

Lemma capture_whole_samples (self : t) (buffers : list bytes) :
  is_recording self = true ->
  whole_samples buffers ->
  audio_data (capture self buffers) = audio_data self ++ buffers
  /\ is_recording (capture self buffers) = true
  /\ length (observed (capture self buffers))
     = (length (observed self)
        + match volume_callback self with
          | Some _ => length buffers
          | None => 0
          end)%nat.
Proof.
  intros Hrec Hwhole. revert self Hrec.
  induction Hwhole as [|b buffers Hb _ IH]; intros self Hrec.
  - cbn. rewrite app_nil_r. split; [reflexivity|]. split; [exact Hrec|].
    destruct (volume_callback self); lia.
  - destruct (audio_callback_even self b (chunk_size self) Hrec Hb)
      as (after & Hrun & Ha & Hr & _ & Hcb & _ & Ho).
    cbn [capture]. rewrite Hrun.
    destruct (IH after Hr) as (IH1 & IH2 & IH3).
    rewrite IH1, IH2, IH3, Ha, Hcb, Ho, <- app_assoc. cbn [app length].
    split; [reflexivity|]. split; [reflexivity|].
    rewrite length_app. destruct (volume_callback self); cbn [length]; lia.
Qed.

(** X7: a recorder that is not recording is started, the device
    opening, and is then handed buffers that each hold a whole number of
    16-bit samples.  The recording holds exactly these buffers, in
    arrival order: what an earlier recording left in the recorder is
    gone.  The recorder stays recording, and a registered observer is
    called once per buffer. *)
Theorem capture_appends_in_order (self : t) (buffers : list bytes) :
  is_recording self = false ->
  whole_samples buffers ->
  let recording := capture (fst (start_recording self (inl ()))) buffers in
  audio_data recording = buffers
  /\ is_recording recording = true
  /\ length (observed recording)
     = (length (observed self)
        + match volume_callback self with
          | Some _ => length buffers
          | None => 0
          end)%nat.
Proof.
  intros Hrec Hwhole. cbv zeta.
  assert (Hstart : fst (start_recording self (inl ()))
                   = log (set_audio_stream
                            (set_is_recording (set_audio_data self []) true)
                            true)
                       (info "Audio recording started")).
  { unfold start_recording. now rewrite Hrec. }
  rewrite Hstart.
  destruct (capture_whole_samples
              (log (set_audio_stream
                      (set_is_recording (set_audio_data self []) true) true)
                 (info "Audio recording started")) buffers)
    as (H1 & H2 & H3); [reflexivity|exact Hwhole|].
  rewrite H1, H2, H3. now repeat split.
Qed.

Lemma capture_appends_in_order_witness :
  let stale :=
    fst (stop_recording RecorderProperties.recorded (inl ())) in
  let recording :=
    capture (fst (start_recording stale (inl ()))) [[x05; x00]; [x06; x00]] in
  audio_data recording = [[x05; x00]; [x06; x00]]
  /\ is_recording recording = true
  /\ length (observed recording)
     = (length (observed stale)
        + match volume_callback stale with
          | Some _ => length [[x05; x00]; [x06; x00]]
          | None => 0
          end)%nat.
Proof.
  apply (capture_appends_in_order
           (fst (stop_recording RecorderProperties.recorded (inl ())))
           [[x05; x00]; [x06; x00]]).
  - reflexivity.
  - repeat constructor.
Defined.

(** X8: a start request while a recording is running does not reset
    it.  Buffers captured before and after the redundant request are
    all in the recording, in order, whatever the request's device would
    have done. *)
Theorem redundant_start_keeps_recording (self : t)
    (before after : list bytes) (device : result unit) :
  is_recording self = true ->
  whole_samples before ->
  whole_samples after ->
  let again := start_recording (capture self before) device in
  snd again = inl ()
  /\ audio_data (capture (fst again) after)
     = audio_data self ++ before ++ after.
Proof.
  intros Hrec Hb Ha.
  destruct (capture_whole_samples self before Hrec Hb) as (H1 & H2 & _).
  cbv zeta. unfold start_recording. rewrite H2. cbn [fst snd].
  split; [reflexivity|].
  destruct (capture_whole_samples
              (log (capture self before)
                 (warning "Recording already in progress")) after)
    as (H3 & _ & _); [exact H2|exact Ha|].
  rewrite H3. cbn [audio_data log]. now rewrite H1, <- app_assoc.
Qed.

Lemma redundant_start_keeps_recording_witness :
  let recording := fst (start_recording RecorderProperties.default_recorder
                          (inl ())) in
  let again :=
    start_recording (capture recording [[x01; x00]])
      (inr (OSError "device busy")) in
  snd again = inl ()
  /\ audio_data (capture (fst again) [[x02; x00]])
     = audio_data recording ++ [[x01; x00]] ++ [[x02; x00]].
Proof.
  apply (redundant_start_keeps_recording
           (fst (start_recording RecorderProperties.default_recorder (inl ())))
           [[x01; x00]] [[x02; x00]] (inr (OSError "device busy")));
    [reflexivity|repeat constructor|repeat constructor].
Defined.

(** X9: a buffer with an odd number of bytes, arriving while
    recording, is appended to the recording and then makes the callback
    raise [ValueError]: the observer is not called and the volume level
    is not updated, and PyAudio delivers none of the buffers behind
    it. *)
Theorem odd_buffer_raises_after_append (self : t) (in_data : bytes)
    (rest : list bytes) :
  is_recording self = true ->
  Nat.even (length in_data) = false ->
  let after := fst (_audio_callback self in_data (chunk_size self)) in
  (exists msg, snd (_audio_callback self in_data (chunk_size self))
               = inr (ValueError msg))
  /\ audio_data after = audio_data self ++ [in_data]
  /\ observed after = observed self
  /\ current_volume after = current_volume self
  /\ capture self (in_data :: rest) = after.
Proof.
  intros Hrec Hodd. cbv zeta. cbn [capture].
  unfold _audio_callback, np_frombuffer_int16. rewrite Hrec, Hodd.
  cbn. repeat split. eexists. reflexivity.
Qed.

Lemma odd_buffer_raises_after_append_witness :
  let recording := fst (start_recording RecorderProperties.default_recorder
                          (inl ())) in
  let after := fst (_audio_callback recording [x01; x00; x02]
                      (chunk_size recording)) in
  (exists msg, snd (_audio_callback recording [x01; x00; x02]
                      (chunk_size recording))
               = inr (ValueError msg))
  /\ audio_data after = audio_data recording ++ [[x01; x00; x02]]
  /\ observed after = observed recording
  /\ current_volume after = current_volume recording
  /\ capture recording ([x01; x00; x02] :: [[x03; x00]]) = after.
Proof.
  apply (odd_buffer_raises_after_append
           (fst (start_recording RecorderProperties.default_recorder (inl ())))
           [x01; x00; x02] [[x03; x00]]); reflexivity.
Defined.

(** The level is a number between 0 and 1. *)
Definition level_in_range (v : float64) : Prop :=
  exists x : R, v = finite x /\ (0 <= x <= 1)%R.

Lemma audio_callback_level (self : t) (in_data : bytes) (frame_count : Z) :
  level_in_range (current_volume self) ->
  level_in_range
    (current_volume (fst (_audio_callback self in_data frame_count))).
Proof.
  intros Hlevel. unfold _audio_callback.
  destruct (is_recording self); [|exact Hlevel].
  unfold np_frombuffer_int16.
  destruct (Nat.even (length in_data)); [|exact Hlevel].
  unfold ret.
  cbn [volume_callback set_current_volume set_audio_data current_volume
       observed fst].
  assert (Hv : level_in_range (volume_level (int16_samples in_data))).
  { destruct (RecorderProperties.volume_level_rms (int16_samples in_data)
                (RecorderProperties.int16_samples_range in_data)) as [Hv Hb].
    eexists. split; [exact Hv|exact Hb]. }
  destruct (volume_callback self) as [callback|]; [|exact Hv].
  cbn [current_volume set_observed]. destruct (callback _); exact Hv.
Qed.

(** X10: [get_current_volume] always returns a number between 0.0 and
    1.0: a recorder built by [__init__] and started, whatever its
    configuration and whatever buffers its callback is then given, has a
    finite volume level in [0, 1]. *)
Theorem current_volume_stays_in_range (audio_config : AudioConfig)
    (device : result unit) (buffers : list bytes) :
  level_in_range
    (current_volume
       (capture (fst (start_recording (__init__ audio_config) device))
          buffers)).
Proof.
  assert (Hstart : level_in_range
                     (current_volume
                        (fst (start_recording (__init__ audio_config) device)))).
  { unfold start_recording, __init__. cbn [is_recording].
    destruct device; cbn; exists 0%R; split; try reflexivity; lra. }
  revert Hstart.
  generalize (fst (start_recording (__init__ audio_config) device)).
  induction buffers as [|b buffers IH]; intros self Hlevel; [exact Hlevel|].
  cbn [capture].
  pose proof (audio_callback_level self b (chunk_size self) Hlevel) as Hnext.
  destruct (_audio_callback self b (chunk_size self)) as [after [r|e]];
    cbn [fst] in Hnext; [now apply IH|exact Hnext].
Qed.

End RecorderSequences.

(** ** Stopping a recording *)

Module RecorderStopping.

Import AudioRecorder.
Local Open Scope Z_scope.
Local Open Scope list_scope.

Lemma length_container (nch rate width : Z) (data : bytes) :
  length (WaveProperties.container nch rate width data)
  = (44 + length data)%nat.
Proof.
  unfold WaveProperties.container.
  rewrite !length_app, !BytesProperties.length_le_bytes,
    WaveProperties.length_header_fields.
  reflexivity.
Qed.

Lemma create_wav_data_is_recording (self : t) :
  is_recording (fst (_create_wav_data self)) = is_recording self.
Proof.
  unfold _create_wav_data.
  destruct (_ ≫= _) as [w|e]; reflexivity.
Qed.

Lemma stop_recording_is_recording (self : t) (stream : result unit) :
  is_recording (fst (stop_recording self stream)) = false.
Proof.
  unfold stop_recording.
  destruct (is_recording self) eqn:Hrec; cbn [negb]; [|exact Hrec].
  destruct (audio_stream (set_is_recording self false)); unfold ret, raise.
  - destruct stream as [u|e]; [|reflexivity].
    destruct (audio_data _); [reflexivity|].
    pose proof (create_wav_data_is_recording
                  (set_audio_stream (set_is_recording self false) false)) as H.
    destruct (_create_wav_data _). exact H.
  - destruct (audio_data _); [reflexivity|].
    pose proof (create_wav_data_is_recording (set_is_recording self false))
      as H.
    destruct (_create_wav_data _). exact H.
Qed.

(** X11: stopping is idempotent.  After [stop_recording], whatever it
    returned and whatever the stream did, the recorder is not
    recording, and a second [stop_recording] returns [b""]. *)
Theorem stop_recording_twice (self : t) (first second : result unit) :
  is_recording (fst (stop_recording self first)) = false
  /\ snd (stop_recording (fst (stop_recording self first)) second) = [].
Proof.
  pose proof (stop_recording_is_recording self first) as H.
  split; [exact H|].
  unfold stop_recording at 1. now rewrite H.
Qed.

(** What [stop_recording] returns for a recording whose parameters fit
    a WAV header. *)
Lemma stop_recording_returns (self : t) (stream : result unit) :
  is_recording self = true ->
  RecorderProperties.header_fits self ->
  snd (stop_recording self stream)
  = if audio_stream self && (match stream with inl _ => false | inr _ => true end)
    then []
    else match audio_data self with
         | [] => []
         | _ :: _ =>
             WaveProperties.container (channels self) (sample_rate self)
               (get_sample_size (format self)) (concat (audio_data self))
         end.
Proof.
  intros Hrec Hfit. unfold stop_recording. rewrite Hrec. cbn [negb].
  cbn [audio_stream set_is_recording]. unfold ret, raise.
  destruct (audio_stream self); cbn [andb].
  - destruct stream as [u|e]; [|reflexivity].
    cbn [audio_data set_audio_stream set_is_recording].
    destruct (audio_data self) eqn:E; [reflexivity|].
    rewrite (RecorderProperties.create_wav_data_container
               (set_audio_stream (set_is_recording self false) false))
      by (unfold RecorderProperties.header_fits; exact Hfit).
    cbn. now rewrite E.
  - cbn [audio_data set_is_recording].
    destruct (audio_data self) eqn:E; [reflexivity|].
    rewrite (RecorderProperties.create_wav_data_container
               (set_is_recording self false))
      by (unfold RecorderProperties.header_fits; exact Hfit).
    cbn. now rewrite E.
Qed.

(** The canonical container is a header of 44 bytes followed by the
    data. *)
Lemma container_header (nch rate width : Z) (data : bytes) :
  exists header : bytes,
    length header = 44%nat
    /\ WaveProperties.container nch rate width data = header ++ data.
Proof.
  exists (Wave.tag_RIFF ++ Struct.le_bytes 4 (36 + Z.of_nat (length data))
            ++ WaveProperties.header_fields nch rate width
            ++ Struct.le_bytes 4 (Z.of_nat (length data))).
  split.
  - rewrite !length_app, !BytesProperties.length_le_bytes,
      WaveProperties.length_header_fields. reflexivity.
  - unfold WaveProperties.container. now rewrite <- !app_assoc.
Qed.

(** X12: for a running recording whose parameters fit a WAV header,
    [stop_recording] returns audio exactly when at least one buffer was
    captured and the hardware stream, if one is open, stops without
    raising; otherwise it returns [b""].  When it returns audio, that
    is a 44-byte header followed by the captured bytes, in the order
    they were captured: the canonical PCM container of those bytes for
    the recorder's channel count, sample rate and sample width. *)
Theorem stop_recording_returns_audio_iff (self : t) (stream : result unit) :
  is_recording self = true ->
  RecorderProperties.header_fits self ->
  (snd (stop_recording self stream) <> []
   <-> audio_data self <> []
       /\ (audio_stream self = false \/ exists u, stream = inl u))
  /\ (snd (stop_recording self stream) <> [] ->
      exists header : bytes,
        length header = 44%nat
        /\ snd (stop_recording self stream)
           = header ++ concat (audio_data self)
        /\ snd (stop_recording self stream)
           = WaveProperties.container (channels self) (sample_rate self)
               (get_sample_size (format self)) (concat (audio_data self))).
Proof.
  intros Hrec Hfit. rewrite (stop_recording_returns self stream Hrec Hfit).
  destruct (container_header (channels self) (sample_rate self)
              (get_sample_size (format self)) (concat (audio_data self)))
    as (header & Hlen & Hcontainer).
  assert (Hne : WaveProperties.container (channels self) (sample_rate self)
                  (get_sample_size (format self)) (concat (audio_data self))
                <> []).
  { intros Hc. apply (f_equal length) in Hc.
    rewrite length_container in Hc. discriminate. }
  destruct (audio_stream self); cbn [andb].
  - destruct stream as [u|e].
    + destruct (audio_data self) eqn:E.
      * split; [|tauto]. split; [tauto|]. intros [H _]. now contradict H.
      * split.
        -- split; [|intros _; exact Hne].
           intros _. split; [discriminate|]. right. now exists u.
        -- intros _. exists header. now rewrite <- Hcontainer.
    + split; [|tauto]. split; [tauto|].
      intros [_ [H|[u H]]]; discriminate.
  - destruct (audio_data self) eqn:E.
    + split; [|tauto]. split; [tauto|]. intros [H _]. now contradict H.
    + split.
      * split; [|intros _; exact Hne].
        intros _. split; [discriminate|]. now left.
      * intros _. exists header. now rewrite <- Hcontainer.
Qed.

Lemma stop_recording_returns_audio_iff_witness :
  let self := RecorderProperties.recorded in
  let stream : result unit := inl () in
  (snd (stop_recording self stream) <> []
   <-> audio_data self <> []
       /\ (audio_stream self = false \/ exists u, stream = inl u))
  /\ (snd (stop_recording self stream) <> [] ->
      exists header : bytes,
        length header = 44%nat
        /\ snd (stop_recording self stream)
           = header ++ concat (audio_data self)
        /\ snd (stop_recording self stream)
           = WaveProperties.container (channels self) (sample_rate self)
               (get_sample_size (format self)) (concat (audio_data self))).
Proof.
  apply (stop_recording_returns_audio_iff RecorderProperties.recorded
           (inl ())).
  - reflexivity.
  - change (WaveProperties.fits 1 16000 2
              (concat RecorderProperties.two_chunks)).
    constructor; cbn; lia.
Defined.

Lemma pack_header_bad_channels (form_length nch rate byte_rate block_align
    bits : Z) :
  2 ^ 16 <= nch ->
  exists e, Wave.pack_header form_length Wave.WAVE_FORMAT_PCM nch rate
              byte_rate block_align bits = inr e.
Proof.
  intros Hn. unfold Wave.pack_header.
  destruct (Struct.pack_L form_length) as [b1|e1]; [|now exists e1].
  cbn [mbind result_bind bind].
  destruct (Struct.pack_L 16) as [b2|e2]; [|now exists e2].
  cbn [mbind result_bind bind].
  destruct (Struct.pack_H Wave.WAVE_FORMAT_PCM) as [b3|e3]; [|now exists e3].
  cbn [mbind result_bind bind].
  assert (Hp : exists e, Struct.pack_H nch = inr e).
  { unfold Struct.pack_H.
    replace (nch <? 2 ^ 16) with false by (symmetry; apply Z.ltb_ge; lia).
    rewrite andb_false_r. eexists. reflexivity. }
  destruct Hp as [e Hp]. rewrite Hp. now exists e.
Qed.

Lemma writeframes_bad_channels (nch rate width : Z) (data : bytes) :
  2 ^ 16 <= nch ->
  exists e,
    Wave.writeframes (WaveProperties.configured nch rate width) data = inr e.
Proof.
  intros Hbad.
  unfold Wave.writeframes, Wave.writeframesraw, Wave._ensure_header_written.
  cbn [WaveProperties.configured Wave._headerwritten Wave._nchannels
       Wave._sampwidth Wave._framerate].
  destruct (nch =? 0); [eexists; reflexivity|].
  destruct (width =? 0); [eexists; reflexivity|].
  destruct (rate =? 0); [eexists; reflexivity|].
  unfold Wave._write_header.
  cbn [Wave._file Wave._nframes Wave._nchannels Wave._sampwidth
       Wave._framerate].
  match goal with
  | |- context [Wave.pack_header ?a ?b ?c ?d ?e ?f ?g] =>
      destruct (pack_header_bad_channels a c d e f g Hbad) as [e0 He0];
      rewrite He0
  end.
  exists e0. reflexivity.
Qed.

Lemma written_bad_channels (nch rate width : Z) (data : bytes) :
  nch < 1 \/ 2 ^ 16 <= nch ->
  exists e,
    (wav_file ← Wave.setnchannels (Wave.open BytesIO.empty) nch;
     wav_file ← Wave.setsampwidth wav_file width;
     wav_file ← Wave.setframerate wav_file rate;
     wav_file ← Wave.writeframes wav_file data;
     Wave.close wav_file) = inr e.
Proof.
  intros Hbad.
  assert (H1 : (exists e, Wave.setnchannels (Wave.open BytesIO.empty) nch
                          = inr e)
               \/ (2 ^ 16 <= nch
                   /\ Wave.setnchannels (Wave.open BytesIO.empty) nch
                      = inl (Wave.mk BytesIO.empty nch 0 0 0 0 0 0 false 0 0))).
  { unfold Wave.setnchannels. cbn [Wave.open Wave._datawritten
         Wave._file Wave._sampwidth Wave._framerate Wave._nframes
         Wave._nframeswritten Wave._datalength Wave._headerwritten
         Wave._form_length_pos Wave._data_length_pos].
    change (negb (0 =? 0)) with false. cbv iota.
    destruct (Z.ltb_spec nch 1); [left; eexists; reflexivity|].
    right. split; [lia|reflexivity]. }
  destruct H1 as [[e He]|[Hbig H1]]; [rewrite He; now exists e|].
  rewrite H1. cbn [mbind result_bind bind].
  assert (H2 : (exists e, Wave.setsampwidth
                            (Wave.mk BytesIO.empty nch 0 0 0 0 0 0 false 0 0)
                            width = inr e)
               \/ Wave.setsampwidth
                    (Wave.mk BytesIO.empty nch 0 0 0 0 0 0 false 0 0) width
                  = inl (Wave.mk BytesIO.empty nch width 0 0 0 0 0 false 0 0)).
  { unfold Wave.setsampwidth. cbn [Wave._datawritten
         Wave._file Wave._nchannels Wave._framerate Wave._nframes
         Wave._nframeswritten Wave._datalength Wave._headerwritten
         Wave._form_length_pos Wave._data_length_pos].
    change (negb (0 =? 0)) with false. cbv iota.
    destruct ((width <? 1) || (4 <? width));
      [left; eexists; reflexivity|now right]. }
  destruct H2 as [[e He]|H2]; [rewrite He; now exists e|].
  rewrite H2. cbn [mbind result_bind bind].
  assert (H3 : (exists e, Wave.setframerate
                            (Wave.mk BytesIO.empty nch width 0 0 0 0 0 false 0 0)
                            rate = inr e)
               \/ Wave.setframerate
                    (Wave.mk BytesIO.empty nch width 0 0 0 0 0 false 0 0) rate
                  = inl (WaveProperties.configured nch rate width)).
  { unfold Wave.setframerate. cbn [Wave._datawritten
         Wave._file Wave._nchannels Wave._sampwidth Wave._nframes
         Wave._nframeswritten Wave._datalength Wave._headerwritten
         Wave._form_length_pos Wave._data_length_pos].
    change (negb (0 =? 0)) with false. cbv iota.
    destruct (rate <=? 0); [left; eexists; reflexivity|now right]. }
  destruct H3 as [[e He]|H3]; [rewrite He; now exists e|].
  rewrite H3. cbn [mbind result_bind bind].
  destruct (writeframes_bad_channels nch rate width data Hbig) as [e He].
  rewrite He. now exists e.
Qed.

Lemma create_wav_data_bad_channels (self : t) :
  channels self < 1 \/ 2 ^ 16 <= channels self ->
  _create_wav_data self = (log self (error "Failed to create WAV data"), []).
Proof.
  intros Hbad. unfold _create_wav_data.
  destruct (written_bad_channels (channels self) (sample_rate self)
              (get_sample_size (format self)) (concat (audio_data self)) Hbad)
    as [e He].
  now rewrite He.
Qed.

(** X13: a channel count that a WAV header cannot hold, below 1 or
    above 65535, makes [stop_recording] return [b""] for a recording
    that did capture audio: the container cannot be written, and the
    failure is logged, not raised. *)
Theorem stop_recording_bad_channels (self : t) (stream : result unit) :
  is_recording self = true ->
  audio_data self <> [] ->
  channels self < 1 \/ 2 ^ 16 <= channels self ->
  snd (stop_recording self stream) = []
  /\ is_recording (fst (stop_recording self stream)) = false.
Proof.
  intros Hrec Hdata Hbad.
  split; [|apply stop_recording_is_recording].
  unfold stop_recording. rewrite Hrec. cbn [negb]. unfold ret, raise.
  destruct (audio_stream (set_is_recording self false)).
  - destruct stream as [u|e]; [|reflexivity].
    cbn [audio_data set_audio_stream set_is_recording].
    destruct (audio_data self); [reflexivity|].
    now rewrite create_wav_data_bad_channels.
  - cbn [audio_data set_is_recording].
    destruct (audio_data self); [reflexivity|].
    now rewrite create_wav_data_bad_channels.
Qed.

(** A recorder configured with no channel at all. *)
Definition no_channel_recorder : t :=
  capture
    (fst (start_recording (__init__ (mkConfig 16000 0 1024 None)) (inl ())))
    [[x01; x00]].

Lemma stop_recording_bad_channels_witness :
  snd (stop_recording no_channel_recorder (inl ())) = []
  /\ is_recording (fst (stop_recording no_channel_recorder (inl ()))) = false.
Proof.
  apply (stop_recording_bad_channels no_channel_recorder (inl ())).
  - reflexivity.
  - discriminate.
  - left. reflexivity.
Defined.

End RecorderStopping.

(** ** Input devices *)

Module InputDevices.

Local Open Scope Z_scope.
Local Open Scope list_scope.

(** What [get_device_info_by_index] returns, as far as
    [get_input_devices] reads it. *)
Record DeviceInfo : Type := mkInfo {
  name : string;
  maxInputChannels : Z;
  defaultSampleRate : Q
}.

(** One entry of the list [get_input_devices] returns. *)
Record InputDevice : Type := mkDevice {
  index : nat;
  device_name : string;
  channels : Z;
  sample_rate : Q
}.

(** The loop of [get_input_devices] from index [i] on; [infos] is what
    [get_device_info_by_index] does for the indices [i], [i+1], ...: it
    returns an info or raises.  An exception ends the loop, and the
    devices found so far are returned. *)
Fixpoint scan (i : nat) (infos : list (result DeviceInfo))
    (devices : list InputDevice) : list InputDevice :=
  match infos with
  | [] => devices
  | inr e :: _ => devices
  | inl device_info :: rest =>
      scan (S i) rest
        (if 0 <? maxInputChannels device_info
         then devices ++ [mkDevice i (name device_info)
                            (maxInputChannels device_info)
                            (defaultSampleRate device_info)]
         else devices)
  end.

(** [get_input_devices]; [host] is what the audio host does:
    [get_device_count] raises, or there are as many devices as the list
    is long. *)
Definition get_input_devices (host : result (list (result DeviceInfo)))
  : list InputDevice :=
  match host with
  | inl infos => scan 0 infos []
  | inr e => []
  end.

End InputDevices.

Module InputDevicesProperties.

Import InputDevices.
Local Open Scope Z_scope.
Local Open Scope list_scope.

(** No query below index [n] raised. *)
Definition no_failure_before (infos : list (result DeviceInfo)) (n : nat)
  : Prop :=
  forall j e, (j < n)%nat -> infos !! j <> Some (inr e).

Lemma scan_spec (i : nat) (infos : list (result DeviceInfo))
    (devices : list InputDevice) (d : InputDevice) :
  d ∈ scan i infos devices
  <-> d ∈ devices
      \/ exists k device_info,
           index d = (i + k)%nat
           /\ infos !! k = Some (inl device_info)
           /\ no_failure_before infos k
           /\ 0 < maxInputChannels device_info
           /\ d = mkDevice (i + k) (name device_info)
                    (maxInputChannels device_info)
                    (defaultSampleRate device_info).
Proof.
  revert i devices. induction infos as [|[info|e] infos IH]; intros i devices.
  - cbn [scan]. split; [now left|]. intros [H|(k & info & _ & H & _)]; [exact H|].
    now rewrite lookup_nil in H.
  - cbn [scan]. rewrite IH. split.
    + intros [Hin|(k & info' & Hi & Hk & Hno & Hpos & Hd)].
      * destruct (Z.ltb_spec 0 (maxInputChannels info)); [|now left].
        apply elem_of_app in Hin as [Hin|Hin]; [now left|].
        apply list_elem_of_singleton in Hin. right. exists 0%nat, info.
        rewrite Nat.add_0_r. subst d. cbn.
        repeat split; try assumption. intros j e Hj. lia.
      * right. exists (S k), info'.
        replace (i + S k)%nat with (S i + k)%nat by lia.
        repeat split; try assumption.
        intros [|j] e Hj; cbn; [discriminate|]. apply Hno. lia.
    + intros [Hin|(k & info' & Hi & Hk & Hno & Hpos & Hd)].
      * left. destruct (0 <? maxInputChannels info); [|exact Hin].
        apply elem_of_app. now left.
      * destruct k as [|k].
        -- cbn in Hk. injection Hk as <-. left.
           replace (0 <? maxInputChannels info) with true
             by (symmetry; now apply Z.ltb_lt).
           apply elem_of_app. right. rewrite Nat.add_0_r in Hd. subst d.
           apply list_elem_of_singleton. reflexivity.
        -- right. exists k, info'.
           replace (S i + k)%nat with (i + S k)%nat by lia.
           repeat split; try assumption.
           intros j e Hj. apply (Hno (S j) e). lia.
  - cbn [scan]. split; [now left|].
    intros [H|(k & info & _ & Hk & Hno & _)]; [exact H|].
    destruct k as [|k]; [discriminate|].
    exfalso. apply (Hno 0%nat e); [lia|reflexivity].
Qed.

(** X14: [get_input_devices] lists exactly the devices that have at
    least one input channel and whose index lies before the first index
    at which querying the host raised, each with its own index, name,
    channel count and sample rate; a host whose device count cannot be
    read gives the empty list.  It never lists a device without input
    channels. *)
Theorem get_input_devices_spec (host : result (list (result DeviceInfo)))
    (d : InputDevice) :
  d ∈ get_input_devices host
  <-> exists infos device_info,
        host = inl infos
        /\ infos !! index d = Some (inl device_info)
        /\ no_failure_before infos (index d)
        /\ 0 < maxInputChannels device_info
        /\ d = mkDevice (index d) (name device_info)
                 (maxInputChannels device_info)
                 (defaultSampleRate device_info).
Proof.
  unfold get_input_devices. destruct host as [infos|e].
  - rewrite scan_spec. split.
    + intros [Hin|(k & info & Hi & Hk & Hno & Hpos & Hd)];
        [now apply not_elem_of_nil in Hin|].
      cbn in Hi, Hd. exists infos, info. rewrite Hi.
      now repeat split.
    + intros (infos' & info & [= <-] & Hk & Hno & Hpos & Hd).
      right. exists (index d), info. now repeat split.
  - split; [intros Hin; now apply not_elem_of_nil in Hin|].
    intros (infos & info & H & _). discriminate.
Qed.

End InputDevicesProperties.

(** ** Streaming on a real-time session *)

Module SessionStreaming.

Import RealtimeSessionManager.
Local Open Scope list_scope.

(** The message [send_audio_data] sends for a chunk. *)
Definition append_message (audio_chunk : bytes) : OpenAIClient.ClientMessage :=
  OpenAIClient.input_audio_buffer_append (Py.b64encode audio_chunk).

Lemma send_audio_data_connected (c : OpenAIClient.t)
    (ws : OpenAIClient.WebSocket) (audio_chunk : bytes) :
  OpenAIClient.realtime_connected c = true ->
  OpenAIClient.realtime_websocket c = Some ws ->
  let c' := OpenAIClient.send_audio_data c audio_chunk in
  OpenAIClient.realtime_connected c' = true
  /\ OpenAIClient.realtime_websocket c'
     = Some (OpenAIClient.mkSocket
               (OpenAIClient.sent ws ++ [append_message audio_chunk])).
Proof.
  intros Hc Hws. unfold OpenAIClient.send_audio_data.
  rewrite Hws, Hc. split; reflexivity.
Qed.

Lemma send_all_connected (chunks : list bytes) (c : OpenAIClient.t)
    (ws : OpenAIClient.WebSocket) :
  OpenAIClient.realtime_connected c = true ->
  OpenAIClient.realtime_websocket c = Some ws ->
  OpenAIClient.sent_messages (fold_left OpenAIClient.send_audio_data chunks c)
  = OpenAIClient.sent ws ++ map append_message chunks.
Proof.
  revert c ws. induction chunks as [|chunk chunks IH]; intros c ws Hc Hws.
  - cbn. unfold OpenAIClient.sent_messages. rewrite Hws.
    now rewrite app_nil_r.
  - cbn [fold_left map].
    destruct (send_audio_data_connected c ws chunk Hc Hws) as [Hc' Hws'].
    rewrite (IH _ _ Hc' Hws'). cbn [OpenAIClient.sent].
    now rewrite <- app_assoc.
Qed.

Lemma send_audio_active (chunks : list bytes) (self : t)
    (pending : list bytes) :
  is_active self = true ->
  loop self = Some pending ->
  fold_left send_audio chunks self
  = mk (client self) true (Some (pending ++ chunks)).
Proof.
  revert self pending.
  induction chunks as [|chunk chunks IH]; intros self pending Ha Hl.
  - cbn. rewrite app_nil_r. destruct self as [c a l]. cbn in *. congruence.
  - cbn [fold_left].
    assert (Hs : send_audio self chunk
                 = mk (client self) true (Some (pending ++ [chunk]))).
    { unfold send_audio. now rewrite Hl, Ha. }
    rewrite Hs. rewrite (IH _ (pending ++ [chunk])) by reflexivity.
    cbn [client]. now rewrite <- app_assoc.
Qed.

Lemma send_audio_inactive (chunks : list bytes) (self : t) :
  is_active self = false ->
  fold_left send_audio chunks self = self.
Proof.
  intros Ha. induction chunks as [|chunk chunks IH]; [reflexivity|].
  cbn [fold_left].
  replace (send_audio self chunk) with self; [exact IH|].
  unfold send_audio. rewrite Ha. now destruct (loop self).
Qed.

(** X15: on an active session whose event loop exists and whose client
    is connected, the chunks passed to [send_audio] are sent once their
    coroutines have run: one [input_audio_buffer.append] message per
    chunk, carrying the chunk in base64, in the order the chunks were
    fed, after the coroutines that were already waiting and after
    everything sent before; no coroutine is left. *)
Theorem connected_session_streams_in_order (self : t)
    (pending chunks : list bytes) (ws : OpenAIClient.WebSocket) :
  is_active self = true ->
  loop self = Some pending ->
  OpenAIClient.realtime_connected (client self) = true ->
  OpenAIClient.realtime_websocket (client self) = Some ws ->
  let drained := loop_run_all (fold_left send_audio chunks self) in
  OpenAIClient.sent_messages (client drained)
  = OpenAIClient.sent ws ++ map append_message (pending ++ chunks)
  /\ loop drained = Some []
  /\ is_active drained = true.
Proof.
  intros Ha Hl Hc Hws drained. unfold drained.
  rewrite (send_audio_active chunks self pending Ha Hl).
  unfold loop_run_all. cbn [loop client is_active].
  split; [|split; reflexivity].
  now apply send_all_connected.
Qed.

(** A session that was started, whose thread has created its event
    loop and whose connection has opened. *)
Definition streaming_session : t :=
  connection_opened
    (_run_session_loop_begin
       (start_session
          (__init__ (OpenAIClient.__init__ "sk-test"
                       "https://api.openai.com/v1")))).

Lemma connected_session_streams_in_order_witness :
  let chunks := [[x01; x00]; [xff; x7f]] in
  let drained := loop_run_all (fold_left send_audio chunks streaming_session) in
  OpenAIClient.sent_messages (client drained)
  = [OpenAIClient.session_update] ++ map append_message ([] ++ chunks)
  /\ loop drained = Some []
  /\ is_active drained = true.
Proof.
  apply (connected_session_streams_in_order streaming_session []
           [[x01; x00]; [xff; x7f]]
           (OpenAIClient.mkSocket [OpenAIClient.session_update]));
    reflexivity.
Defined.

(** The client after [stop_realtime_session] is not connected, and
    has sent what it had sent. *)
Lemma stop_realtime_session_keeps (c : OpenAIClient.t) (running_loop : bool) :
  OpenAIClient.realtime_connected
    (OpenAIClient.stop_realtime_session c running_loop) = false
  /\ OpenAIClient.sent_messages
       (OpenAIClient.stop_realtime_session c running_loop)
     = OpenAIClient.sent_messages c.
Proof.
  unfold OpenAIClient.stop_realtime_session, OpenAIClient.sent_messages.
  cbn [OpenAIClient.realtime_websocket OpenAIClient.set_realtime].
  destruct (OpenAIClient.realtime_websocket c) as [ws|] eqn:E;
    [destruct running_loop|]; cbn; rewrite ?E; split; reflexivity.
Qed.

(** X16: once an active session is stopped it is inactive, stopping it
    again changes nothing, and nothing more is sent: chunks fed
    afterwards are not submitted, and the coroutines that were
    submitted before the stop and run after it send nothing.  This
    holds whether or not the thread that stops the session runs an
    event loop. *)
Theorem stopped_session_sends_nothing (self : t) (chunks : list bytes)
    (running_loop again : bool) :
  is_active self = true ->
  let stopped := stop_session self running_loop in
  let drained := loop_run_all (fold_left send_audio chunks stopped) in
  is_active stopped = false
  /\ stop_session stopped again = stopped
  /\ fold_left send_audio chunks stopped = stopped
  /\ OpenAIClient.sent_messages (client drained)
     = OpenAIClient.sent_messages (client self).
Proof.
  intros Ha stopped drained.
  destruct (stop_realtime_session_keeps (client self) running_loop)
    as [Hconnected Hsent].
  assert (Hs : stopped
               = mk (OpenAIClient.stop_realtime_session (client self)
                       running_loop)
                   false (loop self)).
  { unfold stopped, stop_session. now rewrite Ha. }
  assert (Hi : is_active stopped = false) by now rewrite Hs.
  split; [exact Hi|]. split.
  { unfold stop_session. now rewrite Hi. }
  assert (Hfed : fold_left send_audio chunks stopped = stopped)
    by now apply send_audio_inactive.
  split; [exact Hfed|].
  unfold drained. rewrite Hfed, Hs. unfold loop_run_all. cbn [loop].
  destruct (loop self) as [pending|]; cbn [client].
  - rewrite ClientProperties.send_all_not_connected by exact Hconnected.
    exact Hsent.
  - exact Hsent.
Qed.

Lemma stopped_session_sends_nothing_witness :
  let chunks := [[x01; x00]; [xff; x7f]] in
  let fed := send_audio streaming_session [x10; x00] in
  let stopped := stop_session fed false in
  let drained := loop_run_all (fold_left send_audio chunks stopped) in
  is_active stopped = false
  /\ stop_session stopped true = stopped
  /\ fold_left send_audio chunks stopped = stopped
  /\ OpenAIClient.sent_messages (client drained)
     = OpenAIClient.sent_messages (client fed).
Proof.
  apply (stopped_session_sends_nothing
           (send_audio streaming_session [x10; x00])
           [[x01; x00]; [xff; x7f]] false true).
  reflexivity.
Defined.

End SessionStreaming.

(** ** The recording menu item and the events of a run *)

Module SpeechTideMenu.

Import SpeechTideApp.
Local Open Scope string_scope.
Local Open Scope list_scope.

(** [_start_recording], the start behind the menu item. *)
Definition _start_recording (self : t) (device : result unit) : t :=
  if is_recording self
  then log self (warning "Already recording, ignoring start request")
  else if negb (validate_api_key (config self))
  then show self (alert "API Key Required"
                    "Please configure your OpenAI API key in Settings.")
  else
    let self := set_is_recording self true in
    let self := log self (info "Starting recording in transcribe mode") in
    match AudioRecorder.start_recording (audio_recorder self) device with
    | (recorder, inl _) =>
        _update_menu_state (set_audio_recorder self recorder)
    | (recorder, inr e) =>
        let self := set_audio_recorder self recorder in
        let self := log self (error "Error starting recording") in
        let self := set_is_recording self false in
        show self (alert "Recording Error"
                     ("Failed to start recording: " ++ str_of e))
    end.

(** [_stop_recording], the stop behind the menu item. *)
Definition _stop_recording (self : t) (stream : result unit) : t :=
  if negb (is_recording self)
  then log self (warning "Not recording, ignoring stop request")
  else
    let self := log self (info "Stopping recording") in
    let self := set_is_recording self false in
    let '(recorder, audio_data) :=
      AudioRecorder.stop_recording (audio_recorder self) stream in
    let self := set_audio_recorder self recorder in
    let self :=
      set_processing_threads self (processing_threads self ++ [audio_data]) in
    _update_menu_state self.

(** [_toggle_recording], the callback of the recording menu item. *)
Definition _toggle_recording (self : t) (hardware : Hardware) : t :=
  if is_recording self
  then _stop_recording self (stop_stream hardware)
  else _start_recording self (open_stream hardware).

(** *** The processing threads

    Every stop of a recording starts a daemon thread on
    [_process_audio].  The threads run beside the main thread, the
    hotkey thread, the capture thread and each other, and share the
    application object with them.  A thread is followed through
    [_process_audio] one step at a time; a step is one effect of the
    method on what is shared (a flag set, the request handed to the
    service, its answer received, the interaction logged, the text
    copied, a notification shown), together with the log lines written
    next to it.  Between two steps of a thread anything else can
    happen. *)

(** [transcribe_audio] up to its blocking call: the request is handed
    to the service. *)
Definition transcribe_audio_call (self : OpenAIClient.t) (audio_data : bytes)
    (model_arg : string) (language_arg : option string) : OpenAIClient.t :=
  let self :=
    OpenAIClient.log self
      (OpenAIClient.info ("Starting transcription with model: " ++ model_arg)) in
  let request := OpenAIClient.api_params audio_data model_arg language_arg in
  OpenAIClient.set_requests self (OpenAIClient.requests self ++ [request]).

(** [transcribe_audio] from the answer of the service on. *)
Definition transcribe_audio_return (self : OpenAIClient.t)
    (answer : result string) : OpenAIClient.t * result string :=
  match answer with
  | inl response =>
      let transcription := Py.strip response in
      (OpenAIClient.log self (OpenAIClient.info "Transcription completed"),
       ret transcription)
  | inr e =>
      (OpenAIClient.log self (OpenAIClient.error "Transcription failed"),
       raise e)
  end.

(** The language [_process_audio] passes to [transcribe_audio]. *)
Definition language_param (config_arg : Config) : option string :=
  let selected_language :=
    match language_recognition config_arg with
    | Some l => l
    | None => "auto"
    end in
  if String.eqb selected_language "auto" then None
  else Some selected_language.

(** Where a processing thread stands in [_process_audio]: it has not
    run yet; it has asked for the transcribing state and is about to
    call [transcribe_audio]; its request is with the service; it holds
    a transcription and is about to call [log_interaction]; it is about
    to copy the text, inside [insert_text]; it is about to show the
    notification, inside [_show_paste_notification]; it is about to
    enter the [except] clause with an exception; it is about to run
    the [finally] clause. *)
Inductive Stage : Type :=
| started
| requesting
| awaiting
| logging (transcription : string)
| inserting (text : string)
| notifying (text : string)
| failing (e : Exception)
| finishing.

(** One step of the thread that was started on [audio_data] and stands
    at [stage]: the application after the step and the stage the thread
    has reached, [None] when [_process_audio] has returned.  [world] is
    what the collaborators do if this step meets them. *)
Definition thread_step (self : t) (audio_data : bytes) (stage : Stage)
    (world : Collaborators) : t * option Stage :=
  match stage with
  | started =>
      let self := log self (info "Processing audio for transcription") in
      (set_pending_set_transcribing self true, Some requesting)
  | requesting =>
      let client :=
        transcribe_audio_call (openai_client self) audio_data
          (openai_model_transcribe (config self))
          (language_param (config self)) in
      (set_openai_client self client, Some awaiting)
  | awaiting =>
      let request :=
        OpenAIClient.api_params audio_data
          (openai_model_transcribe (config self))
          (language_param (config self)) in
      let '(client, transcription) :=
        transcribe_audio_return (openai_client self) (service world request) in
      let self := set_openai_client self client in
      match transcription with
      | inr e => (self, Some (failing e))
      | inl transcription =>
          if Py.truthy transcription && Py.truthy (Py.strip transcription)
          then (log self (info "Transcription"), Some (logging transcription))
          else (log self (warning "No transcription result"), Some finishing)
      end
  | logging transcription =>
      match log_interaction world with
      | inr e => (self, Some (failing e))
      | inl _ =>
          let self :=
            set_conversation_logger self
              (conversation_logger self
                 ++ [mkInteraction audio_data transcription "transcribe"]) in
          (self, Some (inserting transcription))
      end
  | inserting text =>
      if negb (Py.truthy text) || negb (Py.truthy (Py.strip text))
      then (self, Some finishing)
      else if set_clipboard_content world
      then (set_clipboard self (clipboard self ++ [text]),
            Some (notifying text))
      else (self, Some finishing)
  | notifying text => (_show_paste_notification self text, Some finishing)
  | failing e =>
      let self := log self (error "Error processing audio") in
      (show self (notification "SpeechTide" "Transcription Error"
                    ("Failed to process audio: " ++ str_of e)),
       Some finishing)
  | finishing => (set_pending_clear_transcribing self true, None)
  end.

(** A thread that is left alone takes its steps one after the other,
    at most [fuel] of them, in one [world]. *)
Fixpoint thread_alone (fuel : nat) (self : t) (audio_data : bytes)
    (stage : Stage) (world : Collaborators) : t * option Stage :=
  match fuel with
  | O => (self, Some stage)
  | S fuel =>
      match thread_step self audio_data stage world with
      | (self, Some stage) => thread_alone fuel self audio_data stage world
      | (self, None) => (self, None)
      end
  end.

(** The running application: the application object and the stage
    each processing thread in flight stands at, in the order of
    [processing_threads]. *)
Record Running : Type := mkRunning {
  app : t;
  stages : list Stage
}.

(** The threads the application has started since the stages were
    last listed have not run yet. *)
Definition settle (self : t) (stages : list Stage) : Running :=
  mkRunning self
    (stages
     ++ replicate (length (processing_threads self) - length stages) started).

(** Thread [n] among those in flight takes a step; when
    [_process_audio] returns the thread is gone. *)
Definition thread_runs_at (r : Running) (n : nat) (world : Collaborators)
  : Running :=
  match processing_threads (app r) !! n, stages r !! n with
  | Some audio_data, Some stage =>
      match thread_step (app r) audio_data stage world with
      | (self, Some stage) => mkRunning self (<[n := stage]> (stages r))
      | (self, None) =>
          mkRunning
            (set_processing_threads self (delete n (processing_threads self)))
            (delete n (stages r))
      end
  | _, _ => r
  end.

(** What can happen to a running application: the hotkey manager
    calls [_handle_hotkey]; the main-thread timer fires; the recording
    menu item is clicked; the capture thread delivers a hardware buffer;
    one of the processing threads takes a step.  The first four are
    runs of a method from its start to its end. *)
Inductive Event : Type :=
| hotkey_activated (key : string)
| timer_fires (hardware : Hardware)
| menu_clicked (hardware : Hardware)
| buffer_captured (in_data : bytes)
| thread_runs (n : nat) (world : Collaborators).

Definition step (r : Running) (e : Event) : Running :=
  match e with
  | hotkey_activated key => settle (_handle_hotkey (app r) key) (stages r)
  | timer_fires hardware =>
      settle (_process_pending_ui_operations (app r) hardware) (stages r)
  | menu_clicked hardware =>
      settle (_toggle_recording (app r) hardware) (stages r)
  | buffer_captured in_data =>
      settle (audio_arrives (app r) in_data) (stages r)
  | thread_runs n world => thread_runs_at r n world
  end.

Definition exec (r : Running) (events : list Event) : Running :=
  fold_left step events r.

(** The application as it is found: whatever threads are in flight
    have not run yet. *)
Definition boot (self : t) : Running := settle self [].

Definition run (self : t) (events : list Event) : t :=
  app (exec (boot self) events).

(** The application with its log replaced. *)
Definition with_logger (a : t) (l : list LogRecord) : t :=
  mk (config a) (is_recording a) (is_transcribing a)
     (_pending_start_recording a) (_pending_stop_recording a)
     (_pending_set_transcribing a) (_pending_clear_transcribing a)
     (audio_recorder a) (openai_client a) (clipboard a)
     (conversation_logger a) (processing_threads a) (title a) (shown a) l.

(** The application without its log: everything that decides what it
    does next and what the user sees. *)
Definition forget_log (a : t) : t := with_logger a [].

End SpeechTideMenu.

Module MenuProperties.

Import SpeechTideApp SpeechTideMenu.
Local Open Scope string_scope.
Local Open Scope list_scope.

Ltac menu_simpl :=
  cbn -[validate_api_key Py.strip Py.truthy AudioRecorder.start_recording
        AudioRecorder.stop_recording OpenAIClient.transcribe_audio
        OpenAIClient.api_params AudioRecorder._audio_callback] in *.

Ltac goal_simpl :=
  cbn -[validate_api_key Py.strip Py.truthy AudioRecorder.start_recording
        AudioRecorder.stop_recording OpenAIClient.transcribe_audio
        OpenAIClient.api_params AudioRecorder._audio_callback].

Ltac split_cases :=
  repeat (menu_simpl;
          match goal with
          | |- context [if ?b then _ else _] => destruct b eqn:?
          | |- context [match ?x with inl _ => _ | inr _ => _ end] =>
              destruct x eqn:?
          | |- context [let '(_, _) := ?x in _] => destruct x eqn:?
          | |- context [match ?x with (_, _) => _ end] => destruct x eqn:?
          end).

Lemma forget_log_with_logger (a : t) (l : list LogRecord) :
  forget_log (with_logger a l) = forget_log a.
Proof. reflexivity. Qed.

Lemma with_logger_self (a : t) : with_logger a (logger a) = a.
Proof. now destruct a. Qed.

Lemma forget_log_eq (a b : t) :
  forget_log a = forget_log b <-> exists l, a = with_logger b l.
Proof.
  split.
  - intros H. exists (logger a). destruct a, b. cbv in H.
    injection H as -> -> -> -> -> -> -> -> -> -> -> -> -> ->. reflexivity.
  - intros [l ->]. reflexivity.
Qed.

Lemma start_recording_main_thread_forgets_log (a : t) (l : list LogRecord)
    (device : result unit) :
  forget_log (_start_recording_main_thread (with_logger a l) device)
  = forget_log (_start_recording_main_thread a device).
Proof.
  unfold _start_recording_main_thread. goal_simpl.
  destruct (is_recording a); [reflexivity|].
  destruct (validate_api_key (config a)); goal_simpl; [|reflexivity].
  destruct (AudioRecorder.start_recording _ _) as [r [u|e]]; reflexivity.
Qed.

Lemma stop_recording_main_thread_forgets_log (a : t) (l : list LogRecord)
    (stream : result unit) :
  forget_log (_stop_recording_main_thread (with_logger a l) stream)
  = forget_log (_stop_recording_main_thread a stream).
Proof.
  unfold _stop_recording_main_thread. goal_simpl.
  destruct (is_recording a); goal_simpl; [|reflexivity].
  destruct (AudioRecorder.stop_recording _ _) as [r d]; reflexivity.
Qed.

(** The part of the timer that follows the start-or-stop branch. *)
Definition transcribing_branch (a1 : t) : t :=
  let a2 :=
    if _pending_set_transcribing a1 then
      log (_update_menu_state
             (set_is_transcribing (set_pending_set_transcribing a1 false) true))
        (info "Started transcribing...")
    else a1 in
  if _pending_clear_transcribing a2 then
    log (_update_menu_state
           (set_is_transcribing (set_pending_clear_transcribing a2 false) false))
      (info "Transcription completed")
  else a2.

Lemma timer_branches (a : t) (hardware : Hardware) :
  _process_pending_ui_operations a hardware
  = transcribing_branch (ControllerProperties.recording_branch a hardware).
Proof. reflexivity. Qed.

Lemma transcribing_branch_forgets_log (a : t) (l : list LogRecord) :
  forget_log (transcribing_branch (with_logger a l))
  = forget_log (transcribing_branch a).
Proof.
  unfold transcribing_branch. goal_simpl.
  destruct (_pending_set_transcribing a); goal_simpl;
    destruct (_pending_clear_transcribing a); reflexivity.
Qed.

Lemma recording_branch_forgets_log (a : t) (l : list LogRecord)
    (hardware : Hardware) :
  forget_log (ControllerProperties.recording_branch (with_logger a l) hardware)
  = forget_log (ControllerProperties.recording_branch a hardware).
Proof.
  unfold ControllerProperties.recording_branch. goal_simpl.
  destruct (_pending_start_recording a && negb (is_recording a)).
  - apply (start_recording_main_thread_forgets_log
             (set_pending_start_recording a false)).
  - destruct (_pending_stop_recording a && is_recording a); [|reflexivity].
    apply (stop_recording_main_thread_forgets_log
             (set_pending_stop_recording a false)).
Qed.

(** The log decides nothing: the timer does to an application with
    another log what it does to the application, up to the log. *)
Lemma timer_forgets_log (a b : t) (hardware : Hardware) :
  forget_log a = forget_log b ->
  forget_log (_process_pending_ui_operations a hardware)
  = forget_log (_process_pending_ui_operations b hardware).
Proof.
  intros H. apply forget_log_eq in H as [l ->].
  rewrite !timer_branches.
  pose proof (recording_branch_forgets_log b l hardware) as H.
  apply forget_log_eq in H as [l' ->].
  apply transcribing_branch_forgets_log.
Qed.

Lemma handle_hotkey_forgets_log (a : t) (l : list LogRecord) (key : string) :
  forget_log (_handle_hotkey (with_logger a l) key)
  = forget_log (_handle_hotkey a key).
Proof.
  destruct a as [cfg rec tr ps pp pst pct r c cb cl th ti sh lg].
  unfold _handle_hotkey. menu_simpl. now destruct rec.
Qed.

Lemma handle_hotkey_twice (a : t) (key key' : string) :
  forget_log (_handle_hotkey (_handle_hotkey a key) key')
  = forget_log (_handle_hotkey a key).
Proof.
  destruct a as [cfg rec tr ps pp pst pct r c cb cl th ti sh lg].
  unfold _handle_hotkey. menu_simpl. now destruct rec.
Qed.

Lemma handle_hotkey_many (keys : list string) (a : t) (key : string) :
  forget_log (fold_left _handle_hotkey keys (_handle_hotkey a key))
  = forget_log (_handle_hotkey a key).
Proof.
  revert a key. induction keys as [|k keys IH]; intros a key; [reflexivity|].
  cbn [fold_left]. rewrite IH. apply handle_hotkey_twice.
Qed.

(** Activations that arrive between two runs of the timer count as
    one.  However many further activations follow an activation before
    the timer fires, the timer then does what it does after the single
    activation; only the log tells the difference. *)
Theorem repeated_activations_count_once (self : t) (key : string)
    (keys : list string) (hardware : Hardware) :
  forget_log
    (_process_pending_ui_operations
       (fold_left _handle_hotkey keys (_handle_hotkey self key)) hardware)
  = forget_log
      (_process_pending_ui_operations (_handle_hotkey self key) hardware).
Proof. apply timer_forgets_log, handle_hotkey_many. Qed.

(** X17: the recording menu item does at once what a hotkey activation
    does at the next run of the timer.  With no request pending, a click
    on the menu item and an activation followed by a timer run leave the
    application, the recorder, the processing threads and what the user
    is shown in the same state; only the log tells the difference. *)
Theorem menu_click_is_activation_then_timer (self : t) (key : string)
    (hardware : Hardware) :
  _pending_start_recording self = false ->
  _pending_stop_recording self = false ->
  _pending_set_transcribing self = false ->
  _pending_clear_transcribing self = false ->
  forget_log (_process_pending_ui_operations (_handle_hotkey self key) hardware)
  = forget_log (_toggle_recording self hardware).
Proof.
  destruct self as [cfg rec tr ps pp pst pct r c cb cl th ti sh lg].
  cbn [_pending_start_recording _pending_stop_recording
       _pending_set_transcribing _pending_clear_transcribing].
  intros -> -> -> ->.
  unfold _process_pending_ui_operations, _handle_hotkey, _toggle_recording,
    _start_recording_main_thread, _stop_recording_main_thread,
    _start_recording, _stop_recording, _update_menu_state.
  destruct rec; goal_simpl.
  - destruct (AudioRecorder.stop_recording r (stop_stream hardware))
      as [r' d]. reflexivity.
  - destruct (validate_api_key cfg); goal_simpl; [|reflexivity].
    destruct (AudioRecorder.start_recording r (open_stream hardware))
      as [r' [u|e]]; reflexivity.
Qed.

Lemma menu_click_is_activation_then_timer_witness :
  let self := __init__ (DEFAULT_CONFIG "sk-test") in
  forget_log (_process_pending_ui_operations
                (_handle_hotkey self "right_cmd") working)
  = forget_log (_toggle_recording self working).
Proof.
  apply (menu_click_is_activation_then_timer
           (__init__ (DEFAULT_CONFIG "sk-test")) "right_cmd" working);
    reflexivity.
Defined.

End MenuProperties.

(** ** Invariants of a run *)

Module RunProperties.

Import SpeechTideApp SpeechTideMenu.
Local Open Scope string_scope.
Local Open Scope list_scope.

Ltac goal_simpl :=
  cbn -[validate_api_key Py.strip Py.truthy AudioRecorder.start_recording
        AudioRecorder.stop_recording OpenAIClient.transcribe_audio
        OpenAIClient.api_params AudioRecorder._audio_callback].

(** A property that holds at the start and that every event preserves
    holds after every run. *)
Lemma exec_invariant (P : Running -> Prop) (r : Running)
    (events : list Event) :
  P r ->
  (forall r e, P r -> P (step r e)) ->
  P (exec r events).
Proof.
  intros H0 Hstep. unfold exec. revert r H0.
  induction events as [|e events IH]; intros r H0; [exact H0|].
  cbn [fold_left]. apply IH, Hstep, H0.
Qed.

Lemma run_invariant (P : t -> Prop) (self : t) (events : list Event) :
  P self ->
  (forall r e, P (app r) -> P (app (step r e))) ->
  P (run self events).
Proof.
  intros H0 Hstep. unfold run.
  apply (exec_invariant (fun r => P (app r))); [exact H0|exact Hstep].
Qed.

(** *** The recording flag and the recorder *)

(** The application and its recorder agree on whether a recording is
    running, a running recording has an open stream, and at most one of
    the start and stop requests is pending. *)
Record recording_agrees (a : t) : Prop := mkAgrees {
  agrees_flag : is_recording a = AudioRecorder.is_recording (audio_recorder a);
  agrees_stream :
    is_recording a = true ->
    AudioRecorder.audio_stream (audio_recorder a) = true;
  agrees_pending :
    _pending_start_recording a && _pending_stop_recording a = false
}.

Lemma start_recording_agrees (r : AudioRecorder.t) (device : result unit) :
  AudioRecorder.is_recording r = false ->
  let r' := fst (AudioRecorder.start_recording r device) in
  match snd (AudioRecorder.start_recording r device) with
  | inl _ => AudioRecorder.is_recording r' = true
             /\ AudioRecorder.audio_stream r' = true
  | inr _ => AudioRecorder.is_recording r' = false
  end.
Proof.
  intros H. unfold AudioRecorder.start_recording. rewrite H.
  destruct device; cbn; auto.
Qed.

Lemma start_agrees (a : t) (device : result unit)
    (start : t -> result unit -> t) :
  (start = _start_recording_main_thread \/ start = _start_recording) ->
  is_recording a = false ->
  recording_agrees a -> recording_agrees (start a device).
Proof.
  intros Hs Hrec [Hf Hst Hp].
  assert (Hr : AudioRecorder.is_recording (audio_recorder a) = false)
    by congruence.
  pose proof (start_recording_agrees (audio_recorder a) device Hr) as Hstart.
  cbv zeta in Hstart.
  destruct Hs as [-> | ->];
    unfold _start_recording_main_thread, _start_recording;
    rewrite Hrec;
    (destruct (validate_api_key (config a)); goal_simpl;
     [|constructor; goal_simpl; [exact Hf|exact Hst|exact Hp]]);
    destruct (AudioRecorder.start_recording _ _) as [r' [u|e]];
    cbn [fst snd] in Hstart;
    constructor; goal_simpl; try tauto; try congruence;
    symmetry; tauto.
Qed.

Lemma stop_agrees (a : t) (stream : result unit)
    (stop : t -> result unit -> t) :
  (stop = _stop_recording_main_thread \/ stop = _stop_recording) ->
  is_recording a = true ->
  _pending_start_recording a && _pending_stop_recording a = false ->
  recording_agrees (stop a stream).
Proof.
  intros Hs Hrec Hp.
  pose proof (RecorderStopping.stop_recording_is_recording
                (audio_recorder a) stream) as Hstop.
  destruct Hs as [-> | ->];
    unfold _stop_recording_main_thread, _stop_recording;
    rewrite Hrec; goal_simpl;
    destruct (AudioRecorder.stop_recording _ _) as [r' d];
    cbn [fst] in Hstop;
    constructor; goal_simpl; try congruence.
Qed.

Lemma audio_callback_keeps (r : AudioRecorder.t) (in_data : bytes)
    (frame_count : Z) :
  let r' := fst (AudioRecorder._audio_callback r in_data frame_count) in
  AudioRecorder.is_recording r' = AudioRecorder.is_recording r
  /\ AudioRecorder.audio_stream r' = AudioRecorder.audio_stream r
  /\ (AudioRecorder.is_recording r = false -> r' = r).
Proof.
  unfold AudioRecorder._audio_callback.
  destruct (AudioRecorder.is_recording r) eqn:Hrec; [|now cbn].
  destruct (AudioRecorder.np_frombuffer_int16 in_data) as [arr|e];
    [|now cbn].
  cbn [AudioRecorder.volume_callback AudioRecorder.set_current_volume
       AudioRecorder.set_audio_data].
  destruct (AudioRecorder.volume_callback r) as [callback|];
    [|now cbn].
  destruct (callback _); now cbn.
Qed.

(** What a returning processing thread leaves alone. *)
Record same_recording_state (a b : t) : Prop := mkSameRecording {
  same_recording : is_recording b = is_recording a;
  same_recorder : audio_recorder b = audio_recorder a;
  same_start : _pending_start_recording b = _pending_start_recording a;
  same_stop : _pending_stop_recording b = _pending_stop_recording a;
  same_threads : processing_threads b = processing_threads a;
  same_title : title b = title a;
  same_configuration : config b = config a
}.

Lemma process_audio_end_same (a : t) (audio_data : bytes)
    (world : Collaborators) :
  same_recording_state a (_process_audio_end a audio_data world).
Proof.
  unfold _process_audio_end, insert_text.
  destruct (OpenAIClient.transcribe_audio _ _ _ _ _) as [c [text|e]];
    goal_simpl; [|now constructor].
  destruct (Py.truthy text && Py.truthy (Py.strip text)) eqn:Hn;
    goal_simpl; [|now constructor].
  destruct (log_interaction world) as [u|e]; goal_simpl;
    [|now constructor].
  destruct (negb (Py.truthy text) || negb (Py.truthy (Py.strip text)));
    [now constructor|].
  destruct (set_clipboard_content world); now constructor.
Qed.

Lemma thread_step_same (a : t) (audio_data : bytes) (stage : Stage)
    (world : Collaborators) :
  same_recording_state a (fst (thread_step a audio_data stage world)).
Proof.
  destruct stage as [| | |text|text|text|e|]; cbn [thread_step].
  - now constructor.
  - now constructor.
  - destruct (transcribe_audio_return _ _) as [c [text|e]];
      [|now constructor].
    destruct (Py.truthy text && Py.truthy (Py.strip text));
      now constructor.
  - destruct (log_interaction world); now constructor.
  - destruct (negb (Py.truthy text) || negb (Py.truthy (Py.strip text)));
      [now constructor|].
    destruct (set_clipboard_content world); now constructor.
  - now constructor.
  - now constructor.
  - now constructor.
Qed.

(** A step of a processing thread leaves the recording state alone,
    also when it is the thread's last. *)
Lemma thread_runs_at_same (r : Running) (n : nat) (world : Collaborators) :
  is_recording (app (thread_runs_at r n world)) = is_recording (app r)
  /\ audio_recorder (app (thread_runs_at r n world)) = audio_recorder (app r)
  /\ _pending_start_recording (app (thread_runs_at r n world))
     = _pending_start_recording (app r)
  /\ _pending_stop_recording (app (thread_runs_at r n world))
     = _pending_stop_recording (app r).
Proof.
  unfold thread_runs_at.
  destruct (processing_threads (app r) !! n) as [audio_data|];
    [|now repeat split].
  destruct (stages r !! n) as [stage|]; [|now repeat split].
  destruct (thread_step_same (app r) audio_data stage world).
  destruct (thread_step _ _ _ _) as [a [stage'|]]; cbn [fst app] in *;
    now repeat split.
Qed.

(** What the transcribing flags' part of the timer leaves alone. *)
Record same_but_transcribing (a b : t) : Prop := mkSameBut {
  but_recording : is_recording b = is_recording a;
  but_recorder : audio_recorder b = audio_recorder a;
  but_start : _pending_start_recording b = _pending_start_recording a;
  but_stop : _pending_stop_recording b = _pending_stop_recording a;
  but_threads : processing_threads b = processing_threads a;
  but_config : config b = config a;
  but_client : openai_client b = openai_client a;
  but_clipboard : clipboard b = clipboard a;
  but_conversation_logger : conversation_logger b = conversation_logger a;
  but_shown : shown b = shown a
}.

Lemma transcribing_branch_same (a : t) :
  same_but_transcribing a (MenuProperties.transcribing_branch a).
Proof.
  unfold MenuProperties.transcribing_branch.
  destruct (_pending_set_transcribing a) eqn:Hs; goal_simpl;
    destruct (_pending_clear_transcribing a) eqn:Hc; goal_simpl;
    now constructor.
Qed.

Lemma recording_agrees_ext (a b : t) :
  is_recording b = is_recording a ->
  audio_recorder b = audio_recorder a ->
  _pending_start_recording b = _pending_start_recording a ->
  _pending_stop_recording b = _pending_stop_recording a ->
  recording_agrees a -> recording_agrees b.
Proof.
  intros H1 H2 H3 H4 [Hf Hst Hp].
  constructor; rewrite ?H1, ?H2, ?H3, ?H4; assumption.
Qed.

Lemma recording_branch_agrees (a : t) (hardware : Hardware) :
  recording_agrees a ->
  recording_agrees (ControllerProperties.recording_branch a hardware).
Proof.
  intros Ha. pose proof Ha as [Hf Hst Hp].
  unfold ControllerProperties.recording_branch.
  destruct (_pending_start_recording a && negb (is_recording a)) eqn:E1.
  - apply andb_true_iff in E1 as [_ Hrec]. apply negb_true_iff in Hrec.
    apply start_agrees; [now left|exact Hrec|].
    constructor; [exact Hf|exact Hst|reflexivity].
  - destruct (_pending_stop_recording a && is_recording a) eqn:E2;
      [|exact Ha].
    apply andb_true_iff in E2 as [_ Hrec].
    apply stop_agrees; [now left|exact Hrec|].
    cbn. apply andb_false_r.
Qed.

Lemma step_agrees (r : Running) (e : Event) :
  recording_agrees (app r) -> recording_agrees (app (step r e)).
Proof.
  intros Ha. pose proof Ha as [Hf Hst Hp]. set (a := app r) in *.
  destruct e as [key|hardware|hardware|in_data|n world];
    cbn [step app settle]; fold a.
  - unfold _handle_hotkey. goal_simpl.
    destruct (is_recording a) eqn:Hrec; constructor; goal_simpl;
      rewrite ?Hrec; auto.
  - rewrite MenuProperties.timer_branches.
    destruct (transcribing_branch_same
                (ControllerProperties.recording_branch a hardware)).
    eapply recording_agrees_ext; [eassumption..|].
    now apply recording_branch_agrees.
  - unfold _toggle_recording.
    destruct (is_recording a) eqn:Hrec.
    + apply stop_agrees; [now right|exact Hrec|exact Hp].
    + apply start_agrees; [now right|exact Hrec|exact Ha].
  - unfold audio_arrives.
    destruct (audio_callback_keeps (audio_recorder a) in_data
                (AudioRecorder.chunk_size (audio_recorder a)))
      as (H1 & H2 & _).
    constructor; goal_simpl; rewrite ?H1, ?H2; assumption.
  - destruct (thread_runs_at_same r n world) as (H1 & H2 & H3 & H4).
    now apply (recording_agrees_ext a).
Qed.

(** X18: after every run of events from the start of the application,
    the application's recording flag and the recorder's agree, a
    running recording has its hardware stream open, and a start request
    and a stop request are never pending together. *)
Theorem recording_flag_matches_recorder (config_arg : Config)
    (events : list Event) :
  let app := run (__init__ config_arg) events in
  is_recording app = AudioRecorder.is_recording (audio_recorder app)
  /\ (is_recording app = true ->
      AudioRecorder.audio_stream (audio_recorder app) = true)
  /\ (_pending_start_recording app = true ->
      _pending_stop_recording app = true -> False).
Proof.
  cbv zeta.
  assert (H : recording_agrees (run (__init__ config_arg) events)).
  { apply run_invariant; [|apply step_agrees].
    constructor; [reflexivity|discriminate|reflexivity]. }
  destruct H as [Hf Hst Hp]. split; [exact Hf|]. split; [exact Hst|].
  intros H1 H2. rewrite H1, H2 in Hp. discriminate.
Qed.

(** *** Without an API key *)

Definition api_key_alert : UserMessage :=
  alert "API Key Required" "Please configure your OpenAI API key in Settings.".

(** Nothing was ever recorded, processed, sent or delivered. *)
Record never_started (a : t) : Prop := mkNever {
  never_valid : validate_api_key (config a) = false;
  never_recording : is_recording a = false;
  never_recorder_recording :
    AudioRecorder.is_recording (audio_recorder a) = false;
  never_audio : AudioRecorder.audio_data (audio_recorder a) = [];
  never_stream : AudioRecorder.audio_stream (audio_recorder a) = false;
  never_threads : processing_threads a = [];
  never_requests : OpenAIClient.requests (openai_client a) = [];
  never_clipboard : clipboard a = [];
  never_logged : conversation_logger a = [];
  never_transcribing : is_transcribing a = false;
  never_set : _pending_set_transcribing a = false;
  never_clear : _pending_clear_transcribing a = false;
  never_title : title a = icon_no_api_key;
  never_shown : Forall (fun m => m = api_key_alert) (shown a)
}.

Lemma never_started_alert (a : t) :
  never_started a -> never_started (show a api_key_alert).
Proof.
  intros []. constructor; try assumption.
  cbn [shown show]. apply Forall_app. split; [assumption|].
  now constructor.
Qed.

Lemma step_never_started (r : Running) (e : Event) :
  never_started (app r) -> never_started (app (step r e)).
Proof.
  intros Ha. pose proof Ha as []. set (a := app r) in *.
  destruct e as [key|hardware|hardware|in_data|n world];
    cbn [step app settle]; fold a.
  - unfold _handle_hotkey. goal_simpl. rewrite never_recording0.
    now constructor.
  - rewrite MenuProperties.timer_branches.
    assert (Hb : never_started
                   (ControllerProperties.recording_branch a hardware)).
    { unfold ControllerProperties.recording_branch.
      rewrite never_recording0, andb_false_r.
      destruct (_pending_start_recording a); [|exact Ha].
      cbn [andb negb]. unfold _start_recording_main_thread. goal_simpl.
      rewrite never_recording0, never_valid0. cbn [negb].
      apply (never_started_alert (set_pending_start_recording a false)).
      now constructor. }
    unfold MenuProperties.transcribing_branch.
    destruct Hb. now rewrite never_set1, never_clear1.
  - unfold _toggle_recording, _start_recording.
    rewrite never_recording0, never_valid0. cbn [negb].
    now apply never_started_alert.
  - unfold audio_arrives.
    destruct (audio_callback_keeps (audio_recorder a) in_data
                (AudioRecorder.chunk_size (audio_recorder a)))
      as (_ & _ & H).
    rewrite (H never_recorder_recording0).
    now destruct a.
  - unfold thread_runs_at. fold a. now rewrite never_threads0, lookup_nil.
Qed.

(** X19: without a usable API key nothing is ever recorded or sent.
    Whatever events follow the start of an application whose configured
    key is missing or blank (activations, menu clicks, timer runs,
    hardware buffers), no recording is running in the application or in
    the recorder, no stream is open, the recorder holds no audio, no
    processing thread exists, no request was handed to the service,
    nothing was put on the clipboard, the status bar shows the missing
    key, and the only thing ever shown to the user is the alert that
    asks for the key. *)
Theorem no_api_key_never_records (config_arg : Config) (events : list Event) :
  validate_api_key config_arg = false ->
  let app := run (__init__ config_arg) events in
  is_recording app = false
  /\ AudioRecorder.is_recording (audio_recorder app) = false
  /\ AudioRecorder.audio_stream (audio_recorder app) = false
  /\ AudioRecorder.audio_data (audio_recorder app) = []
  /\ processing_threads app = []
  /\ OpenAIClient.requests (openai_client app) = []
  /\ clipboard app = []
  /\ title app = icon_no_api_key
  /\ Forall (fun m => m = api_key_alert) (shown app).
Proof.
  intros Hv. cbv zeta.
  assert (H : never_started (run (__init__ config_arg) events)).
  { apply run_invariant; [|apply step_never_started].
    constructor; try reflexivity; try exact Hv.
    - unfold __init__, _update_menu_state. cbn [config title set_title].
      now rewrite Hv.
    - constructor. }
  destruct H. now repeat split.
Qed.

Lemma no_api_key_never_records_witness :
  let app :=
    run (__init__ (DEFAULT_CONFIG "  "))
      [hotkey_activated "right_cmd"; timer_fires working;
       buffer_captured [x01; x00]; menu_clicked working;
       hotkey_activated "right_cmd"; timer_fires working] in
  is_recording app = false
  /\ AudioRecorder.is_recording (audio_recorder app) = false
  /\ AudioRecorder.audio_stream (audio_recorder app) = false
  /\ AudioRecorder.audio_data (audio_recorder app) = []
  /\ processing_threads app = []
  /\ OpenAIClient.requests (openai_client app) = []
  /\ clipboard app = []
  /\ title app = icon_no_api_key
  /\ Forall (fun m => m = api_key_alert) (shown app).
Proof.
  apply (no_api_key_never_records (DEFAULT_CONFIG "  ")
           [hotkey_activated "right_cmd"; timer_fires working;
            buffer_captured [x01; x00]; menu_clicked working;
            hotkey_activated "right_cmd"; timer_fires working]).
  reflexivity.
Defined.

End RunProperties.

(** ** What a processing thread delivers *)

Module DeliveryProperties.

Import SpeechTideApp SpeechTideMenu.
Local Open Scope string_scope.
Local Open Scope list_scope.

Ltac goal_simpl :=
  cbn -[validate_api_key Py.strip Py.truthy AudioRecorder.start_recording
        AudioRecorder.stop_recording OpenAIClient.transcribe_audio
        OpenAIClient.api_params AudioRecorder._audio_callback].

Lemma truthy_iff (s : string) : Py.truthy s = true <-> s <> "".
Proof. destruct s; cbn; split; congruence. Qed.

(** The test [transcription and transcription.strip()] on what
    [transcribe_audio] returned. *)
Lemma stripped_test (r : string) :
  Py.truthy (Py.strip r) && Py.truthy (Py.strip (Py.strip r))
  = Py.truthy (Py.strip r).
Proof. rewrite PyProperties.strip_idempotent. apply andb_diag. Qed.

(** The request a processing thread hands to the service. *)
Definition request_of (self : t) (audio_data : bytes)
  : OpenAIClient.TranscriptionRequest :=
  OpenAIClient.api_params audio_data (openai_model_transcribe (config self))
    (language_param (config self)).

(** The notification of [_process_audio]'s [except] clause. *)
Definition error_notification (e : Exception) : UserMessage :=
  notification "SpeechTide" "Transcription Error"
    ("Failed to process audio: " ++ str_of e).

(** The notification of [insert_text]. *)
Definition ready_notification (text : string) : UserMessage :=
  notification "✅ SpeechTide - Text Ready" ("'" ++ text ++ "'")
    "Text copied to clipboard! Press Cmd+V to paste anywhere.".

(** What one run of [_process_audio_end] does to the requests, the
    clipboard, the conversation log and what is shown, by what the
    service, the conversation logger and the clipboard do. *)
Lemma process_audio_end_fields (a : t) (audio_data : bytes)
    (world : Collaborators) :
  let after := _process_audio_end a audio_data world in
  OpenAIClient.requests (openai_client after)
  = OpenAIClient.requests (openai_client a) ++ [request_of a audio_data]
  /\ _pending_clear_transcribing after = true
  /\ match service world (request_of a audio_data) with
     | inr e =>
         clipboard after = clipboard a
         /\ conversation_logger after = conversation_logger a
         /\ shown after = shown a ++ [error_notification e]
     | inl r =>
         if Py.truthy (Py.strip r) then
           match log_interaction world with
           | inr e =>
               clipboard after = clipboard a
               /\ conversation_logger after = conversation_logger a
               /\ shown after = shown a ++ [error_notification e]
           | inl _ =>
               conversation_logger after
               = conversation_logger a
                 ++ [mkInteraction audio_data (Py.strip r) "transcribe"]
               /\ if set_clipboard_content world
                  then clipboard after = clipboard a ++ [Py.strip r]
                       /\ shown after
                          = shown a ++ [ready_notification (Py.strip r)]
                  else clipboard after = clipboard a
                       /\ shown after = shown a
           end
         else
           clipboard after = clipboard a
           /\ conversation_logger after = conversation_logger a
           /\ shown after = shown a
     end.
Proof.
  cbv zeta. unfold _process_audio_end.
  fold (language_param (config a)).
  pose proof (ClientProperties.transcribe_audio_requests (openai_client a)
                (service world) audio_data
                (openai_model_transcribe (config a))
                (language_param (config a))) as Hreq.
  pose proof (ClientProperties.transcribe_audio_returns (openai_client a)
                (service world) audio_data
                (openai_model_transcribe (config a))
                (language_param (config a))) as Hret.
  fold (request_of a audio_data) in Hreq, Hret.
  destruct (OpenAIClient.transcribe_audio _ _ _ _ _) as [c res].
  cbn [fst snd] in Hreq, Hret. subst res.
  destruct (service world (request_of a audio_data)) as [r|e].
  - rewrite stripped_test.
    destruct (Py.truthy (Py.strip r)) eqn:Ht.
    + destruct (log_interaction world) as [u|e].
      * unfold insert_text, ret. rewrite PyProperties.strip_idempotent, Ht.
        cbn [negb orb].
        destruct (set_clipboard_content world); goal_simpl;
          now repeat split.
      * unfold raise. goal_simpl. now repeat split.
    + unfold ret. goal_simpl. now repeat split.
  - unfold raise. goal_simpl. now repeat split.
Qed.

Lemma process_audio_fields (self : t) (audio_data : bytes)
    (world : Collaborators) :
  _process_audio self audio_data world
  = _process_audio_end (_process_audio_begin self) audio_data world
  /\ request_of (_process_audio_begin self) audio_data
     = request_of self audio_data
  /\ clipboard (_process_audio_begin self) = clipboard self
  /\ conversation_logger (_process_audio_begin self)
     = conversation_logger self
  /\ shown (_process_audio_begin self) = shown self
  /\ openai_client (_process_audio_begin self) = openai_client self.
Proof. now repeat split. Qed.

Lemma app_one_inv {A : Type} (l : list A) (x y : A) :
  l ++ [x] = l ++ [y] -> x = y.
Proof. intros H. apply app_inv_head in H. congruence. Qed.

Lemma app_one_neq {A : Type} (l : list A) (x : A) : l ++ [x] <> l.
Proof.
  intros H. apply (f_equal (@length A)) in H.
  rewrite length_app in H. cbn in H. lia.
Qed.

(** X20: what it takes for a text to reach the clipboard.  One run of
    [_process_audio] puts a text on the clipboard exactly when the
    service answered the request, the answer stripped of surrounding
    white space is not empty, the conversation logger recorded the
    interaction without raising, and the clipboard accepted the text;
    the text is then the stripped answer.  In every other case the
    clipboard is what it was. *)
Theorem text_delivered_iff (self : t) (audio_data : bytes)
    (world : Collaborators) :
  let after := _process_audio self audio_data world in
  (forall text,
      clipboard after = clipboard self ++ [text]
      <-> exists r,
            service world (request_of self audio_data) = inl r
            /\ text = Py.strip r /\ text <> ""
            /\ (exists u, log_interaction world = inl u)
            /\ set_clipboard_content world = true)
  /\ (clipboard after = clipboard self
      \/ exists text, clipboard after = clipboard self ++ [text]).
Proof.
  cbv zeta.
  destruct (process_audio_fields self audio_data world)
    as (-> & Hreq & Hcb & _ & _ & _).
  destruct (process_audio_end_fields (_process_audio_begin self) audio_data
              world) as (_ & _ & H).
  cbv zeta in H. rewrite Hreq, Hcb in H.
  set (after := _process_audio_end _ _ _) in *.
  destruct (service world (request_of self audio_data)) as [r|e].
  - destruct (Py.truthy (Py.strip r)) eqn:Ht.
    + destruct (log_interaction world) as [u|e].
      * destruct H as [_ H].
        destruct (set_clipboard_content world); destruct H as [Hc _].
        -- split; [|right; now exists (Py.strip r)].
           intros text. rewrite Hc. split.
           ++ intros E. apply app_one_inv in E. subst text.
              exists r. repeat split; eauto.
              now apply truthy_iff.
           ++ now intros (r' & [= <-] & -> & _).
        -- split; [|now left]. intros text. rewrite Hc. split.
           ++ intros E. symmetry in E. now apply app_one_neq in E.
           ++ now intros (r' & _ & _ & _ & _ & ?).
      * destruct H as [Hc _]. split; [|now left].
        intros text. rewrite Hc. split.
        -- intros E. symmetry in E. now apply app_one_neq in E.
        -- now intros (r' & _ & _ & _ & [u ?] & _).
    + destruct H as [Hc _]. split; [|now left].
      intros text. rewrite Hc. split.
      * intros E. symmetry in E. now apply app_one_neq in E.
      * intros (r' & [= <-] & -> & Hne & _).
        apply truthy_iff in Hne. congruence.
  - destruct H as [Hc _]. split; [|now left].
    intros text. rewrite Hc. split.
    + intros E. symmetry in E. now apply app_one_neq in E.
    + now intros (r' & ? & _).
Qed.

(** X21: a conversation logger that raises blocks the delivery.  When
    the service answered with speech but [log_interaction] raises, the
    text is not put on the clipboard and no interaction is recorded;
    the user is shown one error notification that carries the
    exception's text, and the request to clear the transcribing state
    is made all the same. *)
Theorem log_failure_blocks_delivery (self : t) (audio_data : bytes)
    (world : Collaborators) (r : string) (e : Exception) :
  service world (request_of self audio_data) = inl r ->
  Py.strip r <> "" ->
  log_interaction world = inr e ->
  let after := _process_audio self audio_data world in
  clipboard after = clipboard self
  /\ conversation_logger after = conversation_logger self
  /\ shown after = shown self ++ [error_notification e]
  /\ OpenAIClient.requests (openai_client after)
     = OpenAIClient.requests (openai_client self)
       ++ [request_of self audio_data]
  /\ _pending_clear_transcribing after = true.
Proof.
  intros Hs Hne Hl. cbv zeta.
  destruct (process_audio_fields self audio_data world)
    as (-> & Hreq & Hcb & Hcl & Hsh & Hoc).
  destruct (process_audio_end_fields (_process_audio_begin self) audio_data
              world) as (Hr & Hp & H).
  cbv zeta in H, Hr, Hp. rewrite Hreq in *. rewrite Hcb, Hcl, Hsh in H.
  rewrite Hoc in Hr.
  apply truthy_iff in Hne. rewrite Hs, Hne, Hl in H.
  destruct H as (H1 & H2 & H3). now repeat split.
Qed.

(** A world whose service hears "hello", whose conversation logger
    cannot write, and whose clipboard works. *)
Definition unwritable_log : Collaborators :=
  mkCollaborators (fun _ => inl " hello ") (inr (OSError "disk full")) true.

Lemma log_failure_blocks_delivery_witness :
  let self := __init__ (DEFAULT_CONFIG "sk-test") in
  let after := _process_audio self [x01; x00] unwritable_log in
  clipboard after = clipboard self
  /\ conversation_logger after = conversation_logger self
  /\ shown after = shown self ++ [error_notification (OSError "disk full")]
  /\ OpenAIClient.requests (openai_client after)
     = OpenAIClient.requests (openai_client self)
       ++ [request_of self [x01; x00]]
  /\ _pending_clear_transcribing after = true.
Proof.
  apply (log_failure_blocks_delivery (__init__ (DEFAULT_CONFIG "sk-test"))
           [x01; x00] unwritable_log " hello " (OSError "disk full"));
    [reflexivity|discriminate|reflexivity].
Defined.

(** X22: a clipboard that refuses the text fails silently.  When the
    service answered with speech and the interaction was recorded, but
    the clipboard does not accept the text, the interaction stays in
    the conversation log, nothing is put on the clipboard, and nothing
    at all is shown to the user: neither the text-ready notification nor
    an error. *)
Theorem clipboard_failure_is_silent (self : t) (audio_data : bytes)
    (world : Collaborators) (r : string) (u : unit) :
  service world (request_of self audio_data) = inl r ->
  Py.strip r <> "" ->
  log_interaction world = inl u ->
  set_clipboard_content world = false ->
  let after := _process_audio self audio_data world in
  clipboard after = clipboard self
  /\ shown after = shown self
  /\ conversation_logger after
     = conversation_logger self
       ++ [mkInteraction audio_data (Py.strip r) "transcribe"]
  /\ _pending_clear_transcribing after = true.
Proof.
  intros Hs Hne Hl Hc. cbv zeta.
  destruct (process_audio_fields self audio_data world)
    as (-> & Hreq & Hcb & Hcl & Hsh & Hoc).
  destruct (process_audio_end_fields (_process_audio_begin self) audio_data
              world) as (Hr & Hp & H).
  cbv zeta in H, Hp. rewrite Hreq in *. rewrite Hcb, Hcl, Hsh in H.
  apply truthy_iff in Hne. rewrite Hs, Hne, Hl, Hc in H.
  destruct H as (H1 & H2 & H3). now repeat split.
Qed.

(** A world whose service hears "hello", whose conversation logger
    works, and whose clipboard refuses. *)
Definition refusing_clipboard : Collaborators :=
  mkCollaborators (fun _ => inl " hello ") (inl ()) false.

Lemma clipboard_failure_is_silent_witness :
  let self := __init__ (DEFAULT_CONFIG "sk-test") in
  let after := _process_audio self [x01; x00] refusing_clipboard in
  clipboard after = clipboard self
  /\ shown after = shown self
  /\ conversation_logger after
     = conversation_logger self
       ++ [mkInteraction [x01; x00] (Py.strip " hello ") "transcribe"]
  /\ _pending_clear_transcribing after = true.
Proof.
  apply (clipboard_failure_is_silent (__init__ (DEFAULT_CONFIG "sk-test"))
           [x01; x00] refusing_clipboard " hello " ());
    [reflexivity|discriminate|reflexivity|reflexivity].
Defined.

(** The language hint of a request.  The request a processing
    thread hands to the service names a language exactly when the
    configuration selects one that is neither ["auto"] nor empty, and
    then it names that one; with no language configured none is
    named. *)
Theorem language_hint_iff (self : t) (audio_data : bytes) (l : string) :
  OpenAIClient.language (request_of self audio_data) = Some l
  <-> language_recognition (config self) = Some l /\ l <> "auto" /\ l <> "".
Proof.
  unfold request_of.
  destruct (ClientProperties.api_params_fields audio_data
              (openai_model_transcribe (config self))
              (language_param (config self))) as (_ & _ & _ & _ & ->).
  unfold language_param.
  destruct (language_recognition (config self)) as [sel|].
  - destruct (String.eqb_spec sel "auto") as [->|Hne].
    + split; [discriminate|]. now intros ([= <-] & ? & _).
    + destruct sel as [|c sel]; cbn [Py.truthy].
      * split; [discriminate|]. now intros ([= <-] & _ & ?).
      * split.
        -- intros [= <-]. now repeat split.
        -- now intros ([= <-] & _).
  - cbn. split; [discriminate|]. now intros (? & _).
Qed.

(** Whatever a processing thread met, the transcribing state is
    cleared.  After a run of [_process_audio], however it went (a text
    delivered, no speech, the service, the logger or the clipboard
    failing), the next run of the timer leaves the application not
    transcribing, with neither transcribing request pending and without
    the transcribing icon; this holds also when the thread began and
    returned between two runs of the timer. *)
Theorem every_outcome_clears_transcribing (self : t) (audio_data : bytes)
    (world : Collaborators) (hardware : Hardware) :
  let after :=
    _process_pending_ui_operations (_process_audio self audio_data world)
      hardware in
  is_transcribing after = false
  /\ _pending_set_transcribing after = false
  /\ _pending_clear_transcribing after = false
  /\ title after <> icon_transcribing.
Proof.
  cbv zeta.
  destruct (process_audio_end_fields (_process_audio_begin self) audio_data
              world) as (_ & Hp & _).
  cbv zeta in Hp. fold (_process_audio self audio_data world) in Hp.
  destruct (ControllerProperties.timer_clears_transcribing _ hardware Hp)
    as (H1 & H2 & H3).
  repeat split; try assumption.
  now apply ControllerProperties.timer_clears_icon.
Qed.

(** *** A thread left alone

    The steps of a processing thread, taken one after the other with
    nothing in between, are one run of [_process_audio]. *)

Lemma transcribe_audio_halves (c : OpenAIClient.t)
    (service_arg : OpenAIClient.TranscriptionRequest -> result string)
    (audio_data : bytes) (model_arg : string) (language_arg : option string) :
  OpenAIClient.transcribe_audio c service_arg audio_data model_arg language_arg
  = transcribe_audio_return
      (transcribe_audio_call c audio_data model_arg language_arg)
      (service_arg (OpenAIClient.api_params audio_data model_arg language_arg)).
Proof.
  unfold OpenAIClient.transcribe_audio, transcribe_audio_return,
    transcribe_audio_call.
  now destruct (service_arg _).
Qed.

Lemma thread_alone_process_audio_end (self : t) (audio_data : bytes)
    (world : Collaborators) :
  thread_alone 6 self audio_data requesting world
  = (_process_audio_end self audio_data world, None).
Proof.
  unfold _process_audio_end, insert_text.
  fold (language_param (config self)).
  rewrite transcribe_audio_halves.
  cbn [thread_alone thread_step].
  cbn [config openai_client set_openai_client].
  destruct (transcribe_audio_return _ _) as [c [text|e]];
    [|reflexivity].
  destruct (Py.truthy text && Py.truthy (Py.strip text)) eqn:Ht;
    [|reflexivity].
  cbn [thread_alone thread_step log_interaction].
  destruct (log_interaction world) as [u|e]; [|reflexivity].
  cbn [thread_alone thread_step].
  assert (Hg : negb (Py.truthy text) || negb (Py.truthy (Py.strip text))
               = false).
  { apply andb_true_iff in Ht as [-> ->]. reflexivity. }
  rewrite Hg.
  destruct (set_clipboard_content world); reflexivity.
Qed.

Lemma thread_alone_process_audio (self : t) (audio_data : bytes)
    (world : Collaborators) :
  thread_alone 7 self audio_data started world
  = (_process_audio self audio_data world, None).
Proof.
  change (thread_alone 7 self audio_data started world)
    with (thread_alone 6 (_process_audio_begin self) audio_data requesting
            world).
  apply thread_alone_process_audio_end.
Qed.

(** With no thread in flight a thread step is no step. *)
Lemma exec_no_thread (k : nat) (a : t) (world : Collaborators) :
  processing_threads a = [] ->
  exec (mkRunning a []) (replicate k (thread_runs 0 world)) = mkRunning a [].
Proof.
  intros Hnone. induction k as [|k IH]; [reflexivity|].
  cbn [replicate]. unfold exec. cbn [fold_left step].
  unfold thread_runs_at. cbn [SpeechTideMenu.app]. rewrite Hnone.
  exact IH.
Qed.

(** The one thread in flight takes [k] steps in a row. *)
Lemma exec_thread_alone (k : nat) (a : t) (audio_data : bytes)
    (stage : Stage) (world : Collaborators) :
  processing_threads a = [audio_data] ->
  exec (mkRunning a [stage]) (replicate k (thread_runs 0 world))
  = match thread_alone k a audio_data stage world with
    | (after, Some stage') => mkRunning after [stage']
    | (after, None) => mkRunning (set_processing_threads after []) []
    end.
Proof.
  revert a stage. induction k as [|k IH]; intros a stage Hone; [reflexivity|].
  cbn [replicate thread_alone]. unfold exec. cbn [fold_left step].
  unfold thread_runs_at. cbn [SpeechTideMenu.app stages]. rewrite Hone.
  cbn [lookup list_lookup].
  pose proof (RunProperties.thread_step_same a audio_data stage world)
    as Hsame.
  destruct (thread_step a audio_data stage world) as [after [stage'|]];
    cbn [fst] in Hsame; destruct Hsame.
  - apply IH. congruence.
  - rewrite same_threads, Hone. cbn [delete list_delete].
    now apply exec_no_thread.
Qed.

(** *** Deliveries over a run *)

(** An interaction in the conversation log records speech that was
    sent: its text is not empty and has no surrounding white space, and
    its audio is the file of a request handed to the service. *)
Definition records_speech (a : t) (i : Interaction) : Prop :=
  logged_transcription i <> ""
  /\ Py.strip (logged_transcription i) = logged_transcription i
  /\ logged_mode i = "transcribe"
  /\ exists request,
       request ∈ OpenAIClient.requests (openai_client a)
       /\ OpenAIClient.file request = logged_audio i.

(** The text a thread has logged and not copied yet. *)
Definition about_to_copy (stage : Stage) : list string :=
  match stage with
  | inserting text => [text]
  | _ => []
  end.

(** The thread's request is out and its interaction is not logged
    yet. *)
Definition request_out (stage : Stage) : nat :=
  match stage with
  | awaiting | logging _ => 1
  | _ => 0
  end.

(** What a thread that stands at a stage has behind it: its request
    was handed over; the text it holds is speech that was sent. *)
Definition stage_sound (a : t) (audio_data : bytes) (stage : Stage) : Prop :=
  match stage with
  | awaiting =>
      exists request,
        request ∈ OpenAIClient.requests (openai_client a)
        /\ OpenAIClient.file request = audio_data
  | logging text =>
      records_speech a (mkInteraction audio_data text "transcribe")
  | _ => True
  end.

(** What holds of a running application at every moment: the texts on
    the clipboard, with those the threads are about to copy, are among
    the logged transcriptions, each counted as often as it occurs. *)
Record deliveries_logged (r : Running) : Prop := mkDeliveries {
  clipboard_logged :
    clipboard (app r) ++ (stages r ≫= about_to_copy)
    ⊆+ (logged_transcription <$> conversation_logger (app r));
  logged_speech :
    Forall (records_speech (app r)) (conversation_logger (app r));
  threads_sound :
    forall n audio_data stage,
      processing_threads (app r) !! n = Some audio_data ->
      stages r !! n = Some stage ->
      stage_sound (app r) audio_data stage;
  logged_count :
    (length (conversation_logger (app r))
     + sum_list_with request_out (stages r)
     <= length (OpenAIClient.requests (openai_client (app r))))%nat;
  stages_aligned :
    length (stages r) = length (processing_threads (app r))
}.

Lemma insert_Permutation {A : Type} (l : list A) (i : nat) (x y : A) :
  l !! i = Some x -> <[i := y]> l ≡ₚ y :: delete i l.
Proof.
  revert i. induction l as [|z l IH]; intros [|i] H; try discriminate.
  - reflexivity.
  - cbn in H |- *. rewrite (IH i H). apply perm_swap.
Qed.

(** What is taken out of one part of a multiset and put into another
    stays inside a multiset that grows by as much. *)
Lemma submseteq_exchange {A : Type} (kept others taken put added inside new
    : list A) :
  kept ++ taken ++ others ⊆+ inside ->
  added ++ put ⊆+ taken ++ new ->
  (kept ++ added) ++ put ++ others ⊆+ inside ++ new.
Proof.
  intros H1 H2.
  transitivity ((added ++ put) ++ kept ++ others).
  { apply Permutation_submseteq.
    rewrite <- !app_assoc. rewrite (app_assoc added put others).
    rewrite Permutation_app_swap_app. now rewrite <- app_assoc. }
  transitivity ((taken ++ new) ++ kept ++ others).
  { apply submseteq_app; [exact H2|reflexivity]. }
  transitivity (new ++ kept ++ taken ++ others).
  { apply Permutation_submseteq.
    rewrite <- app_assoc. rewrite Permutation_app_swap_app.
    apply Permutation_app_head, Permutation_app_swap_app. }
  rewrite (Permutation_app_comm inside new).
  now apply submseteq_skips_l.
Qed.

Lemma records_speech_more (a b : t)
    (new_requests : list OpenAIClient.TranscriptionRequest) (i : Interaction) :
  OpenAIClient.requests (openai_client b)
  = OpenAIClient.requests (openai_client a) ++ new_requests ->
  records_speech a i -> records_speech b i.
Proof.
  intros Hr (H1 & H2 & H3 & q & Hq & Hf).
  repeat split; try assumption.
  exists q. split; [|exact Hf]. rewrite Hr. apply elem_of_app. now left.
Qed.

Lemma stage_sound_more (a b : t)
    (new_requests : list OpenAIClient.TranscriptionRequest)
    (audio_data : bytes) (stage : Stage) :
  OpenAIClient.requests (openai_client b)
  = OpenAIClient.requests (openai_client a) ++ new_requests ->
  stage_sound a audio_data stage -> stage_sound b audio_data stage.
Proof.
  intros Hr. destruct stage; cbn [stage_sound]; trivial.
  - intros (q & Hq & Hf). exists q. split; [|exact Hf].
    rewrite Hr. apply elem_of_app. now left.
  - now apply records_speech_more with new_requests.
Qed.

(** A thread goes on to its next stage.  What the step adds to the
    requests, the conversation log and the clipboard is accounted for:
    a text is copied only if the thread was about to copy it, an
    interaction is logged only for a request that was out. *)
Lemma thread_goes_on (r : Running) (n : nat) (audio_data : bytes)
    (stage next : Stage) (after : t)
    (new_requests : list OpenAIClient.TranscriptionRequest)
    (new_logged : list Interaction) (new_copied : list string) :
  deliveries_logged r ->
  processing_threads (app r) !! n = Some audio_data ->
  stages r !! n = Some stage ->
  processing_threads after = processing_threads (app r) ->
  OpenAIClient.requests (openai_client after)
  = OpenAIClient.requests (openai_client (app r)) ++ new_requests ->
  conversation_logger after = conversation_logger (app r) ++ new_logged ->
  clipboard after = clipboard (app r) ++ new_copied ->
  new_copied ++ about_to_copy next
  ⊆+ about_to_copy stage ++ (logged_transcription <$> new_logged) ->
  Forall (records_speech after) new_logged ->
  stage_sound after audio_data next ->
  (length new_logged + request_out next
   <= request_out stage + length new_requests)%nat ->
  deliveries_logged (mkRunning after (<[n := next]> (stages r))).
Proof.
  intros [Hc Hl Ht Hn Ha] Hthread Hstage Hthreads Hreq Hlog Hcb Hcopy Hnew
    Hsound Hcount.
  pose proof (delete_Permutation _ _ _ Hstage) as Hold.
  pose proof (insert_Permutation _ _ _ next Hstage) as Hins.
  constructor; cbn [app stages].
  - rewrite Hcb, Hlog, fmap_app, Hins. rewrite Hold in Hc.
    rewrite bind_cons in Hc |- *.
    now apply submseteq_exchange with (about_to_copy stage).
  - rewrite Hlog. apply Forall_app. split; [|exact Hnew].
    eapply Forall_impl; [exact Hl|].
    intros i. now apply records_speech_more with new_requests.
  - intros m audio' stage' Hm Hs. rewrite Hthreads in Hm.
    destruct (decide (m = n)) as [->|Hne].
    + rewrite list_lookup_insert_eq in Hs
        by (now apply lookup_lt_Some in Hstage).
      injection Hs as <-. rewrite Hthread in Hm. now injection Hm as <-.
    + rewrite list_lookup_insert_ne in Hs by congruence.
      apply stage_sound_more with (app r) new_requests; [exact Hreq|].
      now apply (Ht m).
  - rewrite Hlog, Hreq, !length_app.
    rewrite (sum_list_with_Permutation_proper request_out _ _ Hins).
    rewrite (sum_list_with_Permutation_proper request_out _ _ Hold) in Hn.
    cbn [sum_list_with] in Hn |- *. lia.
  - rewrite length_insert, Hthreads. exact Ha.
Qed.

(** A thread ends: it is gone from the threads in flight, and the
    threads behind it move up. *)
Lemma thread_ends (r : Running) (n : nat) (after : t) :
  deliveries_logged r ->
  stages r !! n = Some finishing ->
  processing_threads after = processing_threads (app r) ->
  openai_client after = openai_client (app r) ->
  conversation_logger after = conversation_logger (app r) ->
  clipboard after = clipboard (app r) ->
  deliveries_logged
    (mkRunning
       (set_processing_threads after (delete n (processing_threads after)))
       (delete n (stages r))).
Proof.
  intros [Hc Hl Ht Hn Ha] Hstage Hthreads Hclient Hlog Hcb.
  pose proof (delete_Permutation _ _ _ Hstage) as Hold.
  constructor;
    cbn [app stages clipboard conversation_logger openai_client
         processing_threads set_processing_threads].
  - rewrite Hcb, Hlog. rewrite Hold in Hc. exact Hc.
  - rewrite Hlog. eapply Forall_impl; [exact Hl|].
    intros i. unfold records_speech.
    cbn [openai_client set_processing_threads]. now rewrite Hclient.
  - intros m audio' stage' Hm Hs. rewrite Hthreads in Hm.
    assert (Hsound : stage_sound (app r) audio' stage').
    { destruct (Nat.lt_ge_cases m n) as [Hlt|Hge].
      - rewrite list_lookup_delete_lt in Hm by exact Hlt.
        rewrite list_lookup_delete_lt in Hs by exact Hlt.
        now apply (Ht m).
      - rewrite list_lookup_delete_ge in Hm by exact Hge.
        rewrite list_lookup_delete_ge in Hs by exact Hge.
        now apply (Ht (S m)). }
    destruct stage'; cbn [stage_sound] in *; trivial;
      unfold records_speech in *;
      cbn [openai_client set_processing_threads]; now rewrite Hclient.
  - rewrite Hlog, Hclient.
    rewrite (sum_list_with_Permutation_proper request_out _ _ Hold) in Hn.
    cbn [sum_list_with request_out] in Hn. lia.
  - assert (Hlt : (n < length (stages r))%nat)
      by (apply lookup_lt_is_Some; eauto).
    rewrite Hthreads, !length_delete, Ha; [reflexivity| |eauto].
    apply lookup_lt_is_Some. now rewrite <- Ha.
Qed.

(** The main thread, the hotkey thread and the capture thread leave the
    requests, the conversation log and the clipboard alone; the main
    thread can start processing threads. *)
Lemma settle_deliveries (r : Running) (after : t) (new_threads : list bytes) :
  deliveries_logged r ->
  processing_threads after = processing_threads (app r) ++ new_threads ->
  openai_client after = openai_client (app r) ->
  conversation_logger after = conversation_logger (app r) ->
  clipboard after = clipboard (app r) ->
  deliveries_logged (settle after (stages r)).
Proof.
  intros [Hc Hl Ht Hn Ha] Hthreads Hclient Hlog Hcb.
  unfold settle. rewrite Hthreads, length_app, Ha.
  replace (length (processing_threads (app r)) + length new_threads
           - length (processing_threads (app r)))%nat
    with (length new_threads) by lia.
  assert (Hnone : forall k, replicate k started ≫= about_to_copy = []).
  { induction k as [|k IH]; [reflexivity|exact IH]. }
  assert (Hzero : forall k, sum_list_with request_out (replicate k started)
                            = 0%nat).
  { induction k as [|k IH]; [reflexivity|exact IH]. }
  constructor; cbn [app stages].
  - rewrite Hcb, Hlog, bind_app, Hnone, app_nil_r. exact Hc.
  - rewrite Hlog. eapply Forall_impl; [exact Hl|].
    intros i. unfold records_speech. now rewrite Hclient.
  - intros m audio' stage' Hm Hs. rewrite Hthreads in Hm.
    destruct (Nat.lt_ge_cases m (length (stages r))) as [Hlt|Hge].
    + rewrite lookup_app_l in Hs by exact Hlt.
      rewrite lookup_app_l in Hm by (rewrite <- Ha; exact Hlt).
      pose proof (Ht m _ _ Hm Hs) as Hsound.
      destruct stage'; cbn [stage_sound] in *; trivial;
        unfold records_speech in *; now rewrite Hclient.
    + rewrite lookup_app_r in Hs by exact Hge.
      apply lookup_replicate in Hs as [-> _]. exact I.
  - rewrite Hlog, Hclient, sum_list_with_app, Hzero. lia.
  - rewrite length_app, length_replicate, Hthreads, length_app, Ha.
    reflexivity.
Qed.

Lemma recording_branch_keeps_client (a : t) (hardware : Hardware) :
  openai_client (ControllerProperties.recording_branch a hardware)
  = openai_client a.
Proof.
  unfold ControllerProperties.recording_branch,
    _start_recording_main_thread, _stop_recording_main_thread.
  destruct (_pending_start_recording a && negb (is_recording a)).
  - goal_simpl. destruct (is_recording a); [reflexivity|].
    destruct (validate_api_key (config a)); goal_simpl; [|reflexivity].
    now destruct (AudioRecorder.start_recording _ _) as [r [u|e]].
  - destruct (_pending_stop_recording a && is_recording a); [|reflexivity].
    goal_simpl. destruct (is_recording a); goal_simpl; [|reflexivity].
    now destruct (AudioRecorder.stop_recording _ _) as [r d].
Qed.

(** The timer's start-or-stop branch starts at most one thread. *)
Lemma recording_branch_threads (a : t) (hardware : Hardware) :
  exists new_threads,
    processing_threads (ControllerProperties.recording_branch a hardware)
    = processing_threads a ++ new_threads.
Proof.
  unfold ControllerProperties.recording_branch,
    _start_recording_main_thread, _stop_recording_main_thread.
  destruct (_pending_start_recording a && negb (is_recording a)).
  - exists []. rewrite app_nil_r. goal_simpl.
    destruct (is_recording a); [reflexivity|].
    destruct (validate_api_key (config a)); goal_simpl; [|reflexivity].
    now destruct (AudioRecorder.start_recording _ _) as [r [u|e]].
  - destruct (_pending_stop_recording a && is_recording a);
      [|exists []; now rewrite app_nil_r].
    goal_simpl. destruct (is_recording a); goal_simpl;
      [|exists []; now rewrite app_nil_r].
    destruct (AudioRecorder.stop_recording _ _) as [r d].
    now exists [d].
Qed.

Lemma toggle_recording_keeps (a : t) (hardware : Hardware) :
  clipboard (_toggle_recording a hardware) = clipboard a
  /\ conversation_logger (_toggle_recording a hardware)
     = conversation_logger a
  /\ openai_client (_toggle_recording a hardware) = openai_client a
  /\ exists new_threads,
       processing_threads (_toggle_recording a hardware)
       = processing_threads a ++ new_threads.
Proof.
  unfold _toggle_recording, _start_recording, _stop_recording.
  destruct (is_recording a); goal_simpl.
  - destruct (AudioRecorder.stop_recording _ _) as [r d].
    repeat split. now exists [d].
  - assert (Hnone : exists new_threads : list bytes,
               processing_threads a = processing_threads a ++ new_threads)
      by (exists []; now rewrite app_nil_r).
    destruct (validate_api_key (config a)); goal_simpl; [|now repeat split].
    now destruct (AudioRecorder.start_recording _ _) as [r [u|e]].
Qed.

(** The side conditions of [thread_goes_on] that are plain
    bookkeeping. *)
Ltac accounted :=
  try assumption; try reflexivity;
  goal_simpl; rewrite ?app_nil_r;
  first [reflexivity | exact I | apply List.Forall_nil | lia
        | apply submseteq_nil_l | idtac].

(** A thread's step, stage by stage. *)
Lemma thread_runs_at_deliveries (r : Running) (n : nat)
    (world : Collaborators) :
  deliveries_logged r -> deliveries_logged (thread_runs_at r n world).
Proof.
  intros Hr. unfold thread_runs_at.
  destruct (processing_threads (app r) !! n) as [audio_data|] eqn:Hthread;
    [|exact Hr].
  destruct (stages r !! n) as [stage|] eqn:Hstage; [|exact Hr].
  pose proof (threads_sound r Hr n audio_data stage Hthread Hstage) as Hsound.
  set (a := app r) in *.
  destruct stage as [| | |text|text|text|e|]; cbn [thread_step].
  - (* the transcribing state is asked for *)
    apply (thread_goes_on r n audio_data started requesting _ [] [] []);
      accounted.
  - (* the request is handed over *)
    apply (thread_goes_on r n audio_data requesting awaiting _
             [request_of a audio_data] [] []); accounted.
    exists (request_of a audio_data). split.
    + apply elem_of_app. right. now apply list_elem_of_singleton.
    + unfold request_of.
      now destruct (ClientProperties.api_params_fields audio_data
                      (openai_model_transcribe (config a))
                      (language_param (config a))) as (_ & -> & _).
  - (* the answer arrives *)
    cbn [stage_sound] in Hsound. destruct Hsound as (q & Hq & Hf).
    unfold transcribe_audio_return.
    destruct (service world _) as [response|e]; unfold ret, raise.
    + destruct (Py.truthy (Py.strip response)
                && Py.truthy (Py.strip (Py.strip response))) eqn:Ht.
      * apply andb_true_iff in Ht as [Ht _].
        apply (thread_goes_on r n audio_data awaiting
                 (logging (Py.strip response)) _ [] [] []); accounted.
        repeat split.
        -- now apply truthy_iff.
        -- apply PyProperties.strip_idempotent.
        -- now exists q.
      * apply (thread_goes_on r n audio_data awaiting finishing _ [] [] []);
          accounted.
    + apply (thread_goes_on r n audio_data awaiting (failing e) _ [] [] []);
        accounted.
  - (* the interaction is logged *)
    destruct (log_interaction world) as [u|e].
    + apply (thread_goes_on r n audio_data (logging text) (inserting text) _
               [] [mkInteraction audio_data text "transcribe"] []);
        accounted.
      constructor; [exact Hsound|constructor].
    + apply (thread_goes_on r n audio_data (logging text) (failing e) _
               [] [] []); accounted.
  - (* the text is copied *)
    destruct (negb (Py.truthy text) || negb (Py.truthy (Py.strip text))).
    + apply (thread_goes_on r n audio_data (inserting text) finishing _
               [] [] []); accounted.
    + destruct (set_clipboard_content world).
      * apply (thread_goes_on r n audio_data (inserting text)
                 (notifying text) _ [] [] [text]); accounted.
      * apply (thread_goes_on r n audio_data (inserting text) finishing _
                 [] [] []); accounted.
  - (* the notification is shown *)
    apply (thread_goes_on r n audio_data (notifying text) finishing _
             [] [] []); accounted.
  - (* the except clause *)
    apply (thread_goes_on r n audio_data (failing e) finishing _ [] [] []);
      accounted.
  - (* the finally clause *)
    now apply thread_ends.
Qed.

Lemma step_deliveries (r : Running) (e : Event) :
  deliveries_logged r -> deliveries_logged (step r e).
Proof.
  intros Hr. set (a := app r).
  destruct e as [key|hardware|hardware|in_data|n world]; cbn [step];
    fold a.
  - apply (settle_deliveries r _ []); [exact Hr|..]; fold a;
      unfold _handle_hotkey; goal_simpl; rewrite ?app_nil_r;
      now destruct (is_recording a).
  - rewrite MenuProperties.timer_branches.
    destruct (RunProperties.transcribing_branch_same
                (ControllerProperties.recording_branch a hardware)).
    destruct (ControllerProperties.recording_branch_same a hardware).
    destruct (recording_branch_threads a hardware) as [new_threads Hnew].
    apply (settle_deliveries r _ new_threads); [exact Hr|..]; fold a;
      try congruence.
    rewrite but_client. apply recording_branch_keeps_client.
  - destruct (toggle_recording_keeps a hardware)
      as (H1 & H2 & H3 & new_threads & H4).
    now apply (settle_deliveries r _ new_threads).
  - apply (settle_deliveries r _ []); [exact Hr|..]; fold a;
      rewrite ?app_nil_r; reflexivity.
  - now apply thread_runs_at_deliveries.
Qed.

(** Two dictations whose threads overlap.  The first thread logs its
    text, then the second logs and copies its own, and only then does
    the first copy: the clipboard receives the texts in the other
    order than the conversation log. *)
Definition first_hears : Collaborators :=
  mkCollaborators (fun _ => inl "first") (inl ()) true.

Definition second_hears : Collaborators :=
  mkCollaborators (fun _ => inl "second") (inl ()) true.

Definition overlapping_dictations : list Event :=
  [hotkey_activated "right_cmd"; timer_fires working;
   buffer_captured [x01; x00];
   hotkey_activated "right_cmd"; timer_fires working;
   hotkey_activated "right_cmd"; timer_fires working;
   buffer_captured [x02; x00];
   hotkey_activated "right_cmd"; timer_fires working]
  ++ replicate 4 (thread_runs 0 first_hears)
  ++ replicate 5 (thread_runs 1 second_hears)
  ++ [thread_runs 0 first_hears].

Lemma later_text_copied_first :
  let app := run (__init__ (DEFAULT_CONFIG "sk-test")) overlapping_dictations in
  logged_transcription <$> conversation_logger app = ["first"; "second"]
  /\ clipboard app = ["second"; "first"].
Proof. split; reflexivity. Qed.

(** X23: nothing reaches the clipboard that was not logged and sent.
    After every run of events from the start of the application, in
    whatever order the processing threads take their steps, every text
    on the clipboard is the transcription of an interaction in the
    conversation log, a text that is on the clipboard several times
    being in the log at least as often; every interaction in that log
    has a text that is not empty and has no surrounding white space,
    the mode "transcribe", and as its audio the file of a request that
    was handed to the service; and no more interactions are logged than
    requests were made. *)
Theorem delivered_texts_were_logged (config_arg : Config)
    (events : list Event) :
  let app := run (__init__ config_arg) events in
  clipboard app ⊆+ (logged_transcription <$> conversation_logger app)
  /\ Forall (records_speech app) (conversation_logger app)
  /\ (length (conversation_logger app)
      <= length (OpenAIClient.requests (openai_client app)))%nat.
Proof.
  cbv zeta. unfold run.
  assert (H : deliveries_logged (exec (boot (__init__ config_arg)) events)).
  { apply RunProperties.exec_invariant; [|apply step_deliveries].
    constructor; cbn; try constructor. intros n ? ? Hn.
    now rewrite lookup_nil in Hn. }
  destruct H as [Hc Hl _ Hn _]. split; [|split; [exact Hl|lia]].
  etransitivity; [|exact Hc]. now apply submseteq_inserts_r.
Qed.

End DeliveryProperties.

(** ** One dictation, from the first activation to the clipboard *)

Module DictationCycle.

Import SpeechTideApp SpeechTideMenu.
Local Open Scope string_scope.
Local Open Scope list_scope.

Ltac goal_simpl :=
  cbn -[validate_api_key Py.strip Py.truthy AudioRecorder.start_recording
        AudioRecorder.stop_recording OpenAIClient.transcribe_audio
        OpenAIClient.api_params AudioRecorder._audio_callback
        AudioRecorder.__init__ AudioRecorder.capture].

Lemma exec_app (r : Running) (events events' : list Event) :
  exec r (events ++ events') = exec (exec r events) events'.
Proof. apply fold_left_app. Qed.

(** The capture thread delivering whole-sample buffers to a recording
    recorder: the callback runs once per buffer and never raises. *)
Lemma exec_buffers (buffers : list bytes) (a : t) :
  AudioRecorder.is_recording (audio_recorder a) = true ->
  RecorderSequences.whole_samples buffers ->
  processing_threads a = [] ->
  exec (mkRunning a []) (map buffer_captured buffers)
  = mkRunning
      (set_audio_recorder a (AudioRecorder.capture (audio_recorder a) buffers))
      [].
Proof.
  intros Hrec Hwhole. revert a Hrec.
  induction Hwhole as [|b buffers Hb _ IH]; intros a Hrec Hthreads.
  - now destruct a.
  - cbn [map exec fold_left step AudioRecorder.capture app stages].
    destruct (RecorderSequences.audio_callback_even (audio_recorder a) b
                (AudioRecorder.chunk_size (audio_recorder a)) Hrec Hb)
      as (after & Hrun & _ & Hr & _).
    unfold audio_arrives, settle. rewrite Hrun. cbn [fst].
    cbn [processing_threads set_audio_recorder]. rewrite Hthreads.
    change (exec (mkRunning (set_audio_recorder a after) [])
              (map buffer_captured buffers)
            = mkRunning
                (set_audio_recorder a (AudioRecorder.capture after buffers))
                []).
    rewrite IH by (exact Hr || exact Hthreads). reflexivity.
Qed.

(** The callback leaves the recorder's parameters and its stream
    alone. *)
Record same_parameters (r r' : AudioRecorder.t) : Prop := mkSameParameters {
  same_channels : AudioRecorder.channels r' = AudioRecorder.channels r;
  same_sample_rate : AudioRecorder.sample_rate r' = AudioRecorder.sample_rate r;
  same_format : AudioRecorder.format r' = AudioRecorder.format r;
  same_audio_stream :
    AudioRecorder.audio_stream r' = AudioRecorder.audio_stream r
}.

Lemma audio_callback_parameters (r : AudioRecorder.t) (in_data : bytes)
    (frame_count : Z) :
  same_parameters r (fst (AudioRecorder._audio_callback r in_data frame_count)).
Proof.
  unfold AudioRecorder._audio_callback.
  destruct (AudioRecorder.is_recording r); [|now constructor].
  destruct (AudioRecorder.np_frombuffer_int16 in_data) as [arr|e];
    [|now constructor].
  cbn [AudioRecorder.volume_callback AudioRecorder.set_current_volume
       AudioRecorder.set_audio_data].
  destruct (AudioRecorder.volume_callback r) as [callback|];
    [|now constructor].
  destruct (callback _); now constructor.
Qed.

Lemma capture_parameters (buffers : list bytes) (r : AudioRecorder.t) :
  same_parameters r (AudioRecorder.capture r buffers).
Proof.
  revert r. induction buffers as [|b buffers IH]; intros r;
    [now constructor|].
  cbn [AudioRecorder.capture].
  pose proof (audio_callback_parameters r b (AudioRecorder.chunk_size r))
    as [H1 H2 H3 H4].
  destruct (AudioRecorder._audio_callback r b _) as [r' [ok|e]];
    cbn [fst] in *.
  - destruct (IH r') as [I1 I2 I3 I4]. constructor; congruence.
  - now constructor.
Qed.

Lemma start_recording_ok (r : AudioRecorder.t) :
  AudioRecorder.is_recording r = false ->
  let r1 := fst (AudioRecorder.start_recording r (inl ())) in
  AudioRecorder.start_recording r (inl ()) = (r1, inl ())
  /\ AudioRecorder.is_recording r1 = true
  /\ AudioRecorder.audio_data r1 = []
  /\ AudioRecorder.audio_stream r1 = true
  /\ AudioRecorder.channels r1 = AudioRecorder.channels r
  /\ AudioRecorder.sample_rate r1 = AudioRecorder.sample_rate r
  /\ AudioRecorder.format r1 = AudioRecorder.format r.
Proof.
  intros H. unfold AudioRecorder.start_recording. rewrite H.
  cbn. repeat split.
Qed.

(** The application after the first activation and the timer run that
    follows it. *)
Lemma stage_recording (config_arg : Config) (key : string) :
  validate_api_key config_arg = true ->
  exists lg,
    exec (boot (__init__ config_arg))
      [hotkey_activated key; timer_fires working]
    = mkRunning
        (mk config_arg true false false false false false
           (fst (AudioRecorder.start_recording
                   (AudioRecorder.__init__ (audio config_arg)) (inl ())))
           (OpenAIClient.__init__ (openai_api_key config_arg)
              (openai_base_url config_arg))
           [] [] [] icon_recording [] lg)
        [].
Proof.
  intros Hv.
  destruct (start_recording_ok (AudioRecorder.__init__ (audio config_arg))
              eq_refl) as (Hs & _).
  cbv zeta in Hs.
  set (r1 := fst (AudioRecorder.start_recording _ _)) in *.
  unfold exec, boot, settle, __init__. cbn [fold_left step app stages].
  unfold settle, _handle_hotkey, _process_pending_ui_operations,
    _start_recording_main_thread, _update_menu_state.
  goal_simpl. rewrite Hv. goal_simpl. rewrite Hs. goal_simpl.
  eexists. reflexivity.
Qed.

(** The recording is stopped by the next activation and timer run:
    the recorder's WAV container goes to a new processing thread, which
    has not run yet. *)
Lemma stage_stopped (config_arg : Config) (key : string)
    (r : AudioRecorder.t) (c : OpenAIClient.t) (lg : list LogRecord) :
  validate_api_key config_arg = true ->
  AudioRecorder.is_recording r = true ->
  AudioRecorder.audio_data r <> [] ->
  RecorderProperties.header_fits r ->
  exists lg',
    exec (mkRunning
            (mk config_arg true false false false false false r c
               [] [] [] icon_recording [] lg)
            [])
      [hotkey_activated key; timer_fires working]
    = mkRunning
        (mk config_arg false false false false false false
           (fst (AudioRecorder.stop_recording r (inl ()))) c [] []
           [WaveProperties.container (AudioRecorder.channels r)
              (AudioRecorder.sample_rate r)
              (AudioRecorder.get_sample_size (AudioRecorder.format r))
              (concat (AudioRecorder.audio_data r))]
           icon_idle [] lg')
        [started].
Proof.
  intros Hv Hrec Hdata Hfit.
  pose proof (RecorderStopping.stop_recording_returns r (inl ()) Hrec Hfit)
    as Hret.
  rewrite andb_false_r in Hret.
  destruct (AudioRecorder.audio_data r) as [|b bs] eqn:E; [contradiction|].
  unfold exec. cbn [fold_left step app stages].
  unfold settle, _handle_hotkey, _process_pending_ui_operations,
    _stop_recording_main_thread, _update_menu_state.
  goal_simpl.
  destruct (AudioRecorder.stop_recording r (inl ())) as [r' d].
  cbn [fst snd] in *. subst d. goal_simpl. rewrite Hv. goal_simpl.
  eexists. reflexivity.
Qed.

(** The processing thread takes its first step and the timer shows the
    transcribing state. *)
Lemma stage_transcribing (config_arg : Config) (r : AudioRecorder.t)
    (c : OpenAIClient.t) (wav : bytes) (lg : list LogRecord)
    (world : Collaborators) :
  validate_api_key config_arg = true ->
  exists lg',
    exec (mkRunning
            (mk config_arg false false false false false false r c
               [] [] [wav] icon_idle [] lg)
            [started])
      [thread_runs 0 world; timer_fires working]
    = mkRunning
        (mk config_arg false true false false false false r c
           [] [] [wav] icon_transcribing [] lg')
        [requesting].
Proof.
  intros Hv. unfold exec. cbn [fold_left step].
  unfold thread_runs_at. cbn [app stages processing_threads lookup
    list_lookup thread_step].
  unfold settle, _process_pending_ui_operations, _update_menu_state.
  goal_simpl. rewrite Hv. goal_simpl. eexists. reflexivity.
Qed.

Lemma process_audio_end_transcribing (a : t) (audio_data : bytes)
    (world : Collaborators) :
  is_transcribing (_process_audio_end a audio_data world) = is_transcribing a
  /\ _pending_set_transcribing (_process_audio_end a audio_data world)
     = _pending_set_transcribing a.
Proof.
  unfold _process_audio_end, insert_text.
  destruct (OpenAIClient.transcribe_audio _ _ _ _ _) as [c [text|e]];
    goal_simpl; [|now split].
  destruct (Py.truthy text && Py.truthy (Py.strip text)) eqn:Hn;
    goal_simpl; [|now split].
  destruct (log_interaction world) as [u|e]; goal_simpl; [|now split].
  destruct (negb (Py.truthy text) || negb (Py.truthy (Py.strip text)));
    [now split|].
  destruct (set_clipboard_content world); now split.
Qed.

(** The timer run that follows the return of a processing thread, when
    no recording is running or requested: the application is idle, and
    the timer touches nothing of what the thread delivered. *)
Lemma timer_after_return (s : t) (hardware : Hardware) :
  validate_api_key (config s) = true ->
  is_recording s = false ->
  _pending_start_recording s = false ->
  _pending_stop_recording s = false ->
  _pending_set_transcribing s = false ->
  _pending_clear_transcribing s = true ->
  let after := _process_pending_ui_operations s hardware in
  session_state after = Idle
  /\ title after = icon_idle
  /\ openai_client after = openai_client s
  /\ clipboard after = clipboard s
  /\ conversation_logger after = conversation_logger s
  /\ shown after = shown s
  /\ processing_threads after = processing_threads s.
Proof.
  intros Hv Hrec Hps Hpp Hset Hclear. cbv zeta.
  rewrite MenuProperties.timer_branches.
  assert (Hb : ControllerProperties.recording_branch s hardware = s).
  { unfold ControllerProperties.recording_branch. now rewrite Hps, Hpp. }
  rewrite Hb. unfold MenuProperties.transcribing_branch.
  rewrite Hset, Hclear. unfold session_state, _update_menu_state.
  goal_simpl. rewrite Hv, Hrec. now repeat split.
Qed.

(** The thread hands its request to the service, gets speech for an
    answer, logs the interaction, copies the text, shows the
    notification and returns; the timer run that follows leaves the
    application idle. *)
Lemma stage_finished (a : t) (wav : bytes) (world : Collaborators)
    (answer : string) (u : unit) :
  validate_api_key (config a) = true ->
  processing_threads a = [wav] ->
  is_recording a = false ->
  _pending_start_recording a = false ->
  _pending_stop_recording a = false ->
  _pending_set_transcribing a = false ->
  service world (DeliveryProperties.request_of a wav) = inl answer ->
  Py.strip answer <> "" ->
  log_interaction world = inl u ->
  set_clipboard_content world = true ->
  let finished :=
    exec (mkRunning a [requesting])
      (replicate 6 (thread_runs 0 world) ++ [timer_fires working]) in
  session_state (SpeechTideMenu.app finished) = Idle
  /\ title (SpeechTideMenu.app finished) = icon_idle
  /\ processing_threads (SpeechTideMenu.app finished) = []
  /\ stages finished = []
  /\ OpenAIClient.requests (openai_client (SpeechTideMenu.app finished))
     = OpenAIClient.requests (openai_client a)
       ++ [DeliveryProperties.request_of a wav]
  /\ conversation_logger (SpeechTideMenu.app finished)
     = conversation_logger a
       ++ [mkInteraction wav (Py.strip answer) "transcribe"]
  /\ clipboard (SpeechTideMenu.app finished)
     = clipboard a ++ [Py.strip answer]
  /\ shown (SpeechTideMenu.app finished)
     = shown a ++ [DeliveryProperties.ready_notification (Py.strip answer)].
Proof.
  intros Hv Hone Hrec Hps Hpp Hset Hservice Hspeech Hlog Hcopy finished.
  unfold finished.
  rewrite exec_app, (DeliveryProperties.exec_thread_alone 6 a wav) by exact Hone.
  rewrite DeliveryProperties.thread_alone_process_audio_end.
  destruct (DeliveryProperties.process_audio_end_fields a wav world)
    as (Hreq & Hclear & Hfields).
  cbv zeta in Hreq, Hclear, Hfields.
  apply DeliveryProperties.truthy_iff in Hspeech.
  rewrite Hservice, Hspeech, Hlog, Hcopy in Hfields.
  destruct Hfields as (Hcl & Hcb & Hsh).
  destruct (RunProperties.process_audio_end_same a wav world).
  destruct (process_audio_end_transcribing a wav world) as [_ Hset'].
  set (ended := _process_audio_end a wav world) in *.
  set (s := set_processing_threads ended []).
  assert (Hvalid : validate_api_key (config s) = true)
    by (cbn [s config set_processing_threads]; rewrite same_configuration;
        exact Hv).
  assert (H1 : is_recording s = false)
    by (cbn [s is_recording set_processing_threads]; congruence).
  assert (H2 : _pending_start_recording s = false)
    by (cbn [s _pending_start_recording set_processing_threads]; congruence).
  assert (H3 : _pending_stop_recording s = false)
    by (cbn [s _pending_stop_recording set_processing_threads]; congruence).
  assert (H4 : _pending_set_transcribing s = false)
    by (cbn [s _pending_set_transcribing set_processing_threads]; congruence).
  assert (H5 : _pending_clear_transcribing s = true)
    by (cbn [s _pending_clear_transcribing set_processing_threads];
        exact Hclear).
  destruct (timer_after_return s working Hvalid H1 H2 H3 H4 H5)
    as (F1 & F2 & F3 & F4 & F5 & F6 & F7).
  cbv zeta in F1, F2, F3, F4, F5, F6, F7.
  unfold exec. cbn [fold_left step SpeechTideMenu.app stages].
  unfold settle. cbn [SpeechTideMenu.app stages].
  rewrite F7. cbn [s processing_threads set_processing_threads length
    Nat.sub replicate Datatypes.app].
  rewrite F3, F4, F5, F6.
  cbn [s openai_client conversation_logger clipboard shown
       set_processing_threads].
  repeat split; assumption.
Qed.

(** X24: one dictation, end to end.  The application starts with a
    usable API key and working audio hardware.  An activation and a
    timer run start the recording; the capture thread delivers a
    non-empty sequence of whole-sample buffers; a second activation and
    timer run stop the recording and start a processing thread on the
    WAV container of exactly those buffers, in order, with the
    recorder's parameters; the thread asks for the transcribing state
    and the timer shows it; the thread hands over its one request, which
    carries that container, and the service answers it with speech; the
    thread logs the interaction, puts the stripped answer on the
    clipboard, announces it in the notification that quotes it, and
    returns; and the last timer run leaves the application idle, with
    no thread in flight. *)
Theorem dictation_cycle (config_arg : Config) (key key' : string)
    (buffers : list bytes) (world : Collaborators) (answer : string)
    (u : unit) :
  let r0 := AudioRecorder.__init__ (audio config_arg) in
  let wav :=
    WaveProperties.container (AudioRecorder.channels r0)
      (AudioRecorder.sample_rate r0)
      (AudioRecorder.get_sample_size (AudioRecorder.format r0))
      (concat buffers) in
  let request := DeliveryProperties.request_of (__init__ config_arg) wav in
  validate_api_key config_arg = true ->
  buffers <> [] ->
  RecorderSequences.whole_samples buffers ->
  WaveProperties.fits (AudioRecorder.channels r0) (AudioRecorder.sample_rate r0)
    (AudioRecorder.get_sample_size (AudioRecorder.format r0))
    (concat buffers) ->
  service world request = inl answer ->
  Py.strip answer <> "" ->
  log_interaction world = inl u ->
  set_clipboard_content world = true ->
  let recording :=
    exec (boot (__init__ config_arg))
      [hotkey_activated key; timer_fires working] in
  let stopped :=
    exec recording
      (map buffer_captured buffers
       ++ [hotkey_activated key'; timer_fires working]) in
  let transcribing :=
    exec stopped [thread_runs 0 world; timer_fires working] in
  let finished :=
    exec transcribing
      (replicate 6 (thread_runs 0 world) ++ [timer_fires working]) in
  (session_state (app recording) = Recording
   /\ title (app recording) = icon_recording)
  /\ (is_recording (app stopped) = false
      /\ processing_threads (app stopped) = [wav]
      /\ stages stopped = [started]
      /\ Wave.read_wav wav
         = Some (Wave.mkWav (AudioRecorder.channels r0)
                   (AudioRecorder.sample_rate r0)
                   (AudioRecorder.get_sample_size (AudioRecorder.format r0) * 8)
                   (concat buffers)))
  /\ (session_state (app transcribing) = Transcribing
      /\ title (app transcribing) = icon_transcribing
      /\ stages transcribing = [requesting])
  /\ (session_state (app finished) = Idle
      /\ title (app finished) = icon_idle
      /\ processing_threads (app finished) = []
      /\ stages finished = []
      /\ OpenAIClient.requests (openai_client (app finished)) = [request]
      /\ conversation_logger (app finished)
         = [mkInteraction wav (Py.strip answer) "transcribe"]
      /\ clipboard (app finished) = [Py.strip answer]
      /\ shown (app finished)
         = [notification "✅ SpeechTide - Text Ready"
              ("'" ++ Py.strip answer ++ "'")
              "Text copied to clipboard! Press Cmd+V to paste anywhere."]).
Proof.
  intros r0 wav request Hv Hne Hwhole Hfit Hservice Hspeech Hlog Hcopy.
  intros recording stopped transcribing finished.
  (* the recording starts *)
  destruct (stage_recording config_arg key Hv) as [lg1 H1].
  fold recording in H1. fold r0 in H1.
  destruct (start_recording_ok r0 eq_refl)
    as (_ & Hrec1 & Hdata1 & Hstream1 & Hch1 & Hrate1 & Hfmt1).
  cbv zeta in Hrec1, Hdata1, Hstream1, Hch1, Hrate1, Hfmt1.
  set (r1 := fst (AudioRecorder.start_recording r0 (inl ()))) in *.
  split. { rewrite H1. split; reflexivity. }
  (* the buffers arrive and the recording stops *)
  pose proof (RecorderSequences.capture_whole_samples r1 buffers Hrec1 Hwhole)
    as (Hdata2 & Hrec2 & _).
  rewrite Hdata1 in Hdata2. cbn [app] in Hdata2.
  destruct (capture_parameters buffers r1) as [Hch2 Hrate2 Hfmt2 _].
  set (r2 := AudioRecorder.capture r1 buffers) in *.
  assert (Hfit2 : RecorderProperties.header_fits r2).
  { unfold RecorderProperties.header_fits.
    rewrite Hch2, Hrate2, Hfmt2, Hch1, Hrate1, Hfmt1, Hdata2. exact Hfit. }
  assert (Hdata2' : AudioRecorder.audio_data r2 <> []) by now rewrite Hdata2.
  set (c0 := OpenAIClient.__init__ (openai_api_key config_arg)
               (openai_base_url config_arg)) in *.
  destruct (stage_stopped config_arg key' r2 c0 lg1 Hv Hrec2 Hdata2' Hfit2)
    as [lg2 H2].
  rewrite Hch2, Hrate2, Hfmt2, Hch1, Hrate1, Hfmt1, Hdata2 in H2.
  fold wav in H2.
  set (r3 := fst (AudioRecorder.stop_recording r2 (inl ()))) in *.
  assert (Hstopped : stopped
                     = mkRunning
                         (mk config_arg false false false false false false
                            r3 c0 [] [] [wav] icon_idle [] lg2)
                         [started]).
  { unfold stopped. rewrite exec_app, H1.
    rewrite exec_buffers by (cbn [audio_recorder]; assumption || reflexivity).
    exact H2. }
  split.
  { rewrite Hstopped. split; [reflexivity|]. split; [reflexivity|].
    split; [reflexivity|].
    now apply WaveProperties.read_wav_container. }
  (* the thread begins *)
  destruct (stage_transcribing config_arg r3 c0 wav lg2 world Hv)
    as [lg3 H3].
  rewrite <- Hstopped in H3. fold transcribing in H3.
  split. { rewrite H3. repeat split; reflexivity. }
  (* the thread goes through and returns *)
  set (a3 := mk config_arg false true false false false false r3 c0
               [] [] [wav] icon_transcribing [] lg3) in *.
  destruct (stage_finished a3 wav world answer u Hv eq_refl eq_refl eq_refl
              eq_refl eq_refl Hservice Hspeech Hlog Hcopy)
    as (F1 & F2 & F3 & F4 & F5 & F6 & F7 & F8).
  rewrite <- H3 in F1, F2, F3, F4, F5, F6, F7, F8.
  fold finished in F1, F2, F3, F4, F5, F6, F7, F8.
  repeat split; assumption.
Qed.

(** A world whose service hears "hello world" between white space of
    several kinds (a space in front; a no-break space, U+00A0, and an
    ideographic space, U+3000, behind), whose conversation logger
    works, and whose clipboard accepts the text. *)
Definition attentive_world : Collaborators :=
  mkCollaborators
    (fun _ => inl (" hello world" +:+ Py.chr 160 +:+ Py.chr 12288))
    (inl ()) true.

Lemma dictation_cycle_witness :
  let config_arg := DEFAULT_CONFIG "sk-test" in
  let buffers := [[x01; x00; xff; x7f]; [x00; x80; x10; x00]] in
  let r0 := AudioRecorder.__init__ (audio config_arg) in
  let wav :=
    WaveProperties.container (AudioRecorder.channels r0)
      (AudioRecorder.sample_rate r0)
      (AudioRecorder.get_sample_size (AudioRecorder.format r0))
      (concat buffers) in
  let request := DeliveryProperties.request_of (__init__ config_arg) wav in
  let recording :=
    exec (boot (__init__ config_arg))
      [hotkey_activated "right_cmd"; timer_fires working] in
  let stopped :=
    exec recording
      (map buffer_captured buffers
       ++ [hotkey_activated "right_cmd"; timer_fires working]) in
  let transcribing :=
    exec stopped [thread_runs 0 attentive_world; timer_fires working] in
  let finished :=
    exec transcribing
      (replicate 6 (thread_runs 0 attentive_world)
       ++ [timer_fires working]) in
  (session_state (app recording) = Recording
   /\ title (app recording) = icon_recording)
  /\ (is_recording (app stopped) = false
      /\ processing_threads (app stopped) = [wav]
      /\ stages stopped = [started]
      /\ Wave.read_wav wav
         = Some (Wave.mkWav (AudioRecorder.channels r0)
                   (AudioRecorder.sample_rate r0)
                   (AudioRecorder.get_sample_size (AudioRecorder.format r0) * 8)
                   (concat buffers)))
  /\ (session_state (app transcribing) = Transcribing
      /\ title (app transcribing) = icon_transcribing
      /\ stages transcribing = [requesting])
  /\ (session_state (app finished) = Idle
      /\ title (app finished) = icon_idle
      /\ processing_threads (app finished) = []
      /\ stages finished = []
      /\ OpenAIClient.requests (openai_client (app finished)) = [request]
      /\ conversation_logger (app finished)
         = [mkInteraction wav "hello world" "transcribe"]
      /\ clipboard (app finished) = ["hello world"]
      /\ shown (app finished)
         = [notification "✅ SpeechTide - Text Ready" "'hello world'"
              "Text copied to clipboard! Press Cmd+V to paste anywhere."]).
Proof.
  exact (dictation_cycle (DEFAULT_CONFIG "sk-test") "right_cmd" "right_cmd"
           [[x01; x00; xff; x7f]; [x00; x80; x10; x00]] attentive_world
           (" hello world" +:+ Py.chr 160 +:+ Py.chr 12288) ()
           eq_refl
           ltac:(discriminate)
           ltac:(repeat constructor)
           ltac:(change (WaveProperties.fits 1 16000 2
                           (concat [[x01; x00; xff; x7f];
                                    [x00; x80; x10; x00]]));
                 constructor; cbn; lia)
           eq_refl
           ltac:(vm_compute; discriminate)
           eq_refl
           eq_refl).
Defined.

End DictationCycle.

(** * The configuration manager ([src/config_manager.py]) *)

Module ConfigManager.

Local Open Scope string_scope.
Local Open Scope list_scope.

(** A configuration value: what [json.load] produces.  A dict is the
    list of its items in insertion order. *)
#[warnings="-register-all"] Inductive Json : Type :=
| JNull
| JBool (b : bool)
| JInt (z : Z)
| JFloat (q : Q)
| JStr (s : string)
| JList (l : list Json)
| JDict (items : list (string * Json)).

Definition Dict : Type := list (string * Json).

(** [d[key]] on a dict: the value, or nothing for a [KeyError]. *)
Fixpoint dict_get (d : Dict) (key : string) : option Json :=
  match d with
  | [] => None
  | (k, v) :: rest => if String.eqb k key then Some v else dict_get rest key
  end.

(** [d[key] = value] on a dict: an existing key keeps its place, a new
    key goes last. *)
Fixpoint dict_set (d : Dict) (key : string) (value : Json) : Dict :=
  match d with
  | [] => [(key, value)]
  | (k, v) :: rest =>
      if String.eqb k key then (k, value) :: rest
      else (k, v) :: dict_set rest key value
  end.

(** [key_path.split('.')]. *)
Fixpoint split (key_path : string) : list string :=
  match key_path with
  | EmptyString => [""]
  | String c rest =>
      if Ascii.eqb c "."%char then "" :: split rest
      else match split rest with
           | first :: others => String c first :: others
           | [] => [String c ""]
           end
  end.

(** The exceptions of this module. *)
Inductive Raised : Type :=
| KeyError
| TypeError
| IndexError
| AttributeError.

Inductive LogRecord : Type :=
| info (msg : string)
| error (msg : string).

(** The fields of [ConfigManager]. *)
Record t : Type := mk {
  config : Dict;
  logger : list LogRecord
}.

(** [ConfigManager.DEFAULT_CONFIG]. *)
Definition DEFAULT_CONFIG : Dict :=
  [("openai",
    JDict [("api_key", JStr "");
           ("base_url", JStr "https://api.openai.com/v1");
           ("model_realtime", JStr "gpt-4o-mini-realtime-preview");
           ("model_transcribe", JStr "gpt-4o-mini")]);
   ("hotkeys",
    JDict [("primary", JStr "right_cmd");
           ("secondary", JStr "right_option")]);
   ("ui",
    JDict [("window_position", JStr "bottom_center");
           ("show_animation", JBool true);
           ("auto_hide_delay", JFloat 2);
           ("floating_window",
            JDict [("width", JInt 400);
                   ("height", JInt 100);
                   ("opacity", JFloat (9 # 10))])]);
   ("audio",
    JDict [("sample_rate", JInt 16000);
           ("channels", JInt 1);
           ("chunk_size", JInt 1024);
           ("format", JStr "int16")]);
   ("behavior",
    JDict [("auto_start_threshold", JFloat (1 # 100));
           ("silence_timeout", JFloat 2);
           ("max_recording_duration", JFloat 60)]);
   ("logging",
    JDict [("enable_conversation_logging", JBool true);
           ("log_level", JStr "INFO");
           ("max_log_files", JInt 10)])].

(** The loop of [get]: [value = value[key]] for each key.  Indexing a
    dict with a missing key raises [KeyError]; indexing anything else
    with a string raises [TypeError]. *)
Fixpoint lookup (value : Json) (keys : list string) : Json + Raised :=
  match keys with
  | [] => inl value
  | key :: rest =>
      match value with
      | JDict d =>
          match dict_get d key with
          | Some v => lookup v rest
          | None => inr KeyError
          end
      | _ => inr TypeError
      end
  end.

(** [get]: the value at the path, or [default] when the loop raised
    [KeyError] or [TypeError]. *)
Definition get (self : t) (key_path : string) (default : Json) : Json :=
  let keys := split key_path in
  match lookup (JDict (config self)) keys with
  | inl value => value
  | inr _ => default
  end.

(** [set] below the dict [config_ref], done in place: the loop over
    [keys[:-1]] creates the dicts that are missing and steps into the
    value found, and the last key is assigned.  [key not in config_ref],
    [config_ref[key] = {}] and [config_ref[key]] on a value that is not
    a dict end in a [TypeError] one way or another.  The dict is
    returned as the call leaves it, also when it raises. *)
Fixpoint assign (config_ref : Dict) (keys : list string) (value : Json)
  : Dict * (unit + Raised) :=
  match keys with
  | [] => (config_ref, inr IndexError)
  | [key] => (dict_set config_ref key value, inl ())
  | key :: rest =>
      let config_ref :=
        match dict_get config_ref key with
        | None => dict_set config_ref key (JDict [])
        | Some _ => config_ref
        end in
      match dict_get config_ref key with
      | Some (JDict child) =>
          let '(child, outcome) := assign child rest value in
          (dict_set config_ref key (JDict child), outcome)
      | _ => (config_ref, inr TypeError)
      end
  end.

(** [set]. *)
Definition set (self : t) (key_path : string) (value : Json)
  : t * (unit + Raised) :=
  let keys := split key_path in
  match assign (config self) keys value with
  | (config', inl u) =>
      (mk config' (logger self ++ [info ("Configuration updated: " ++ key_path)]),
       inl u)
  | (config', inr e) => (mk config' (logger self), inr e)
  end.

(** Truth value of a configuration value. *)
Definition truthy (value : Json) : bool :=
  match value with
  | JNull => false
  | JBool b => b
  | JInt z => negb (z =? 0)%Z
  | JFloat q => negb (Qeq_bool q 0)
  | JStr s => Py.truthy s
  | JList l => match l with [] => false | _ => true end
  | JDict d => match d with [] => false | _ => true end
  end.

(** [validate_api_key]: [bool(api_key and api_key.strip())]; a truthy
    value that is not a string has no [strip]. *)
Definition validate_api_key (self : t) : bool + Raised :=
  let api_key := get self "openai.api_key" (JStr "") in
  if truthy api_key then
    match api_key with
    | JStr s => inl (Py.truthy (Py.strip s))
    | _ => inr AttributeError
    end
  else inl false.

(** [_merge_config]: for each item of [update], in order: when the key
    is in [base] and both values are dicts, the two are merged in place;
    otherwise the value of [update] is stored under the key. *)
Fixpoint merge_into (update : Json) (base : Dict) : Dict :=
  match update with
  | JDict items =>
      (fix each (items : list (string * Json)) (base : Dict) : Dict :=
         match items with
         | [] => base
         | (key, value) :: rest =>
             each rest
               match dict_get base key, value with
               | Some (JDict b), JDict _ =>
                   dict_set base key (JDict (merge_into value b))
               | _, _ => dict_set base key value
               end
         end) items base
  | _ => base
  end.

Definition _merge_config (base update : Dict) : Dict :=
  merge_into (JDict update) base.

(** [save_config]; [written] is what creating the directory and
    writing the file does.  The file itself is not part of the state. *)
Definition save_config (self : t) (written : unit + Raised) : t :=
  match written with
  | inl _ => mk (config self) (logger self ++ [info "Configuration saved"])
  | inr _ =>
      mk (config self) (logger self ++ [error "Error saving configuration"])
  end.

(** [load_config]; [file] is what the configuration file holds: no
    file, a file that cannot be opened or parsed, or the parsed value.
    A parsed value that is not a dict has no [items], and the
    [AttributeError] lands in the [except] clause like any other. *)
Definition load_config (self : t) (file : option (Json + Raised))
    (written : unit + Raised) : t :=
  match file with
  | Some (inl (JDict file_config)) =>
      mk (_merge_config (config self) file_config)
         (logger self ++ [info "Configuration loaded"])
  | Some (inl _) | Some (inr _) =>
      mk (config self)
         (logger self ++ [error "Error loading configuration";
                          info "Using default configuration"])
  | None =>
      save_config
        (mk (config self)
           (logger self
            ++ [info "Configuration file not found, using defaults"]))
        written
  end.

(** [__init__].  The program creates one [ConfigManager], so the
    nested dicts its shallow copy shares with [DEFAULT_CONFIG] are seen
    through it only. *)
Definition __init__ (file : option (Json + Raised))
    (written : unit + Raised) : t :=
  load_config (mk DEFAULT_CONFIG []) file written.

End ConfigManager.

Module ConfigProperties.

Import ConfigManager.
Local Open Scope string_scope.
Local Open Scope list_scope.

Lemma dict_get_set (d : Dict) (key : string) (value : Json) :
  dict_get (dict_set d key value) key = Some value.
Proof.
  induction d as [|[k v] d IH]; cbn.
  - now rewrite String.eqb_refl.
  - destruct (String.eqb k key) eqn:E; cbn; now rewrite E.
Qed.

Lemma dict_get_set_other (d : Dict) (key key' : string) (value : Json) :
  key <> key' ->
  dict_get (dict_set d key value) key' = dict_get d key'.
Proof.
  intros Hne. induction d as [|[k v] d IH]; cbn.
  - destruct (String.eqb_spec key key'); [contradiction|reflexivity].
  - destruct (String.eqb_spec k key) as [->|Hk]; cbn.
    + destruct (String.eqb_spec key key'); [contradiction|reflexivity].
    + destruct (String.eqb k key'); [reflexivity|exact IH].
Qed.

Lemma dict_set_get (d : Dict) (key : string) (value : Json) :
  dict_get d key = Some value -> dict_set d key value = d.
Proof.
  induction d as [|[k v] d IH]; cbn; [discriminate|].
  destruct (String.eqb k key); [now intros [= ->]|].
  intros H. now rewrite IH.
Qed.

Lemma dict_set_set (d : Dict) (key : string) (value value' : Json) :
  dict_set (dict_set d key value) key value' = dict_set d key value'.
Proof.
  induction d as [|[k v] d IH]; cbn.
  - now rewrite String.eqb_refl.
  - destruct (String.eqb k key) eqn:E; cbn; rewrite E; [reflexivity|].
    now rewrite IH.
Qed.

(** [split] never returns the empty list. *)
Lemma split_not_nil (key_path : string) : split key_path <> [].
Proof.
  destruct key_path as [|c rest]; cbn; [discriminate|].
  destruct (Ascii.eqb c "."); [discriminate|].
  destruct (split rest); discriminate.
Qed.

(** One step of [assign] on a path of two keys or more. *)
Lemma assign_step (d : Dict) (key key2 : string) (rest : list string)
    (value : Json) :
  assign d (key :: key2 :: rest) value
  = let d1 :=
      match dict_get d key with
      | None => dict_set d key (JDict [])
      | Some _ => d
      end in
    match dict_get d1 key with
    | Some (JDict child) =>
        let '(child, outcome) := assign child (key2 :: rest) value in
        (dict_set d1 key (JDict child), outcome)
    | _ => (d1, inr TypeError)
    end.
Proof. reflexivity. Qed.

(** The value is a dict. *)
Definition is_dict (value : Json) : bool :=
  match value with
  | JDict _ => true
  | _ => false
  end.

(** What [assign] meets at the first key of a longer path. *)
Inductive FirstKey (d : Dict) (key : string) : Type :=
| missing (Hget : dict_get d key = None)
| holds_dict (child : Dict) (Hget : dict_get d key = Some (JDict child))
| holds_other (x : Json) (Hget : dict_get d key = Some x)
    (Hother : is_dict x = false).

Lemma first_key (d : Dict) (key : string) : FirstKey d key.
Proof.
  destruct (dict_get d key) as [x|] eqn:E; [|now apply missing].
  destruct x; try (now apply (holds_other d key _ E)).
  now apply (holds_dict d key items).
Qed.

Lemma assign_missing (d : Dict) (key key2 : string) (rest : list string)
    (value : Json) :
  dict_get d key = None ->
  assign d (key :: key2 :: rest) value
  = (dict_set d key (JDict (fst (assign [] (key2 :: rest) value))),
     snd (assign [] (key2 :: rest) value)).
Proof.
  intros H. rewrite assign_step. cbv zeta. rewrite H, dict_get_set.
  destruct (assign [] (key2 :: rest) value) as [child outcome].
  cbn [fst snd]. now rewrite dict_set_set.
Qed.

Lemma assign_dict (d : Dict) (key key2 : string) (rest : list string)
    (value : Json) (child : Dict) :
  dict_get d key = Some (JDict child) ->
  assign d (key :: key2 :: rest) value
  = (dict_set d key (JDict (fst (assign child (key2 :: rest) value))),
     snd (assign child (key2 :: rest) value)).
Proof.
  intros H. rewrite assign_step. cbv zeta. rewrite H, H.
  now destruct (assign child (key2 :: rest) value) as [child' outcome].
Qed.

Lemma assign_other (d : Dict) (key key2 : string) (rest : list string)
    (value x : Json) :
  dict_get d key = Some x -> is_dict x = false ->
  assign d (key :: key2 :: rest) value = (d, inr TypeError).
Proof.
  intros H Hx. rewrite assign_step. cbv zeta. rewrite H, H.
  now destruct x.
Qed.

(** Below a dict that was just created nothing can go wrong. *)
Lemma assign_empty (keys : list string) (value : Json) :
  keys <> [] -> snd (assign [] keys value) = inl ().
Proof.
  induction keys as [|key [|key2 rest] IH]; intros Hne;
    [contradiction|reflexivity|].
  rewrite assign_missing by reflexivity. cbn [snd]. now apply IH.
Qed.

(** The path a successful [assign] has written leads to the value. *)
Lemma assign_lookup (keys : list string) (d : Dict) (value : Json) :
  snd (assign d keys value) = inl () ->
  lookup (JDict (fst (assign d keys value))) keys = inl value.
Proof.
  revert d. induction keys as [|key [|key2 rest] IH]; intros d Hok.
  - discriminate.
  - cbn. now rewrite dict_get_set.
  - destruct (first_key d key) as [Hget|child Hget|x Hget Hx].
    + rewrite assign_missing in * by exact Hget. cbn [fst snd] in *.
      cbn [lookup]. rewrite dict_get_set. now apply IH.
    + rewrite (assign_dict _ _ _ _ _ _ Hget) in *. cbn [fst snd] in *.
      cbn [lookup]. rewrite dict_get_set. now apply IH.
    + rewrite (assign_other _ _ _ _ _ _ Hget Hx) in Hok. discriminate.
Qed.

(** A failing [assign] has changed nothing. *)
Lemma assign_raises (keys : list string) (d : Dict) (value : Json)
    (e : Raised) :
  snd (assign d keys value) = inr e ->
  fst (assign d keys value) = d.
Proof.
  revert d. induction keys as [|key [|key2 rest] IH]; intros d Hraise.
  - reflexivity.
  - discriminate.
  - destruct (first_key d key) as [Hget|child Hget|x Hget Hx].
    + rewrite assign_missing in Hraise by exact Hget. cbn [snd] in Hraise.
      rewrite assign_empty in Hraise by discriminate. discriminate.
    + rewrite (assign_dict _ _ _ _ _ _ Hget) in *. cbn [fst snd] in *.
      rewrite (IH child Hraise). now apply dict_set_get.
    + now rewrite (assign_other _ _ _ _ _ _ Hget Hx).
Qed.

Lemma set_unfold (self : t) (key_path : string) (value : Json) :
  config (fst (set self key_path value))
  = fst (assign (config self) (split key_path) value)
  /\ snd (set self key_path value)
     = snd (assign (config self) (split key_path) value).
Proof.
  unfold set.
  now destruct (assign (config self) (split key_path) value) as [c [u|e]].
Qed.

(** A prefix of the path, not the whole path, leads to a value that
    is not a dict. *)
Definition blocked (d : Dict) (keys : list string) : Prop :=
  exists p q x,
    keys = p ++ q /\ p <> [] /\ q <> []
    /\ lookup (JDict d) p = inl x /\ is_dict x = false.

Lemma blocked_below (d child : Dict) (key : string) (keys : list string) :
  dict_get d key = Some (JDict child) ->
  blocked d (key :: keys) <-> blocked child keys.
Proof.
  intros Hget. split.
  - intros (p & q & x & Hk & Hp & Hq & Hl & Hx).
    destruct p as [|k p]; [contradiction|].
    injection Hk as <- ->. cbn [lookup] in Hl. rewrite Hget in Hl.
    destruct p as [|k' p]; [injection Hl as <-; discriminate|].
    exists (k' :: p), q, x. now repeat split.
  - intros (p & q & x & -> & Hp & Hq & Hl & Hx).
    exists (key :: p), q, x. repeat split; try assumption; try discriminate.
    cbn [lookup]. now rewrite Hget.
Qed.

Lemma assign_raises_iff (keys : list string) (d : Dict) (value : Json) :
  keys <> [] ->
  (snd (assign d keys value) = inr TypeError <-> blocked d keys)
  /\ (snd (assign d keys value) = inl ()
      \/ snd (assign d keys value) = inr TypeError).
Proof.
  revert d. induction keys as [|key [|key2 rest] IH]; intros d Hne.
  - contradiction.
  - split; [|now left]. split; [discriminate|].
    intros (p & q & x & Hk & Hp & Hq & _).
    destruct p as [|k [|k' p]], q; try contradiction; discriminate.
  - destruct (first_key d key) as [Hget|child Hget|x Hget Hx].
    + rewrite assign_missing by exact Hget. cbn [snd].
      rewrite assign_empty by discriminate.
      split; [|now left]. split; [discriminate|].
      intros (p & q & x & Hk & Hp & Hq & Hl & _).
      destruct p as [|k p]; [contradiction|]. injection Hk as <- _.
      cbn [lookup] in Hl. now rewrite Hget in Hl.
    + rewrite (assign_dict _ _ _ _ _ _ Hget). cbn [snd].
      rewrite (blocked_below d child key _ Hget).
      apply IH. discriminate.
    + rewrite (assign_other _ _ _ _ _ _ Hget Hx). cbn [snd].
      split; [|now right]. split; [|reflexivity]. intros _.
      exists [key], (key2 :: rest), x. repeat split; try discriminate.
      * cbn [lookup]. now rewrite Hget.
      * exact Hx.
Qed.

(** X25: when [set] raises.  [set] raises exactly when a proper prefix
    of the key path leads to a value that is not a dict; it then raises
    [TypeError] and leaves the configuration and the log as they were.
    In every other case it returns, creating the dicts that are
    missing. *)
Theorem set_raises_iff (self : t) (key_path : string) (value : Json) :
  ((exists e, snd (set self key_path value) = inr e)
   <-> blocked (config self) (split key_path))
  /\ (forall e, snd (set self key_path value) = inr e ->
                e = TypeError /\ fst (set self key_path value) = self).
Proof.
  destruct (set_unfold self key_path value) as [Hc Hs].
  destruct (assign_raises_iff (split key_path) (config self) value
              (split_not_nil key_path)) as [Hiff Hcases].
  rewrite <- Hs in Hiff, Hcases. split.
  - rewrite <- Hiff. split; [|intros H; now exists TypeError].
    intros [e He]. destruct Hcases as [H|H]; [congruence|exact H].
  - intros e He.
    assert (e = TypeError) as -> by (destruct Hcases; congruence).
    split; [reflexivity|].
    rewrite Hs in He. pose proof (assign_raises _ _ _ _ He) as Hsame.
    unfold set in *.
    destruct (assign (config self) (split key_path) value) as [c [u|e]];
      cbn [fst snd] in *; [discriminate|].
    subst c. now destruct self.
Qed.

(** The two paths part at some key. *)
Definition diverge (keys keys' : list string) : Prop :=
  exists p k k' q q',
    keys = p ++ k :: q /\ keys' = p ++ k' :: q' /\ k <> k'.

Lemma assign_first_other (d : Dict) (key key' : string)
    (rest : list string) (value : Json) :
  key <> key' ->
  dict_get (fst (assign d (key :: rest) value)) key' = dict_get d key'.
Proof.
  intros Hne. destruct rest as [|key2 rest].
  - cbn. now apply dict_get_set_other.
  - destruct (first_key d key) as [Hget|child Hget|x Hget Hx].
    + rewrite assign_missing by exact Hget. cbn [fst].
      now apply dict_get_set_other.
    + rewrite (assign_dict _ _ _ _ _ _ Hget). cbn [fst].
      now apply dict_get_set_other.
    + now rewrite (assign_other _ _ _ _ _ _ Hget Hx).
Qed.

Lemma lookup_empty (keys : list string) :
  keys <> [] -> lookup (JDict []) keys = inr KeyError.
Proof. destruct keys; [contradiction|reflexivity]. Qed.

Lemma assign_frame (p : list string) (k k' : string) (q q' : list string)
    (d : Dict) (value : Json) :
  k <> k' ->
  lookup (JDict (fst (assign d (p ++ k :: q) value))) (p ++ k' :: q')
  = lookup (JDict d) (p ++ k' :: q').
Proof.
  intros Hne. revert d. induction p as [|a p IH]; intros d.
  - cbn [app lookup]. now rewrite assign_first_other.
  - cbn [app]. destruct (p ++ k :: q) as [|key2 rest] eqn:E.
    { symmetry in E. now apply app_cons_not_nil in E. }
    destruct (first_key d a) as [Hget|child Hget|x Hget Hx].
    + rewrite assign_missing by exact Hget. cbn [fst lookup].
      rewrite dict_get_set, Hget, IH.
      apply lookup_empty. now destruct p.
    + rewrite (assign_dict _ _ _ _ _ _ Hget). cbn [fst lookup].
      now rewrite dict_get_set, Hget, IH.
    + now rewrite (assign_other _ _ _ _ _ _ Hget Hx).
Qed.

(** X26: [set] writes one path and nothing else.  When [set] returns
    without raising, [get] with the same key path gives the value that
    was set, whatever the path (its intermediate dicts are created when
    missing) and whatever default is passed; and for every key path that
    parts from the path set at some key, [get] returns what it returned
    before the [set]. *)
Theorem set_writes_one_path (self : t) (key_path : string) (value : Json) :
  snd (set self key_path value) = inl () ->
  let after := fst (set self key_path value) in
  (forall default, get after key_path default = value)
  /\ (forall key_path' default,
         diverge (split key_path) (split key_path') ->
         get after key_path' default = get self key_path' default).
Proof.
  intros Hok. cbv zeta.
  destruct (set_unfold self key_path value) as [Hc Hs]. split.
  - intros default. rewrite Hs in Hok. unfold get. rewrite Hc.
    now rewrite assign_lookup.
  - intros key_path' default (p & k & k' & q & q' & Hk & Hk' & Hne).
    unfold get. rewrite Hc, Hk, Hk'. now rewrite assign_frame.
Qed.

Lemma set_writes_one_path_witness :
  let self := mk DEFAULT_CONFIG [] in
  let after := fst (set self "language.recognition" (JStr "zh")) in
  (forall default, get after "language.recognition" default = JStr "zh")
  /\ (forall key_path' default,
         diverge (split "language.recognition") (split key_path') ->
         get after key_path' default = get self key_path' default).
Proof.
  apply (set_writes_one_path (mk DEFAULT_CONFIG []) "language.recognition"
           (JStr "zh")).
  reflexivity.
Defined.

(** The configuration manager's test and the controller's:
    [api_key and api_key.strip()] holds exactly when the key has a
    character that is not white space. *)
Lemma validate_api_key_iff (config_arg : SpeechTideApp.Config) :
  SpeechTideApp.validate_api_key config_arg = true
  <-> forallb Py.isspace (Py.chars (SpeechTideApp.openai_api_key config_arg))
      = false.
Proof.
  unfold SpeechTideApp.validate_api_key. cbv zeta.
  set (s := SpeechTideApp.openai_api_key config_arg).
  pose proof (PyProperties.strip_empty_iff s) as Hstrip.
  destruct (forallb Py.isspace (Py.chars s)) eqn:E.
  - destruct Hstrip as [_ ->]; [|reflexivity].
    rewrite andb_false_r. split; discriminate.
  - split; [reflexivity|]. intros _.
    assert (Hs : Py.strip s <> "").
    { intros H. apply Hstrip in H. discriminate. }
    destruct s as [|c s']; [discriminate|].
    destruct (Py.strip (String c s')); [contradiction|reflexivity].
Qed.

(** X27: the key the settings dialog stores is the key that is
    validated.  After [set("openai.api_key", s)] has returned,
    [validate_api_key] returns without raising, and says yes exactly
    when [s] holds a character that is not white space, that is, when
    it is neither empty nor blank: what the controller's test of a
    configuration whose key is [s] says. *)
Theorem stored_api_key_validates (self : t) (s : string)
    (config_arg : SpeechTideApp.Config) :
  snd (set self "openai.api_key" (JStr s)) = inl () ->
  SpeechTideApp.openai_api_key config_arg = s ->
  validate_api_key (fst (set self "openai.api_key" (JStr s)))
  = inl (SpeechTideApp.validate_api_key config_arg)
  /\ (SpeechTideApp.validate_api_key config_arg = true
      <-> forallb Py.isspace (Py.chars s) = false).
Proof.
  intros Hok Hs. split.
  - unfold validate_api_key, get.
    destruct (set_unfold self "openai.api_key" (JStr s)) as [Hc Ho].
    rewrite Ho in Hok. rewrite Hc, (assign_lookup _ _ _ Hok).
    unfold SpeechTideApp.validate_api_key. rewrite Hs. cbn [truthy].
    now destruct (Py.truthy s).
  - rewrite <- Hs. apply validate_api_key_iff.
Qed.

(** A key that is blank: one no-break space (U+00A0). *)
Lemma stored_api_key_validates_witness :
  let s := Py.chr 160 in
  validate_api_key (fst (set (mk DEFAULT_CONFIG []) "openai.api_key" (JStr s)))
  = inl false
  /\ (SpeechTideApp.validate_api_key (SpeechTideApp.DEFAULT_CONFIG s) = true
      <-> forallb Py.isspace (Py.chars s) = false).
Proof.
  apply (stored_api_key_validates (mk DEFAULT_CONFIG []) (Py.chr 160)
           (SpeechTideApp.DEFAULT_CONFIG (Py.chr 160)));
    reflexivity.
Defined.

(** *** Loading the file over the defaults *)

(** The value [_merge_config] stores under a key. *)
Definition merged_value (base : Dict) (key : string) (value : Json) : Json :=
  match dict_get base key, value with
  | Some (JDict b), JDict _ => JDict (merge_into value b)
  | _, _ => value
  end.

Lemma merge_into_cons (key : string) (value : Json) (rest base : Dict) :
  merge_into (JDict ((key, value) :: rest)) base
  = merge_into (JDict rest) (dict_set base key (merged_value base key value)).
Proof.
  unfold merged_value. cbn.
  destruct (dict_get base key) as [[]|]; try reflexivity.
  now destruct value.
Qed.

Lemma dict_get_absent (d : Dict) (key : string) :
  ~ In key (map fst d) -> dict_get d key = None.
Proof.
  induction d as [|[k v] d IH]; [reflexivity|]. cbn. intros H.
  destruct (String.eqb_spec k key) as [->|Hne]; [tauto|].
  apply IH. tauto.
Qed.

(** One level of the merge, for an update whose keys are distinct. *)
Lemma dict_get_merge (items base : Dict) (key : string) :
  List.NoDup (map fst items) ->
  dict_get (merge_into (JDict items) base) key
  = match dict_get items key with
    | Some x => Some (merged_value base key x)
    | None => dict_get base key
    end.
Proof.
  intros Hnd. revert base.
  induction items as [|[k v] items IH]; intros base; [reflexivity|].
  cbn [map fst] in Hnd. apply List.NoDup_cons_iff in Hnd as [Hk Hnd].
  rewrite merge_into_cons, (IH Hnd). cbn [dict_get].
  destruct (String.eqb_spec k key) as [->|Hne].
  - rewrite (dict_get_absent items key Hk). apply dict_get_set.
  - rewrite (dict_get_set_other _ _ _ _ Hne).
    unfold merged_value at 1. now rewrite (dict_get_set_other _ _ _ _ Hne).
Qed.

(** Along the path, every dict of the value has each key once, as the
    dicts [json.load] builds. *)
Fixpoint unique_along (items : Dict) (keys : list string) : Prop :=
  match keys with
  | [] => True
  | key :: rest =>
      List.NoDup (map fst items)
      /\ match dict_get items key with
         | Some (JDict child) => unique_along child rest
         | _ => True
         end
  end.

Lemma lookup_leaf (x : Json) (keys : list string) (v : Json) :
  lookup x keys = inl v -> is_dict x = false -> keys = [] /\ v = x.
Proof.
  destruct keys as [|k rest]; [now intros [= ->]|].
  now destruct x.
Qed.

Lemma merge_overrides (keys : list string) (update base : Dict) (v : Json) :
  unique_along update keys ->
  lookup (JDict update) keys = inl v ->
  is_dict v = false ->
  lookup (JDict (_merge_config base update)) keys = inl v.
Proof.
  unfold _merge_config. revert update base.
  induction keys as [|key rest IH]; intros update base Hu Hl Hv.
  - injection Hl as <-. discriminate.
  - destruct Hu as [Hnd Hu]. cbn [lookup] in *.
    rewrite (dict_get_merge _ _ _ Hnd).
    destruct (dict_get update key) as [x|]; [|discriminate].
    unfold merged_value.
    destruct x as [| | | | | |xs];
      try (destruct (lookup_leaf _ _ _ Hl eq_refl) as [-> ->];
           now destruct (dict_get base key) as [[]|]).
    destruct (dict_get base key) as [[| | | | | |b]|]; try exact Hl.
    destruct rest as [|k2 rest]; [injection Hl as <-; discriminate|].
    now apply IH.
Qed.

Lemma merge_keeps (keys : list string) (update base : Dict) (v : Json) :
  unique_along update keys ->
  lookup (JDict update) keys = inr KeyError ->
  lookup (JDict base) keys = inl v ->
  lookup (JDict (_merge_config base update)) keys = inl v.
Proof.
  unfold _merge_config. revert update base.
  induction keys as [|key rest IH]; intros update base Hu Hl Hb.
  - discriminate.
  - destruct Hu as [Hnd Hu]. cbn [lookup] in *.
    rewrite (dict_get_merge _ _ _ Hnd).
    destruct (dict_get update key) as [x|]; [|exact Hb].
    destruct (dict_get base key) as [y|] eqn:Ey; [|discriminate].
    unfold merged_value. rewrite Ey.
    destruct rest as [|k2 rest]; [discriminate|].
    destruct x as [| | | | | |xs]; try discriminate.
    destruct y as [| | | | | |b]; try discriminate.
    now apply IH.
Qed.

(** X28: loading the file merges it over the defaults.  After
    [load_config] on a file that parses to a dict, for a key path along
    which the dicts of the file hold each key once (as [json.load]
    builds them): when the path leads, in the file, to a value that is
    not a dict, [get] returns the file's value, whatever the
    configuration held there before; when the file lacks the path
    (somewhere along it a dict of the file has no such key) and the
    configuration had a value there, [get] returns what it returned
    before. *)
Theorem loaded_file_merges (self : t) (file_config : Dict)
    (written : unit + Raised) (key_path : string) (default : Json) :
  unique_along file_config (split key_path) ->
  let loaded := load_config self (Some (inl (JDict file_config))) written in
  (forall v,
      lookup (JDict file_config) (split key_path) = inl v ->
      is_dict v = false ->
      get loaded key_path default = v)
  /\ (forall v,
         lookup (JDict file_config) (split key_path) = inr KeyError ->
         lookup (JDict (config self)) (split key_path) = inl v ->
         get loaded key_path default = get self key_path default).
Proof.
  intros Hu. cbv zeta. unfold get, load_config. cbn [config]. split.
  - intros v Hl Hv. now rewrite (merge_overrides _ _ _ _ Hu Hl Hv).
  - intros v Hl Hb. now rewrite (merge_keeps _ _ _ _ Hu Hl Hb), Hb.
Qed.

(** A configuration file that sets the API key and nothing else. *)
Definition key_only_file : Dict :=
  [("openai", JDict [("api_key", JStr "sk-file")])].

Lemma NoDup_one (key : string) : List.NoDup [key].
Proof. constructor; [intros []|constructor]. Qed.

Lemma loaded_file_merges_witness :
  let loaded := __init__ (Some (inl (JDict key_only_file))) (inl ()) in
  (forall v,
      lookup (JDict key_only_file) (split "openai.base_url") = inl v ->
      is_dict v = false ->
      get loaded "openai.base_url" JNull = v)
  /\ (forall v,
         lookup (JDict key_only_file) (split "openai.base_url")
         = inr KeyError ->
         lookup (JDict DEFAULT_CONFIG) (split "openai.base_url") = inl v ->
         get loaded "openai.base_url" JNull
         = get (mk DEFAULT_CONFIG []) "openai.base_url" JNull).
Proof.
  apply (loaded_file_merges (mk DEFAULT_CONFIG []) key_only_file (inl ())
           "openai.base_url" JNull).
  split; [apply NoDup_one|]. split; [apply NoDup_one|exact I].
Defined.

End ConfigProperties.

(** * Messages of a real-time session ([src/openai_client.py]) *)

Module RealtimeMessages.

Import ConfigManager.
Local Open Scope string_scope.
Local Open Scope list_scope.

(** What the message loop meets: [json.loads] rejecting the text, a
    value without the method that is called on it, and whatever a
    callback raises. *)
Inductive Failure : Type :=
| JSONDecodeError (msg : string)
| NoAttribute (msg : string)
| CallbackError (msg : string).

(** [str(e)]. *)
Definition text_of (e : Failure) : string :=
  match e with
  | JSONDecodeError msg | NoAttribute msg | CallbackError msg => msg
  end.

Inductive CallbackOutcome : Type :=
| returns
| raises (e : Failure).

(** The two callbacks of [start_realtime_session]: what each does when
    called. *)
Record Callbacks : Type := mkCallbacks {
  on_transcript : Json -> bool -> CallbackOutcome;
  on_error : Json -> CallbackOutcome
}.

(** One call of a callback, with its arguments. *)
Inductive Call : Type :=
| transcript_call (text : Json) (is_final : bool)
| error_call (error_message : Json).

(** What a piece of the message loop has done: the callbacks it called,
    oldest first, the errors it logged, and whether it returned or
    raised. *)
Record Run : Type := mkRun {
  calls : list Call;
  logged : list string;
  outcome : unit + Failure
}.

Definition silent : Run := mkRun [] [] (inl ()).

Definition failed (e : Failure) : Run := mkRun [] [] (inr e).

Definition of_outcome (o : CallbackOutcome) : unit + Failure :=
  match o with
  | returns => inl ()
  | raises e => inr e
  end.

(** [d.get(key, default)] on a dict. *)
Definition get_default (d : Dict) (key : string) (default : Json) : Json :=
  match dict_get d key with
  | Some v => v
  | None => default
  end.

(** [data.get("error", {}).get("message", default)]: only a dict has
    [get]. *)
Definition error_message (data : Dict) (default : string) : Json + Failure :=
  match get_default data "error" (JDict []) with
  | JDict err => inl (get_default err "message" (JStr default))
  | _ => inr (NoAttribute "object has no attribute 'get'")
  end.

(** [message_type == literal], for [message_type = data.get("type")]. *)
Definition type_is (data : Dict) (literal : string) : bool :=
  match dict_get data "type" with
  | Some (JStr s) => String.eqb s literal
  | _ => false
  end.

(** An error branch: the message is looked up, logged and passed to
    [on_error]. *)
Definition report (cb : Callbacks) (data : Dict) (default log_line : string)
  : Run :=
  match error_message data default with
  | inl error_msg =>
      mkRun [error_call error_msg] [log_line] (of_outcome (on_error cb error_msg))
  | inr e => failed e
  end.

(** The [try] block of [_process_realtime_message]; [parsed] is what
    [json.loads(message)] gives. *)
Definition try_block (parsed : Json + Failure) (cb : Callbacks) : Run :=
  match parsed with
  | inr e => failed e
  | inl (JDict data) =>
      if type_is data "input_audio_buffer.speech_started" then silent
      else if type_is data "input_audio_buffer.speech_stopped" then silent
      else if type_is data
                "conversation.item.input_audio_transcription.completed" then
        let transcript := get_default data "transcript" (JStr "") in
        mkRun [transcript_call transcript false] []
          (of_outcome (on_transcript cb transcript false))
      else if type_is data
                "conversation.item.input_audio_transcription.failed" then
        report cb data "Transcription failed" "Transcription error"
      else if type_is data "response.audio_transcript.delta" then
        let delta := get_default data "delta" (JStr "") in
        mkRun [transcript_call delta false] []
          (of_outcome (on_transcript cb delta false))
      else if type_is data "response.audio_transcript.done" then
        let transcript := get_default data "transcript" (JStr "") in
        mkRun [transcript_call transcript true] []
          (of_outcome (on_transcript cb transcript true))
      else if type_is data "error" then
        report cb data "Unknown error" "Real-time API error"
      else silent
  | inl _ => failed (NoAttribute "object has no attribute 'get'")
  end.

(** [_process_realtime_message]: whatever the [try] block raises is
    logged and reported through [on_error]; what [on_error] raises then
    leaves the function. *)
Definition _process_realtime_message (parsed : Json + Failure)
    (cb : Callbacks) : Run :=
  let tried := try_block parsed cb in
  match outcome tried with
  | inl _ => tried
  | inr e =>
      let error_msg := JStr ("Message processing error: " ++ text_of e) in
      mkRun (calls tried ++ [error_call error_msg])
        (logged tried ++ ["Error processing real-time message"])
        (of_outcome (on_error cb error_msg))
  end.

(** The message loop of [start_realtime_session]: the messages of the
    connection are processed in order until one of them makes
    [_process_realtime_message] raise. *)
Fixpoint receive (messages : list (Json + Failure)) (cb : Callbacks) : Run :=
  match messages with
  | [] => silent
  | parsed :: rest =>
      let first := _process_realtime_message parsed cb in
      match outcome first with
      | inl _ =>
          let others := receive rest cb in
          mkRun (calls first ++ calls others) (logged first ++ logged others)
            (outcome others)
      | inr e => first
      end
  end.

End RealtimeMessages.

Module RealtimeProperties.

Import ConfigManager RealtimeMessages.
Local Open Scope string_scope.
Local Open Scope list_scope.

(** The texts passed to [on_transcript] as final. *)
Fixpoint final_transcripts (l : list Call) : list Json :=
  match l with
  | [] => []
  | transcript_call text true :: rest => text :: final_transcripts rest
  | _ :: rest => final_transcripts rest
  end.

(** The transcript a message announces as final: that of an object of
    type ["response.audio_transcript.done"]. *)
Definition announced (parsed : Json + Failure) : option Json :=
  match parsed with
  | inl (JDict data) =>
      if type_is data "response.audio_transcript.done"
      then Some (get_default data "transcript" (JStr ""))
      else None
  | _ => None
  end.

Lemma final_transcripts_app (l l' : list Call) :
  final_transcripts (l ++ l') = final_transcripts l ++ final_transcripts l'.
Proof.
  induction l as [|[text [|]|msg] l IH]; cbn; now rewrite ?IH.
Qed.

Lemma type_is_one (data : Dict) (a b : string) :
  type_is data a = true -> a <> b -> type_is data b = false.
Proof.
  unfold type_is.
  destruct (dict_get data "type") as [[| | | |s| |]|]; try discriminate.
  intros Ha%String.eqb_eq Hne. subst s. now apply String.eqb_neq.
Qed.

(** One message, when [on_error] does not raise. *)
Lemma process_message_quiet (parsed : Json + Failure) (cb : Callbacks) :
  (forall m, on_error cb m = returns) ->
  let r := _process_realtime_message parsed cb in
  outcome r = inl ()
  /\ final_transcripts (calls r)
     = match announced parsed with Some text => [text] | None => [] end
  /\ (length (calls r) <= 2)%nat.
Proof.
  intros Hquiet. cbv zeta. unfold _process_realtime_message.
  assert (Hreport : forall data default line,
             let r := report cb data default line in
             (outcome r = inl () \/ calls r = [])
             /\ final_transcripts (calls r) = []
             /\ (length (calls r) <= 1)%nat).
  { intros data default line. unfold report.
    destruct (error_message data default) as [m|e]; cbn.
    - rewrite Hquiet. cbn. auto.
    - auto. }
  assert (Hfinish : forall tried : Run,
             (length (calls tried) <= 1)%nat ->
             let r :=
               match outcome tried with
               | inl _ => tried
               | inr e =>
                   mkRun (calls tried
                          ++ [error_call
                                (JStr ("Message processing error: "
                                       ++ text_of e))])
                     (logged tried ++ ["Error processing real-time message"])
                     (of_outcome
                        (on_error cb
                           (JStr ("Message processing error: " ++ text_of e))))
               end in
             outcome r = inl ()
             /\ final_transcripts (calls r) = final_transcripts (calls tried)
             /\ (length (calls r) <= 2)%nat).
  { intros tried Hlen. cbv zeta. destruct (outcome tried) as [[]|e] eqn:E.
    - rewrite E. repeat split. lia.
    - cbn. rewrite Hquiet, final_transcripts_app, length_app. cbn.
      rewrite app_nil_r. repeat split. lia. }
  assert (Hclose : forall tried : Run,
             (length (calls tried) <= 1)%nat ->
             forall expected,
               final_transcripts (calls tried) = expected ->
               let r :=
                 match outcome tried with
                 | inl _ => tried
                 | inr e =>
                     mkRun (calls tried
                            ++ [error_call
                                  (JStr ("Message processing error: "
                                         ++ text_of e))])
                       (logged tried
                        ++ ["Error processing real-time message"])
                       (of_outcome
                          (on_error cb
                             (JStr ("Message processing error: "
                                    ++ text_of e))))
                 end in
               outcome r = inl ()
               /\ final_transcripts (calls r) = expected
               /\ (length (calls r) <= 2)%nat).
  { intros tried Hlen expected <-. now apply Hfinish. }
  clear Hfinish. unfold announced.
  destruct parsed as [[| | | | | |data]|e];
    try (apply (Hclose (failed _)); [cbn; lia|reflexivity]).
  unfold try_block.
  destruct (type_is data "input_audio_buffer.speech_started") eqn:E1.
  { rewrite (type_is_one data _ "response.audio_transcript.done" E1)
      by discriminate.
    apply (Hclose silent); [cbn; lia|reflexivity]. }
  destruct (type_is data "input_audio_buffer.speech_stopped") eqn:E2.
  { rewrite (type_is_one data _ "response.audio_transcript.done" E2)
      by discriminate.
    apply (Hclose silent); [cbn; lia|reflexivity]. }
  destruct (type_is data
              "conversation.item.input_audio_transcription.completed") eqn:E3.
  { rewrite (type_is_one data _ "response.audio_transcript.done" E3)
      by discriminate.
    apply (Hclose (mkRun _ _ _)); [cbn; lia|reflexivity]. }
  destruct (type_is data
              "conversation.item.input_audio_transcription.failed") eqn:E4.
  { rewrite (type_is_one data _ "response.audio_transcript.done" E4)
      by discriminate.
    destruct (Hreport data "Transcription failed" "Transcription error")
      as (_ & Hf & Hl).
    now apply Hclose. }
  destruct (type_is data "response.audio_transcript.delta") eqn:E5.
  { rewrite (type_is_one data _ "response.audio_transcript.done" E5)
      by discriminate.
    apply (Hclose (mkRun _ _ _)); [cbn; lia|reflexivity]. }
  destruct (type_is data "response.audio_transcript.done") eqn:E6.
  { apply (Hclose (mkRun _ _ _)); [cbn; lia|reflexivity]. }
  destruct (type_is data "error") eqn:E7.
  { destruct (Hreport data "Unknown error" "Real-time API error")
      as (_ & Hf & Hl).
    now apply Hclose. }
  apply (Hclose silent); [cbn; lia|reflexivity].
Qed.

(** X29: no message can end the message loop, and final transcripts
    arrive in order.  When [on_error] does not raise, the loop processes
    every message of the connection, whatever it is (text that is not
    JSON, a JSON value that is not an object, an object whose fields
    have the wrong types) and even when [on_transcript] raises.
    [on_transcript] is called with the final flag once for each object
    of type ["response.audio_transcript.done"], in the order of
    arrival, with that object's transcript, and for nothing else; and no
    message causes more than two callback calls. *)
Theorem message_loop_never_raises (messages : list (Json + Failure))
    (cb : Callbacks) :
  (forall m, on_error cb m = returns) ->
  let r := receive messages cb in
  outcome r = inl ()
  /\ final_transcripts (calls r) = omap announced messages
  /\ (length (calls r) <= 2 * length messages)%nat.
Proof.
  intros Hquiet. cbv zeta.
  induction messages as [|parsed rest (IH1 & IH2 & IH3)].
  - repeat split. cbn. lia.
  - destruct (process_message_quiet parsed cb Hquiet) as (H1 & H2 & H3).
    cbv zeta in H1, H2, H3. cbn [receive]. rewrite H1. cbn [outcome calls].
    rewrite final_transcripts_app, length_app, H2, IH2. cbn [length].
    split; [exact IH1|]. split; [|lia].
    cbn. now destruct (announced parsed).
Qed.

(** Callbacks that always return, except that [on_transcript] raises
    on a final transcript. *)
Definition touchy_callbacks : Callbacks :=
  mkCallbacks
    (fun _ is_final =>
       if is_final then raises (CallbackError "not now") else returns)
    (fun _ => returns).

Lemma message_loop_never_raises_witness :
  let messages :=
    [inr (JSONDecodeError "Expecting value");
     inl (JList []);
     inl (JDict [("type", JStr "response.audio_transcript.done");
                 ("transcript", JStr "hello")]);
     inl (JDict [("type", JStr "error"); ("error", JStr "overloaded")])] in
  let r := receive messages touchy_callbacks in
  outcome r = inl ()
  /\ final_transcripts (calls r) = omap announced messages
  /\ (length (calls r) <= 2 * length messages)%nat.
Proof.
  apply (message_loop_never_raises
           [inr (JSONDecodeError "Expecting value");
            inl (JList []);
            inl (JDict [("type", JStr "response.audio_transcript.done");
                        ("transcript", JStr "hello")]);
            inl (JDict [("type", JStr "error"); ("error", JStr "overloaded")])]
           touchy_callbacks).
  reflexivity.
Defined.

End RealtimeProperties.

(** * The conversation logger ([src/conversation_logger.py]) *)

From stdpp Require Import pretty.

Module ConversationLogger.

Local Open Scope string_scope.
Local Open Scope list_scope.

(** [" ".join(words)]. *)
Definition join (words : list string) : string := String.concat " " words.

(** One entry of a session's ["interactions"]. *)
Record InteractionRecord : Type := mkRecord {
  interaction_id : string;
  timestamp : string;
  interaction_mode : string;
  transcription : string;
  duration : Q;
  audio_length : nat;
  interaction_word_count : nat;
  audio_file : string
}.

(** The dict [current_session]. *)
Record Session : Type := mkSession {
  session_id : string;
  session_number : N;
  mode : string;
  start_time : string;
  end_time : option string;
  interactions : list InteractionRecord;
  total_duration : Q;
  word_count : nat;
  title : string
}.

Inductive LogRecord : Type :=
| info (msg : string)
| error (msg : string).

(** The fields of [ConversationLogger].  The session files it writes
    are not part of the state. *)
Record t : Type := mk {
  current_session : option Session;
  session_counter : N;
  logger : list LogRecord
}.

(** [__init__]; [next_session_number] is what
    [_get_next_session_number] finds in the directory. *)
Definition __init__ (next_session_number : N) : t :=
  mk None next_session_number [info "ConversationLogger initialized"].

Definition log (self : t) (r : LogRecord) : t :=
  mk (current_session self) (session_counter self) (logger self ++ [r]).

Definition set_current_session (self : t) (s : option Session) : t :=
  mk s (session_counter self) (logger self).

(** The title a session starts with: [f"Session {session_counter}"]. *)
Definition default_title (session_counter : N) : string :=
  "Session " +:+ pretty session_counter.

(** [start_session]; [uuid] and [now] are what [uuid.uuid4()] and
    [datetime.now().isoformat()] give. *)
Definition start_session (self : t) (mode_arg uuid now : string)
  : t * string :=
  let session :=
    mkSession uuid (session_counter self) mode_arg now None [] 0 0%nat
      (default_title (session_counter self)) in
  (log (set_current_session self (Some session)) (info "Started new session"),
   uuid).

(** [_update_session_title] on the current session. *)
Definition _update_session_title (self : t) (transcription_arg : string) : t :=
  match current_session self with
  | None => self
  | Some session =>
      if negb (String.eqb (title session)
                 (default_title (session_counter self)))
      then self
      else
        let words := Py.split (Py.strip transcription_arg) in
        match words with
        | [] => self
        | _ :: _ =>
            let title_words := firstn 6 words in
            let title := join title_words in
            let title :=
              if (50 <? Py.len title)%nat
              then Py.slice_to 47 title +:+ "..."
              else title in
            set_current_session self
              (Some (mkSession (session_id session) (session_number session)
                       (mode session) (start_time session)
                       (end_time session) (interactions session)
                       (total_duration session) (word_count session) title))
        end
  end.

(** [_save_current_session]; [written] is what writing the session
    file does.  A failure is logged, not raised. *)
Definition _save_current_session (self : t) (written : result unit) : t :=
  match current_session self with
  | None => self
  | Some _ =>
      match written with
      | inl _ => self
      | inr e => log self (error "Error saving session")
      end
  end.

(** What one call of [log_interaction] gets from outside: fresh
    identifiers and times, and what the two file writes do. *)
Record Outside : Type := mkOutside {
  session_uuid : string;
  session_now : string;
  interaction_uuid : string;
  interaction_now : string;
  audio_written : result unit;
  session_written : result unit
}.

(** The dict [interaction] that [log_interaction] builds; the
    [metadata] argument is stored and not read. *)
Definition new_interaction (session_counter_now : N) (audio_data : bytes)
    (transcription_arg mode_arg : string) (duration_arg : option Q)
    (outside : Outside) : InteractionRecord :=
  mkRecord (interaction_uuid outside) (interaction_now outside)
    mode_arg transcription_arg
    (match duration_arg with
     | Some d => if Qeq_bool d 0 then 0 else d
     | None => 0
     end)
    (length audio_data)
    (if Py.truthy transcription_arg
     then length (Py.split transcription_arg)
     else 0%nat)
    ("session_" +:+ pretty session_counter_now +:+ "/audio/"
     +:+ interaction_uuid outside +:+ ".wav").

(** The interaction is appended to the session and added to its
    totals. *)
Definition add_interaction (session : Session)
    (interaction : InteractionRecord) : Session :=
  mkSession (session_id session) (session_number session)
    (mode session) (start_time session) (end_time session)
    (interactions session ++ [interaction])
    (total_duration session + duration interaction)
    (word_count session + interaction_word_count interaction)
    (title session).

(** [log_interaction].  The audio file is written before anything is
    added to the session, outside any [try]: when that raises, the call
    raises. *)
Definition log_interaction (self : t) (audio_data : bytes)
    (transcription_arg mode_arg : string) (duration_arg : option Q)
    (outside : Outside) : t * result unit :=
  let self :=
    match current_session self with
    | None =>
        fst (start_session self mode_arg (session_uuid outside)
               (session_now outside))
    | Some _ => self
    end in
  match current_session self with
  | None => (self, ret ())
  | Some session =>
      let interaction :=
        new_interaction (session_counter self) audio_data transcription_arg
          mode_arg duration_arg outside in
      match audio_written outside with
      | inr e => (self, raise e)
      | inl _ =>
          let self :=
            set_current_session self
              (Some (add_interaction session interaction)) in
          let self :=
            if Py.truthy transcription_arg
               && (0 <? Py.len (Py.strip transcription_arg))%nat
            then _update_session_title self transcription_arg
            else self in
          let self := _save_current_session self (session_written outside) in
          (log self (info "Logged interaction"), ret ())
      end
  end.

(** [end_session]. *)
Definition end_session (self : t) (now : string) (written : result unit)
  : t * option Session :=
  match current_session self with
  | None => (self, None)
  | Some session =>
      let session :=
        mkSession (session_id session) (session_number session)
          (mode session) (start_time session) (Some now)
          (interactions session) (total_duration session)
          (word_count session) (title session) in
      let self := set_current_session self (Some session) in
      let self := _save_current_session self written in
      let session_data := session in
      let self :=
        mk None (session_counter self + 1)%N
           (logger self ++ [info "Ended session"]) in
      (self, Some session_data)
  end.

(** The calls a client of the logger makes, with what each gets from
    outside. *)
Inductive Call : Type :=
| call_start_session (mode_arg uuid now : string)
| call_log_interaction (audio_data : bytes) (transcription_arg mode_arg : string)
    (duration_arg : option Q) (outside : Outside)
| call_end_session (now : string) (written : result unit).

Definition call (self : t) (c : Call) : t :=
  match c with
  | call_start_session mode_arg uuid now =>
      fst (start_session self mode_arg uuid now)
  | call_log_interaction audio_data transcription_arg mode_arg duration_arg
      outside =>
      fst (log_interaction self audio_data transcription_arg mode_arg
             duration_arg outside)
  | call_end_session now written => fst (end_session self now written)
  end.

Definition calls_from (self : t) (l : list Call) : t := fold_left call l self.

End ConversationLogger.

Module LoggerProperties.

Import ConversationLogger.
Local Open Scope string_scope.
Local Open Scope list_scope.

(** The sums [log_interaction] keeps as it goes. *)
Definition sum_word_counts (l : list InteractionRecord) : nat :=
  fold_left (fun total i => (total + interaction_word_count i)%nat) l 0%nat.

Definition sum_durations (l : list InteractionRecord) : Q :=
  fold_left (fun total i => (total + duration i)%Q) l 0%Q.

(** What holds of a session while it is the current one. *)
Record kept (session_counter_now : N) (s : Session) : Prop := mkKept {
  kept_number : session_number s = session_counter_now;
  kept_words : word_count s = sum_word_counts (interactions s);
  kept_duration : total_duration s = sum_durations (interactions s);
  kept_counts :
    Forall (fun i => interaction_word_count i
                     = length (Py.split (transcription i)))
      (interactions s);
  kept_title :
    title s = default_title session_counter_now
    \/ (Py.len (title s) <= 50)%nat
}.

Definition well_kept (self : t) : Prop :=
  forall s, current_session self = Some s -> kept (session_counter self) s.

Lemma update_session_title_kept (self : t) (transcription_arg : string) :
  well_kept self -> well_kept (_update_session_title self transcription_arg).
Proof.
  intros Hk. unfold _update_session_title.
  destruct (current_session self) as [session|] eqn:E; [|exact Hk].
  destruct (negb _); [exact Hk|].
  destruct (Py.split (Py.strip transcription_arg)) as [|w ws] eqn:Ew;
    [exact Hk|].
  destruct (Hk session E) as [H1 H2 H3 H4 H5].
  set (joined := join (firstn 6 (w :: ws))).
  assert (Hbound : (Py.len
                      (if (50 <? Py.len joined)%nat
                       then Py.slice_to 47 joined +:+ "..."
                       else joined) <= 50)%nat).
  { destruct (Nat.ltb_spec 50 (Py.len joined)) as [Hlong|Hshort];
      [|exact Hshort].
    rewrite PyProperties.len_app by reflexivity.
    pose proof (PyProperties.len_slice_to 47 joined).
    change (Py.len "...") with 3%nat. lia. }
  set (new_title := if (50 <? Py.len joined)%nat then _ else _) in *.
  clearbody new_title. clear joined.
  intros s [= <-]. constructor; cbn; try assumption. now right.
Qed.

Lemma save_current_session_kept (self : t) (written : result unit) :
  well_kept self -> well_kept (_save_current_session self written).
Proof.
  intros Hk. unfold _save_current_session.
  destruct (current_session self) as [session|] eqn:E; [|exact Hk].
  destruct written as [u|e]; [exact Hk|]. intros s Hs. cbn in Hs.
  now apply Hk.
Qed.

Lemma start_session_kept (self : t) (mode_arg uuid now : string) :
  well_kept (fst (start_session self mode_arg uuid now)).
Proof.
  intros s [= <-]. constructor; cbn; try reflexivity; [constructor|now left].
Qed.

Lemma add_interaction_kept (counter : N) (session : Session)
    (audio_data : bytes) (transcription_arg mode_arg : string)
    (duration_arg : option Q) (outside : Outside) :
  kept counter session ->
  kept counter
    (add_interaction session
       (new_interaction counter audio_data transcription_arg mode_arg
          duration_arg outside)).
Proof.
  intros [H1 H2 H3 H4 H5]. constructor; cbn.
  - exact H1.
  - unfold sum_word_counts. rewrite fold_left_app. cbn. now rewrite H2.
  - unfold sum_durations. rewrite fold_left_app. cbn. now rewrite H3.
  - apply Forall_app. split; [exact H4|]. constructor; [|constructor].
    cbn. now destruct transcription_arg.
  - exact H5.
Qed.

Lemma log_interaction_kept (self : t) (audio_data : bytes)
    (transcription_arg mode_arg : string) (duration_arg : option Q)
    (outside : Outside) :
  well_kept self ->
  well_kept (fst (log_interaction self audio_data transcription_arg mode_arg
                    duration_arg outside)).
Proof.
  intros Hk. unfold log_interaction.
  set (started :=
         match current_session self with
         | None =>
             fst (start_session self mode_arg (session_uuid outside)
                    (session_now outside))
         | Some _ => self
         end).
  assert (Hstarted : well_kept started).
  { unfold started. destruct (current_session self); [exact Hk|].
    apply start_session_kept. }
  destruct (current_session started) as [session|] eqn:E; [|exact Hstarted].
  destruct (audio_written outside) as [u|e]; [|exact Hstarted].
  cbn [fst].
  set (interaction := new_interaction _ _ _ _ _ _).
  assert (Hadded : well_kept
                     (set_current_session started
                        (Some (add_interaction session interaction)))).
  { intros s [= <-]. apply add_interaction_kept. now apply Hstarted. }
  assert (Htitled : well_kept
                      (if Py.truthy transcription_arg
                          && (0 <? Py.len (Py.strip transcription_arg))%nat
                       then _update_session_title
                              (set_current_session started
                                 (Some (add_interaction session interaction)))
                              transcription_arg
                       else set_current_session started
                              (Some (add_interaction session interaction)))).
  { destruct (Py.truthy transcription_arg && _); [|exact Hadded].
    now apply update_session_title_kept. }
  apply (save_current_session_kept _ (session_written outside)) in Htitled.
  intros s Hs. now apply Htitled.
Qed.

Lemma end_session_kept (self : t) (now : string) (written : result unit) :
  well_kept self ->
  well_kept (fst (end_session self now written))
  /\ forall s, snd (end_session self now written) = Some s ->
               kept (session_counter self) s.
Proof.
  intros Hk. unfold end_session.
  destruct (current_session self) as [session|] eqn:E.
  - cbn [fst snd]. split; [intros s; discriminate|].
    intros s [= <-]. destruct (Hk session E). now constructor.
  - split; [exact Hk|discriminate].
Qed.

Lemma calls_from_kept (l : list Call) (self : t) :
  well_kept self -> well_kept (calls_from self l).
Proof.
  unfold calls_from. revert self.
  induction l as [|c l IH]; intros self Hk; [exact Hk|].
  cbn [fold_left]. apply IH.
  destruct c as [m u n|a tr m d o|n w]; cbn [call].
  - apply start_session_kept.
  - now apply log_interaction_kept.
  - now apply end_session_kept.
Qed.

(** Titles are cut by characters, not by bytes.  A first transcription
    of 18 Chinese characters, 54 bytes in UTF-8, becomes the title as it
    is; one of 60 characters is cut after its 47th character and ends
    in three dots, 50 characters in all. *)
Definition quiet_outside : Outside :=
  mkOutside "session-id" "2025-01-01T10:00:00" "interaction-id"
    "2025-01-01T10:00:05" (inl ()) (inl ()).

Definition ten_characters : string := "一二三四五六七八九十".

Lemma title_counts_characters :
  let short := ten_characters +:+ "一二三四五六七八" in
  let long :=
    ten_characters +:+ ten_characters +:+ ten_characters +:+ ten_characters
    +:+ ten_characters +:+ ten_characters in
  let titled (text : string) :=
    title <$> current_session
                (calls_from (__init__ 1)
                   [call_log_interaction [] text "transcribe" None
                      quiet_outside]) in
  String.length short = 54%nat
  /\ titled short = Some short
  /\ titled long
     = Some (ten_characters +:+ ten_characters +:+ ten_characters
             +:+ ten_characters +:+ "一二三四五六七" +:+ "...")
  /\ (Py.len <$> titled long) = Some 50%nat.
Proof. repeat split; vm_compute; reflexivity. Qed.

(** X30: the session's books are kept.  After any sequence of
    [start_session], [log_interaction] and [end_session] calls on a new
    logger, whatever their arguments and whatever the file writes do,
    the current session, if there is one, carries the logger's session
    number; its word count is the sum of the word counts of its
    interactions, each the number of words of its transcription; its
    total duration is the sum of their durations; and its title is
    either ["Session N"] for that number or at most 50 characters long.
    The same holds of the session [end_session] returns. *)
Theorem session_books_are_kept (next_session_number : N) (l : list Call)
    (now : string) (written : result unit) :
  let self := calls_from (__init__ next_session_number) l in
  (forall s, current_session self = Some s -> kept (session_counter self) s)
  /\ (forall s, snd (end_session self now written) = Some s ->
                kept (session_counter self) s).
Proof.
  cbv zeta.
  assert (H : well_kept (calls_from (__init__ next_session_number) l)).
  { apply calls_from_kept. intros s. discriminate. }
  split; [exact H|]. now apply end_session_kept.
Qed.

End LoggerProperties.
